(** * Ecommerce clickstream dashboard: aggregations, filters and loading

    A shallow embedding of [src/analytics.py], [src/data_loader.py] and the
    filter and funnel parts of [app.py], in two views.

    - [Table], [Analytics] and [App] compute on values.  The loaded table is
      a list of [Event] rows, one field per column; [None] stands for a
      missing entry (NA, NaN).  Session counts are Python [int]s, here
      [nat].  A conversion rate is the Python true division of two such
      counts and is kept as the exact rational quotient: Python rounds that
      quotient to the nearest double, which is monotone and leaves 0 and 1
      fixed, so comparisons of a rate with 0 and 1 carry over.  Sums and
      means of the float32 [price] column are parameters of [compute_kpis];
      [Float32] gives the sum that [Series.sum()] computes.

    - [Frames], [DataLoader] and [Store] treat a table as pandas does: a
      set of labelled, typed columns that may or may not be there
      ([KeyError], [AttributeError]), held in an object that column
      assignment updates in place. *)

From Stdlib Require Import QArith Floats.SpecFloat.
From stdpp Require Import gmap strings list sorting pretty.

Local Open Scope string_scope.
Local Open Scope nat_scope.

(** ** The event table *)

Module Table.

(** One row of the loaded CSV with the derived [event_date] column:
    [event_time] in nanoseconds since the epoch, [event_date] as a day
    number.  Any column may be missing in a row, [None] standing for NA
    (NaT for the two time columns: an empty [event_time] cell is read as
    NaT, and so is its [event_date]).  A [price] is the value of a float32
    cell, [None] for NaN. *)
Record Event := {
  event_time : option Z;
  event_type : option string;
  product_id : option Z;
  category_id : option Z;
  category_code : option string;
  brand : option string;
  price : option Q;
  user_id : option string;
  user_session : option string;
  event_date : option Z
}.

(** [df.empty] on a table whose columns are fixed: no rows. *)
Definition empty {A} (df : list A) : bool :=
  match df with [] => true | _ :: _ => false end.

(** [Series.dropna()] *)
Definition dropna {A} (s : list (option A)) : list A := omap id s.

(** [drop_duplicates()], and [Series.unique()]: of equal entries only
    the first occurrence is kept. *)
Fixpoint drop_duplicates {A} `{EqDecision A} (l : list A) : list A :=
  match l with
  | [] => []
  | x :: l => x :: filter (λ y, y ≠ x) (drop_duplicates l)
  end.

(** [Series.nunique()]: the number of distinct values, NA left out. *)
Definition nunique {A} `{EqDecision A} (s : list (option A)) : nat :=
  length (drop_duplicates (dropna s)).

(** [series == value], elementwise; NA compares unequal. *)
Definition eq_str (value : string) (x : option string) : bool :=
  bool_decide (x = Some value).

(** [series.isin(values)], elementwise; the selections passed by the
    callers hold no NA, so NA is never a member. *)
Definition isin (values : list string) (x : option string) : bool :=
  match x with
  | Some s => bool_decide (s ∈ values)
  | None => false
  end.

(** [Series.min()] and [Series.max()] over the entries that are present,
    for times and dates. *)
Definition minimum (times : list Z) : option Z :=
  match times with
  | [] => None
  | t :: times => Some (foldr Z.min t times)
  end.

Definition maximum (times : list Z) : option Z :=
  match times with
  | [] => None
  | t :: times => Some (foldr Z.max t times)
  end.

End Table.

Export Table.

(** ** Python exceptions *)

Module Errors.

Inductive Exception :=
| FileNotFoundError (msg : string)
| EmptyDataError (msg : string)
| ParserError (msg : string)
| ValueError (msg : string)
| KeyError (key : string)
| AttributeError (msg : string)
| IndexError (msg : string)
| TypeError (msg : string).

(** An exception ends the sequence of statements it is raised in. *)
#[global] Instance result_ret : MRet (sum Exception) := λ A x, inr x.
#[global] Instance result_bind : MBind (sum Exception) := λ A B f m,
  match m with
  | inl exn => inl exn
  | inr x => f x
  end.

End Errors.

Export Errors.

(** ** analytics.py *)

Module Analytics.

(** Python [a / b] on two non-negative [int]s with [b] non-zero. *)
Definition truediv (a b : nat) : Q :=
  (inject_Z (Z.of_nat a) / inject_Z (Z.of_nat b))%Q.

Record Kpis := {
  total_users : nat;
  total_sessions : nat;
  total_revenue : option Q;
  conversion_rate : Q;
  avg_order_value : option Q
}.

Definition str_le (a b : string) : Prop := String.leb a b = true.

#[global] Instance str_le_dec a b : Decision (str_le a b).
Proof. unfold str_le. apply _. Defined.

Section Kpis.

(** The float aggregates of pandas over a float32 column,
    [Series.sum()] and [Series.mean()], are taken as given. *)
Variable series_sum : list (option Q) → option Q.
Variable series_mean : list (option Q) → option Q.

(** [purchases.groupby("user_session")["price"].sum()]: one sum per
    non-NA session, keys in sorted order. *)
Definition session_revenue (purchases : list Event) : list (option Q) :=
  let keys := merge_sort str_le (drop_duplicates (dropna (user_session <$> purchases))) in
  (λ k, series_sum
          (price <$> filter (λ e, user_session e = Some k) purchases)) <$> keys.

Definition compute_kpis (df : list Event) : Kpis :=
  let total_users := nunique (user_id <$> df) in
  let total_sessions := nunique (user_session <$> df) in
  let purchases := filter (λ e, eq_str "purchase" (event_type e)) df in
  let total_revenue := series_sum (price <$> purchases) in
  let conversion_rate :=
    if decide (0 < total_sessions) then
      let sessions_with_purchase := nunique (user_session <$> purchases) in
      truediv sessions_with_purchase total_sessions
    else 0%Q in
  let avg_order_value :=
    if negb (empty purchases)
    then series_mean (session_revenue purchases)
    else Some 0%Q in
  {| total_users := total_users;
     total_sessions := total_sessions;
     total_revenue := total_revenue;
     conversion_rate := conversion_rate;
     avg_order_value := avg_order_value |}.

End Kpis.

(** The one row of the table built by [funnel_by_session]. *)
Record FunnelRow := {
  sessions_with_view : nat;
  sessions_with_cart : nat;
  sessions_with_purchase : nat;
  view_to_cart_rate : Q;
  cart_to_purchase_rate : Q
}.

(** [df[["user_session", "event_type"]]] *)
Definition session_events (df : list Event)
    : list (option string * option string) :=
  (λ e, (user_session e, event_type e)) <$> df.

(** [df[["user_session", "event_type"]].drop_duplicates()] *)
Definition distinct_pairs (df : list Event)
    : list (option string * option string) :=
  drop_duplicates (session_events df).

(** [tmp.loc[tmp["event_type"] == ty, "user_session"].nunique()] *)
Definition sessions_of_type (ty : string)
    (tmp : list (option string * option string)) : nat :=
  nunique (fst <$> filter (λ p, eq_str ty (snd p)) tmp).

Definition funnel_by_session (df : list Event) : list FunnelRow :=
  if empty df then
    [ {| sessions_with_view := 0;
         sessions_with_cart := 0;
         sessions_with_purchase := 0;
         view_to_cart_rate := 0%Q;
         cart_to_purchase_rate := 0%Q |} ]
  else
    let tmp := distinct_pairs df in
    let sessions_with_view := sessions_of_type "view" tmp in
    let sessions_with_cart := sessions_of_type "cart" tmp in
    let sessions_with_purchase := sessions_of_type "purchase" tmp in
    let view_to_cart_rate :=
      if decide (sessions_with_view ≠ 0)
      then truediv sessions_with_cart sessions_with_view else 0%Q in
    let cart_to_purchase_rate :=
      if decide (sessions_with_cart ≠ 0)
      then truediv sessions_with_purchase sessions_with_cart else 0%Q in
    [ {| sessions_with_view := sessions_with_view;
         sessions_with_cart := sessions_with_cart;
         sessions_with_purchase := sessions_with_purchase;
         view_to_cart_rate := view_to_cart_rate;
         cart_to_purchase_rate := cart_to_purchase_rate |} ].

End Analytics.

(** ** The float32 sum behind [total_revenue] *)

Module Float32.

(** Precision and exponent range of IEEE 754 binary32. *)
Definition prec : Z := 24.
Definition emax : Z := 128.

(** Addition, rounded to the nearest float32, ties to even. *)
Definition add : spec_float → spec_float → spec_float := SFadd prec emax.

Definition zero : spec_float := S754_zero false.

(** The float32 cell whose value is [q].  The value of a cell is a dyadic
    rational, numerator over a power of two. *)
Definition of_Q (q : Q) : spec_float :=
  binary_normalize prec emax (Qnum q) (- Z.log2 (Z.pos (Qden q))) false.

(** [float(x)]: the value of a finite float32, nothing for inf and NaN. *)
Definition to_Q (x : spec_float) : option Q :=
  match x with
  | S754_zero _ => Some 0%Q
  | S754_finite s m e =>
      let z := cond_Zopp s (Z.pos m) in
      Some (if decide (0 ≤ e)%Z then inject_Z (z * 2 ^ e)
            else Qmake z (2 ^ Z.to_pos (- e)))
  | _ => None
  end.


(** [for (...) res += a[i]] *)
Definition add_all (res : spec_float) (a : list spec_float) : spec_float :=
  foldl add res a.

(** The unrolled loop of numpy's pairwise summation: eight running sums
    [r], each taking every eighth entry, as long as eight entries are left;
    returns the sums and the entries left over. *)
Fixpoint unrolled (fuel : nat) (r a : list spec_float)
    : list spec_float * list spec_float :=
  match fuel with
  | O => (r, a)
  | S fuel =>
      if decide (8 ≤ length a)
      then unrolled fuel (zip_with add r (take 8 a)) (drop 8 a)
      else (r, a)
  end.

(** [((r[0] + r[1]) + (r[2] + r[3])) + ((r[4] + r[5]) + (r[6] + r[7]))] *)
Definition tree (r : list spec_float) : spec_float :=
  match r with
  | [r0; r1; r2; r3; r4; r5; r6; r7] =>
      add (add (add r0 r1) (add r2 r3)) (add (add r4 r5) (add r6 r7))
  | _ => zero
  end.

(** numpy's pairwise summation of a contiguous float32 array, which
    [ndarray.sum] runs: fewer than 8 entries are added left to right, up to
    128 entries with the unrolled loop, and a longer array is split in two
    at a multiple of 8. *)
Fixpoint pairwise_sum (fuel : nat) (a : list spec_float) : spec_float :=
  let n := length a in
  if decide (n < 8) then add_all zero a
  else if decide (n ≤ 128) then
    let '(r, rest) := unrolled n (take 8 a) (drop 8 a) in
    add_all (tree r) rest
  else
    match fuel with
    | O => zero
    | S fuel =>
        let n2 := n / 2 in
        let n2 := n2 - n2 mod 8 in
        add (pairwise_sum fuel (take n2 a)) (pairwise_sum fuel (drop n2 a))
    end.

(** [float(series.sum())] on a float32 column: pandas puts 0 in place of
    each NaN and has numpy add the entries in float32, starting from 0. *)
Definition series_sum (prices : list (option Q)) : option Q :=
  let values := (λ p, from_option of_Q zero p) <$> prices in
  to_Q (add zero (pairwise_sum (length values) values)).

End Float32.

(** ** app.py: sidebar filters and the funnel tab *)

Module App.

Import Analytics.

(** What [st.sidebar.date_input] hands back: a tuple of the dates picked
    so far, or a single date. *)
Inductive DateInput :=
| DateTuple (dates : list Z)
| DateSingle (d : Z).

(** The values returned by the sidebar widgets during one rerun. *)
Record Sidebar := {
  date_range : DateInput;
  selected : list string;
  chosen_cats : list string;
  chosen_brands : list string
}.

(** Truth value of a Python list. *)
Definition truthy {A} (l : list A) : bool := negb (empty l).

(** The first lines of [apply_filters], which compute the [value] passed to
    [st.sidebar.date_input]: the last 14 days, or from [min_date] if the
    data is shorter.
    [min_date = df["event_date"].min()
     max_date = df["event_date"].max()
     default_start = max_date - timedelta(days=13)
     if default_start < min_date:
         default_start = min_date]
    [event_date] is an object column of [datetime.date] values.  When a
    date is missing beside one that is present, the reduction compares a
    date with the float that stands in for the missing entry and raises;
    when no date is present at all (no rows, or only missing dates) [min()]
    and [max()] return floats and the subtraction of the [timedelta]
    raises. *)
Definition default_date_range (df : list Event) : Exception + Z * Z :=
  let present := dropna (event_date <$> df) in
  match minimum present, maximum present with
  | Some min_date, Some max_date =>
      if bool_decide (Forall (λ e, is_Some (event_date e)) df) then
        let default_start := (max_date - 13)%Z in
        let default_start :=
          if decide (default_start < min_date)%Z then min_date
          else default_start in
        inr (default_start, max_date)
      else
        inl (TypeError
               "'<=' not supported between instances of 'float' and 'datetime.date'")
  | _, _ =>
      inl (TypeError
             "unsupported operand type(s) for -: 'float' and 'datetime.timedelta'")
  end.

(** [(df["event_date"] >= start_date) & (df["event_date"] <= end_date)];
    no date is missing where this is evaluated, [min()] has returned. *)
Definition in_date_range (start_date end_date : Z) (e : Event) : bool :=
  match event_date e with
  | Some d => bool_decide (start_date ≤ d)%Z && bool_decide (d ≤ end_date)%Z
  | None => false
  end.

Definition filter_event_types (selected : list string)
    (filtered : list Event) : list Event :=
  if truthy selected
  then filter (λ e, isin selected (event_type e)) filtered
  else filtered.

(** The column test ["category_code" in filtered.columns] holds for the
    loaded table, as does the one for ["brand"]. *)
Definition filter_categories (chosen_cats : list string)
    (filtered : list Event) : list Event :=
  if truthy chosen_cats
  then filter (λ e, isin chosen_cats (category_code e)) filtered
  else filtered.

Definition filter_brands (chosen_brands : list string)
    (filtered : list Event) : list Event :=
  if truthy chosen_brands
  then filter (λ e, isin chosen_brands (brand e)) filtered
  else filtered.

(** [start_date, end_date = date_range] for a tuple or list, and
    [start_date = end_date = date_range] otherwise. *)
Definition unpack_date_range (date_range : DateInput) : Exception + Z * Z :=
  match date_range with
  | DateTuple [start_date; end_date] => inr (start_date, end_date)
  | DateTuple _ => inl (ValueError "cannot unpack date_range into two dates")
  | DateSingle d => inr (d, d)
  end.

(** [ui] holds what the widgets return during this rerun; the value
    computed for the date widget is handed to Streamlit and not used
    again. *)
Definition apply_filters (ui : Sidebar) (df : list Event)
    : Exception + list Event :=
  match default_date_range df with
  | inl exn => inl exn
  | inr _ =>
      match unpack_date_range (date_range ui) with
      | inl exn => inl exn
      | inr (start_date, end_date) =>
          let filtered :=
            filter (λ e, in_date_range start_date end_date e) df in
          let filtered := filter_event_types (selected ui) filtered in
          let filtered := filter_categories (chosen_cats ui) filtered in
          let filtered := filter_brands (chosen_brands ui) filtered in
          inr filtered
      end
  end.

(** What the funnel tab of [main] puts on the page. *)
Inductive FunnelTab :=
| Info (msg : string)
| FunnelCharts (metrics : list (string * nat))
               (conversion_pct : list (string * Q))
               (step_counts : list (string * nat)).

Definition funnel_tab (filtered_heavy : list Event) : Exception + FunnelTab :=
  let funnel_df := funnel_by_session filtered_heavy in
  if empty funnel_df then
    inr (Info "Not enough session data to compute funnel.")
  else
    match funnel_df with
    | [] => inl (IndexError "single positional indexer is out-of-bounds")
    | row :: _ =>
        inr (FunnelCharts
               [("Sessions w/ View", sessions_with_view row);
                ("Sessions w/ Cart", sessions_with_cart row);
                ("Sessions w/ Purchase", sessions_with_purchase row)]
               [("View → Cart", (view_to_cart_rate row * 100)%Q);
                ("Cart → Purchase", (cart_to_purchase_rate row * 100)%Q)]
               [("View", sessions_with_view row);
                ("Cart", sessions_with_cart row);
                ("Purchase", sessions_with_purchase row)])
    end.

End App.

(** ** Vocabulary of the specification *)

Module Spec.

(** Session [s] has at least one event of type [ty] in [df]. *)
Definition has_event (ty : string) (df : list Event) (s : string) : Prop :=
  ∃ e, e ∈ df ∧ user_session e = Some s ∧ event_type e = Some ty.

(** There are exactly [n] distinct session identifiers satisfying [P]. *)
Definition distinct_sessions (P : string → Prop) (n : nat) : Prop :=
  ∃ X : gset string, (∀ s, s ∈ X ↔ P s) ∧ size X = n.

(** The set of distinct [(user_session, event_type)] pairs of a table. *)
Definition session_event_pairs (df : list Event)
    : gset (option string * option string) :=
  list_to_set ((λ e, (user_session e, event_type e)) <$> df).

End Spec.

(** ** Sample rows *)

Module Samples.

(** An event of the given session and type on 2019-10-01, the remaining
    columns missing. *)
Definition click (session ty : string) : Event :=
  {| event_time := Some 1569888000000000000%Z; event_type := Some ty;
     product_id := None; category_id := None; category_code := None;
     brand := None; price := None; user_id := None;
     user_session := Some session; event_date := Some 18170%Z |}.




(** One session that adds to the cart without any recorded view. *)
Definition cart_only : list Event := [click "s1" "cart"].

(** Two sessions with a cart event, only one of them with a view. *)
Definition two_carts_one_view : list Event :=
  [click "s1" "view"; click "s1" "cart"; click "s2" "cart"].

(** A view, a cart and a purchase in one session, the view logged twice. *)
Definition one_full_session : list Event :=
  [click "s1" "view"; click "s1" "cart"; click "s1" "view";
   click "s1" "purchase"].

End Samples.

(** ** Data frames as pandas objects

    [load_data] and the store model below work on tables whose columns are
    not fixed in advance: a column may be absent, and its dtype decides
    which accessors exist. *)

Module Frames.

Inductive Value :=
| VStr (s : string)
| VInt (n : Z)
| VFloat (x : Q)
| VTime (ns : Z)
| VDate (day : Z)
| NA.

Inductive Dtype :=
| category
| Int64
| string_dtype
| float32
| datetime64
| object.

#[global] Instance Dtype_eq_dec : EqDecision Dtype.
Proof. solve_decision. Defined.

Record Series := { dtype : Dtype; values : list Value }.

(** A table: its column labels with their dtypes, and its rows in order. *)
Record DataFrame := {
  columns : list (string * Dtype);
  rows : list (list Value)
}.

(** [len(df)] *)
Definition len (df : DataFrame) : nat := length (rows df).

(** [df.empty]: some axis has length 0. *)
Definition frame_empty (df : DataFrame) : bool :=
  bool_decide (len df = 0) || bool_decide (columns df = []).

(** Position of a column label, if present. *)
Definition column_position (col : string) (df : DataFrame) : option nat :=
  fst <$> list_find (λ c, fst c = col) (columns df).

(** Dtype of a column, if present. *)
Definition column_dtype (col : string) (df : DataFrame) : option Dtype :=
  (snd ∘ snd) <$> list_find (λ c, fst c = col) (columns df).

(** [col in df.columns] *)
Definition has_column (col : string) (df : DataFrame) : bool :=
  bool_decide (is_Some (column_position col df)).

(** [df[col]]; a missing label raises [KeyError]. *)
Definition getitem (col : string) (df : DataFrame) : Exception + Series :=
  match list_find (λ c, fst c = col) (columns df) with
  | Some (j, (_, dt)) =>
      inr {| dtype := dt;
             values := (λ cells, default NA (cells !! j)) <$> rows df |}
  | None => inl (KeyError col)
  end.

(** [df[col] = s]: overwrite the column, or append it when the label is
    new.  The series is aligned with the rows; a row without a matching
    entry receives NA. *)
Definition setitem (col : string) (s : Series) (df : DataFrame) : DataFrame :=
  match column_position col df with
  | Some j =>
      {| columns := <[j := (col, dtype s)]> (columns df);
         rows := imap (λ i cells, <[j := default NA (values s !! i)]> cells)
                      (rows df) |}
  | None =>
      {| columns := (columns df ++ [(col, dtype s)])%list;
         rows := imap (λ i cells, (cells ++ [default NA (values s !! i)])%list)
                      (rows df) |}
  end.

(** Positional row selection, [df.iloc[positions]]. *)
Definition take_rows (positions : list nat) (df : DataFrame) : DataFrame :=
  {| columns := columns df;
     rows := omap (λ i, rows df !! i) positions |}.

(** Ascending order of [sort_values]: numbers, times and dates by value,
    strings by code point, missing values last.  Columns are homogeneous,
    so the order between values of different kinds is never consulted; it is
    fixed here by the order of the constructors. *)
Definition kind (v : Value) : nat :=
  match v with
  | VStr _ => 0 | VInt _ => 1 | VFloat _ => 2 | VTime _ => 3
  | VDate _ => 4 | NA => 5
  end.

Definition value_leb (a b : Value) : bool :=
  match a, b with
  | VStr s, VStr t => String.leb s t
  | VInt m, VInt n => bool_decide (m ≤ n)%Z
  | VFloat x, VFloat y => if Qlt_le_dec y x then false else true
  | VTime m, VTime n => bool_decide (m ≤ n)%Z
  | VDate m, VDate n => bool_decide (m ≤ n)%Z
  | _, _ => bool_decide (kind a ≤ kind b)
  end.

Definition key_le (a b : Value * nat) : Prop := value_leb (fst a) (fst b).

#[global] Instance key_le_dec a b : Decision (key_le a b).
Proof. unfold key_le. apply _. Defined.

(** Row positions in ascending order of their keys. *)
Definition argsort (keys : list Value) : list nat :=
  snd <$> merge_sort key_le (zip keys (seq 0 (length keys))).

(** [df.sort_values(col)]: the positions come from a merge sort, which
    differs from the pandas default only in the order of equal keys. *)
Definition sort_values (col : string) (df : DataFrame) : Exception + DataFrame :=
  s ← getitem col df;
  mret (take_rows (argsort (values s)) df).

(** [series.astype("Int64")] on a column read as Int64: values are kept. *)
Definition astype_Int64 (s : Series) : Series :=
  {| dtype := Int64; values := values s |}.

(** [series.astype("string")]: integers are printed in decimal, missing
    values stay missing. *)
Definition to_string (v : Value) : Value :=
  match v with
  | VInt n => VStr (pretty n)
  | _ => v
  end.

Definition astype_string (s : Series) : Series :=
  {| dtype := string_dtype; values := to_string <$> values s |}.

Definition ns_per_day : Z := 86400000000000.

(** [series.dt.date]: only a datetime column has the [.dt] accessor. *)
Definition dt_date (s : Series) : Exception + Series :=
  if decide (dtype s = datetime64) then
    inr {| dtype := object;
           values := (λ v, match v with
                           | VTime ns => VDate (ns `div` ns_per_day)
                           | _ => NA
                           end) <$> values s |}
  else inl (AttributeError "Can only use .dt accessor with datetimelike values").

End Frames.

(** ** data_loader.py *)

Module DataLoader.

Import Frames.

Definition DATA_PATH : string := "data/sample_ecommerce.csv".

(** Hard cap for dashboard rows. *)
Definition TARGET_ROWS : nat := Z.to_nat 50000.

(** Why [pd.read_csv] gives up on a file that exists. *)
Inductive ReadFailure :=
| NoColumns
| BadSyntax
| BadValue.

(** An existing file, seen through [pd.read_csv] called with the dtype map
    and [parse_dates] of [load_data]: either the reader gives up, or the
    file holds a table.  In a table, each column named in the dtype map
    has the dtype given there; [event_time] has dtype [datetime64] when
    every entry parsed as a date and is left as [object] otherwise. *)
Inductive CsvFile :=
| Malformed (why : ReadFailure)
| Tabular (df : DataFrame).

Definition read_csv (file : CsvFile) : Exception + DataFrame :=
  match file with
  | Malformed NoColumns =>
      inl (EmptyDataError "No columns to parse from file")
  | Malformed BadSyntax => inl (ParserError "Error tokenizing data")
  | Malformed BadValue => inl (ValueError "could not convert column to its dtype")
  | Tabular df =>
      if has_column "event_time" df then inr df
      else inl (ValueError "Missing column provided to 'parse_dates': 'event_time'")
  end.

Section Sampling.

(** [numpy.random.RandomState(42).permutation(n)], the shuffle behind
    [df.sample(..., random_state=42)]. *)
Variable permutation : nat → list nat.

(** [df.sample(n=n, random_state=42)], without replacement. *)
Definition sample (n : nat) (df : DataFrame) : Exception + DataFrame :=
  if decide (n ≤ len df)
  then inr (take_rows (take n (permutation (len df))) df)
  else inl (ValueError
              "Cannot take a larger sample than population when 'replace=False'").

(** Downsample to at most [TARGET_ROWS] rows:
    [if len(df) > TARGET_ROWS:
       df = df.sample(n=TARGET_ROWS, random_state=42).sort_values("event_time")] *)
Definition downsample (df : DataFrame) : Exception + DataFrame :=
  if decide (TARGET_ROWS < len df)
  then sampled ← sample TARGET_ROWS df;
       sort_values "event_time" sampled
  else mret df.

(** The column assignments that end [load_data], in order. *)
Definition convert_columns (df : DataFrame) : Exception + DataFrame :=
  user_id ← getitem "user_id" df;
  let df := setitem "user_id" (astype_string (astype_Int64 user_id)) df in
  user_session ← getitem "user_session" df;
  let df := setitem "user_session" (astype_string user_session) df in
  event_time ← getitem "event_time" df;
  event_date ← dt_date event_time;
  let df := setitem "event_date" event_date df in
  category_code ← getitem "category_code" df;
  let df := setitem "category_code" (astype_string category_code) df in
  brand ← getitem "brand" df;
  let df := setitem "brand" (astype_string brand) df in
  mret df.

(** [load_data], given the file at [DATA_PATH] if there is one. *)
Definition load_data (at_data_path : option CsvFile) : Exception + DataFrame :=
  match at_data_path with
  | None => inl (FileNotFoundError ("CSV file not found at: " +:+ DATA_PATH))
  | Some file =>
      df ← read_csv file;
      df ← downsample df;
      convert_columns df
  end.

End Sampling.

End DataLoader.

(** ** Sample files *)

Module LoaderSamples.

Import Frames DataLoader.

Definition csv_columns (event_time_dtype : Dtype) : list (string * Dtype) :=
  [("event_time", event_time_dtype); ("event_type", category);
   ("product_id", Int64); ("category_id", Int64);
   ("category_code", string_dtype); ("brand", string_dtype);
   ("price", float32); ("user_id", Int64); ("user_session", string_dtype)].

(** Two events of one session, read with their times parsed. *)
Definition two_events : DataFrame :=
  {| columns := csv_columns datetime64;
     rows :=
       [ [VTime 1569888000000000000; VStr "view"; VInt 44600062;
          VInt 2103807459595387724; NA; VStr "shiseido"; VFloat 35.75;
          VInt 541312140; VStr "72d76fde"];
         [VTime 1569888004000000000; VStr "cart"; VInt 44600062;
          VInt 2103807459595387724; NA; VStr "shiseido"; VFloat 35.75;
          VInt 541312140; VStr "72d76fde"] ] |}.

(** One event whose [event_time] entry is not a date, so that the column
    is left with dtype [object]. *)
Definition unparsed_time : DataFrame :=
  {| columns := csv_columns object;
     rows :=
       [ [VStr "yesterday"; VStr "view"; VInt 44600062;
          VInt 2103807459595387724; NA; VStr "shiseido"; VFloat 35.75;
          VInt 541312140; VStr "72d76fde"] ] |}.

(** A shuffle to run the loader with: positions in reverse order. *)
Definition reversed (n : nat) : list nat := reverse (seq 0 n).

End LoaderSamples.

(** ** analytics.py as a program over pandas objects

    A [DataFrame] is a mutable object and a Python variable holds a
    reference to one.  This model keeps, for every statement of an analytics
    function, which objects it reads, which object it creates and which
    object it updates in place.  A pandas expression that builds a new table,
    series or scalar from existing tables is left uninterpreted: it is named
    by its source text and applied to the values it reads, and it may raise.
    The only statements of [analytics.py] that update an object in place
    are the column assignments [x[col] = ...]; no call passes
    [inplace=True].  [Analytics] above gives the values computed by
    [compute_kpis] and [funnel_by_session]; here the same functions are
    seen through the objects they touch. *)

Module Store.

Import Frames.

(** The objects allocated so far, by identity. *)
Abbreviation heap := (gmap nat DataFrame).

(** A computation over the objects: it returns or raises, and leaves a
    heap behind either way. *)
Definition M (A : Type) : Type := heap → (Exception + A) * heap.

#[global] Instance M_ret : MRet M := λ A x h, (inr x, h).
#[global] Instance M_bind : MBind M := λ A B f m h,
  match m h with
  | (inl exn, h') => (inl exn, h')
  | (inr x, h') => f x h'
  end.

(** Use the outcome of evaluating an expression. *)
Definition eval {A} (outcome : Exception + A) : M A := λ h, (outcome, h).

(** A new object. *)
Definition new (df : DataFrame) : M nat := λ h,
  let r := fresh (dom h) in (inr r, <[r := df]> h).

(** The current value of an object. *)
Definition deref (r : nat) : M DataFrame := λ h,
  match h !! r with
  | Some df => (inr df, h)
  | None => (inl (ValueError "no such object"), h)
  end.

(** [x[col] = s], in place. *)
Definition assign_column (r : nat) (col : string) (s : Series) : M unit :=
  λ h, (inr (), alter (setitem col s) r h).

(** [for x in xs: body] *)
Fixpoint for_each {A} (xs : list A) (body : A → M unit) : M unit :=
  match xs with
  | [] => mret ()
  | x :: xs => body x;; for_each xs body
  end.

(** [when cond: body] for a statement guarded by [if]. *)
Definition when (cond : bool) (body : M unit) : M unit :=
  if cond then body else mret ().

(** [n > 0] for a scalar that holds an [int]. *)
Definition positive_int (v : list Value) : bool :=
  match v with
  | [VInt n] => bool_decide (0 < n)%Z
  | _ => false
  end.

(** Truth value of a scalar that holds an [int]. *)
Definition nonzero_int (v : list Value) : bool :=
  match v with
  | [VInt n] => bool_decide (n ≠ 0)%Z
  | _ => false
  end.

(** A scalar assigned to a column is repeated on every row. *)
Definition broadcast (v : Value) (dt : Dtype) (df : DataFrame) : Series :=
  {| dtype := dt; values := replicate (len df) v |}.

(** [m] leaves every object of [before] as it is, whether it returns or
    raises, and what it returns satisfies [post]. *)
Definition keeps (before : heap) {A} (m : M A) (post : A → Prop) : Prop :=
  ∀ h : heap, before ⊆ h →
    before ⊆ (m h).2 ∧ ∀ x, (m h).1 = inr x → post x.

(** [r] is not one of the objects of [before]. *)
Definition created_after (before : heap) (r : nat) : Prop := before !! r = None.

Section Pandas.

(** Uninterpreted pandas expressions, by source text, scalar arguments and
    the tables read. *)
Variable frame_expr : string → list Value → list DataFrame → Exception + DataFrame.
Variable series_expr : string → list Value → list DataFrame → Exception + Series.
Variable value_expr : string → list Value → list DataFrame → Exception + list Value.

(** Evaluate a table expression over the objects it reads and allocate the
    result. *)
Definition pandas (text : string) (scalars : list Value) (reads : list nat)
    : M nat :=
  tables ← mapM deref reads;
  result ← eval (frame_expr text scalars tables);
  new result.

Definition pandas_series (text : string) (scalars : list Value)
    (reads : list nat) : M Series :=
  tables ← mapM deref reads;
  eval (series_expr text scalars tables).

Definition pandas_value (text : string) (scalars : list Value)
    (reads : list nat) : M (list Value) :=
  tables ← mapM deref reads;
  eval (value_expr text scalars tables).

(** [df.copy()] *)
Definition copy (r : nat) : M nat := df ← deref r; new df.

(** [x.empty] *)
Definition is_empty (r : nat) : M bool := df ← deref r; mret (frame_empty df).

(** [col in x.columns] *)
Definition in_columns (col : string) (r : nat) : M bool :=
  df ← deref r; mret (has_column col df).

(** *** KPIs *)

Definition compute_kpis (df : nat) : M (list (string * list Value)) :=
  total_users ← pandas_value "df['user_id'].nunique()" [] [df];
  total_sessions ← pandas_value "df['user_session'].nunique()" [] [df];
  purchases ← pandas "df[df['event_type'] == 'purchase']" [] [df];
  total_revenue ← pandas_value "purchases['price'].sum()" [] [purchases];
  conversion_rate ←
    (if positive_int total_sessions then
       sessions_with_purchase ←
         pandas_value "purchases['user_session'].nunique()" [] [purchases];
       pandas_value "sessions_with_purchase / total_sessions"
         (sessions_with_purchase ++ total_sessions) []
     else mret [VFloat 0]);
  no_purchases ← is_empty purchases;
  avg_order_value ←
    (if negb no_purchases then
       pandas_value "purchases.groupby('user_session')['price'].sum().mean()"
         [] [purchases]
     else mret [VFloat 0]);
  total_revenue ← pandas_value "float(total_revenue)" total_revenue [];
  conversion_rate ← pandas_value "float(conversion_rate)" conversion_rate [];
  avg_order_value ← pandas_value "float(avg_order_value)" avg_order_value [];
  mret [("total_users", total_users);
        ("total_sessions", total_sessions);
        ("total_revenue", total_revenue);
        ("conversion_rate", conversion_rate);
        ("avg_order_value", avg_order_value)].

(** *** Funnel *)

Definition funnel_by_session (df : nat) : M nat :=
  no_rows ← is_empty df;
  if (no_rows : bool) then
    pandas "pd.DataFrame([{'sessions_with_view': 0, 'sessions_with_cart': 0, 'sessions_with_purchase': 0, 'view_to_cart_rate': 0.0, 'cart_to_purchase_rate': 0.0}])" [] []
  else
    tmp ← pandas "df[['user_session', 'event_type']].drop_duplicates()" [] [df];
    sessions_with_view ←
      pandas_value "tmp.loc[tmp['event_type'] == 'view', 'user_session'].nunique()" [] [tmp];
    sessions_with_cart ←
      pandas_value "tmp.loc[tmp['event_type'] == 'cart', 'user_session'].nunique()" [] [tmp];
    sessions_with_purchase ←
      pandas_value "tmp.loc[tmp['event_type'] == 'purchase', 'user_session'].nunique()" [] [tmp];
    view_to_cart_rate ←
      (if nonzero_int sessions_with_view then
         pandas_value "sessions_with_cart / sessions_with_view"
           (sessions_with_cart ++ sessions_with_view) []
       else mret [VFloat 0]);
    cart_to_purchase_rate ←
      (if nonzero_int sessions_with_cart then
         pandas_value "sessions_with_purchase / sessions_with_cart"
           (sessions_with_purchase ++ sessions_with_cart) []
       else mret [VFloat 0]);
    pandas "pd.DataFrame([{'sessions_with_view': int(sessions_with_view), 'sessions_with_cart': int(sessions_with_cart), 'sessions_with_purchase': int(sessions_with_purchase), 'view_to_cart_rate': float(view_to_cart_rate), 'cart_to_purchase_rate': float(cart_to_purchase_rate)}])"
      (sessions_with_view ++ sessions_with_cart ++ sessions_with_purchase
       ++ view_to_cart_rate ++ cart_to_purchase_rate) [].

(** [for col in ["view", "cart", "purchase"]:
       if col not in ct.columns: ct[col] = 0] *)
Definition ensure_event_columns (ct : nat) : M unit :=
  for_each ["view"; "cart"; "purchase"] (λ col,
    present ← in_columns col ct;
    when (negb present)
      (table ← deref ct;
       assign_column ct col (broadcast (VInt 0) Int64 table))).

(** The two rate columns and the [fillna] loop that end each of
    [funnel_by_category], [funnel_by_price_bucket] and [funnel_by_hour]. *)
Definition add_rates (agg : nat) : M unit :=
  view_to_cart ←
    pandas_series "agg['has_cart'] / agg['has_view'].replace(0, pd.NA)" [] [agg];
  assign_column agg "view_to_cart_rate" view_to_cart;;
  cart_to_purchase ←
    pandas_series "agg['has_purchase'] / agg['has_cart'].replace(0, pd.NA)" [] [agg];
  assign_column agg "cart_to_purchase_rate" cart_to_purchase;;
  for_each ["has_view"; "has_cart"; "has_purchase";
            "view_to_cart_rate"; "cart_to_purchase_rate"] (λ col,
    present ← in_columns col agg;
    when present
      (filled ← pandas_series "agg[col].fillna(0.0)" [VStr col] [agg];
       assign_column agg col filled)).

Definition funnel_by_category (df : nat) (top_n : Z) : M nat :=
  has_category ← in_columns "category_code" df;
  stop_early ← (if negb has_category then mret true else is_empty df);
  if (stop_early : bool) then pandas "pd.DataFrame()" [] []
  else
    tmp ← pandas "df.dropna(subset=['category_code'])" [] [df];
    purchases ← pandas "tmp[tmp['event_type'] == 'purchase']" [] [tmp];
    no_purchases ← is_empty purchases;
    if (no_purchases : bool) then pandas "pd.DataFrame()" [] []
    else
      top_cats ←
        pandas_value "purchases.groupby('category_code')['user_session'].nunique().sort_values(ascending=False).head(top_n).index.tolist()"
          [VInt top_n] [purchases];
      if negb (App.truthy top_cats) then pandas "pd.DataFrame()" [] []
      else
        tmp ← pandas "tmp[tmp['category_code'].isin(top_cats)]" top_cats [tmp];
        tmp ← pandas "tmp[['category_code', 'user_session', 'event_type']].drop_duplicates()" [] [tmp];
        ct ← pandas "pd.crosstab([tmp['category_code'], tmp['user_session']], tmp['event_type']).reset_index()" [] [tmp];
        ensure_event_columns ct;;
        agg ← pandas "ct.groupby('category_code')[['view', 'cart', 'purchase']].sum().reset_index().rename(columns={'view': 'has_view', 'cart': 'has_cart', 'purchase': 'has_purchase'})" [] [ct];
        add_rates agg;;
        mret agg.

Definition funnel_by_price_bucket (df : nat) : M nat :=
  has_price ← in_columns "price" df;
  stop_early ← (if negb has_price then mret true else is_empty df);
  if (stop_early : bool) then pandas "pd.DataFrame()" [] []
  else
    tmp ← copy df;
    price ← pandas_series "tmp['price'].fillna(0)" [] [tmp];
    assign_column tmp "price" price;;
    price_bucket ←
      pandas_series "pd.cut(tmp['price'], bins=[-0.01, 50, 100, 200, 500, 1000, 10_000, 100_000], labels=['<=50', '50–100', '100–200', '200–500', '500–1000', '1000–10000', '10000+'])" [] [tmp];
    assign_column tmp "price_bucket" price_bucket;;
    tmp ← pandas "tmp[['price_bucket', 'user_session', 'event_type']].drop_duplicates()" [] [tmp];
    ct ← pandas "pd.crosstab([tmp['price_bucket'], tmp['user_session']], tmp['event_type']).reset_index()" [] [tmp];
    ensure_event_columns ct;;
    agg ← pandas "ct.groupby('price_bucket')[['view', 'cart', 'purchase']].sum().reset_index().rename(columns={'view': 'has_view', 'cart': 'has_cart', 'purchase': 'has_purchase'})" [] [ct];
    add_rates agg;;
    mret agg.

Definition funnel_by_hour (df : nat) : M nat :=
  has_time ← in_columns "event_time" df;
  stop_early ← (if negb has_time then mret true else is_empty df);
  if (stop_early : bool) then pandas "pd.DataFrame()" [] []
  else
    tmp ← pandas "df[df['event_type'].isin(['view', 'cart', 'purchase'])].copy()" [] [df];
    event_time ← pandas_series "pd.to_datetime(tmp['event_time'])" [] [tmp];
    assign_column tmp "event_time" event_time;;
    hour ← pandas_series "tmp['event_time'].dt.hour" [] [tmp];
    assign_column tmp "hour" hour;;
    tmp ← pandas "tmp[['hour', 'user_session', 'event_type']].drop_duplicates()" [] [tmp];
    ct ← pandas "pd.crosstab([tmp['hour'], tmp['user_session']], tmp['event_type']).reset_index()" [] [tmp];
    ensure_event_columns ct;;
    agg ← pandas "ct.groupby('hour')[['view', 'cart', 'purchase']].sum().reset_index().rename(columns={'view': 'has_view', 'cart': 'has_cart', 'purchase': 'has_purchase'}).sort_values('hour')" [] [ct];
    add_rates agg;;
    mret agg.

(** *** Categories *)

Definition category_revenue (df : nat) (top_n : Z) : M nat :=
  purchases ← pandas "df[df['event_type'] == 'purchase']" [] [df];
  no_purchases ← is_empty purchases;
  if (no_purchases : bool) then pandas "pd.DataFrame()" [] []
  else
    pandas "purchases.groupby('category_code')['price'].sum().reset_index(name='revenue').sort_values('revenue', ascending=False).head(top_n)"
      [VInt top_n] [purchases].

Definition repeat_purchase_stats (df : nat) : M nat :=
  purchases ← pandas "df[df['event_type'] == 'purchase']" [] [df];
  no_purchases ← is_empty purchases;
  if (no_purchases : bool) then pandas "pd.DataFrame()" [] []
  else
    counts ← pandas "purchases.groupby('user_id')['user_session'].nunique().reset_index(name='purchase_sessions')" [] [purchases];
    bucket ←
      pandas_series "pd.cut(counts['purchase_sessions'], bins=[0, 1, 2, 3, 5, 100], labels=['1', '2', '3', '4–5', '6+'])" [] [counts];
    assign_column counts "purchase_sessions_bucket" bucket;;
    pandas "counts['purchase_sessions_bucket'].value_counts().sort_index().reset_index(name='users').rename(columns={'index': 'purchase_sessions_bucket'})" [] [counts].

(** [views] and [purchases] are series with a name; as objects they are
    kept like one-column tables. *)
Definition time_to_purchase_distribution (df : nat) : M nat :=
  tmp ← copy df;
  event_time ← pandas_series "pd.to_datetime(tmp['event_time'])" [] [tmp];
  assign_column tmp "event_time" event_time;;
  views ← pandas "tmp[tmp['event_type'] == 'view'].groupby('user_session')['event_time'].min().rename('first_view_time')" [] [tmp];
  purchases ← pandas "tmp[tmp['event_type'] == 'purchase'].groupby('user_session')['event_time'].min().rename('first_purchase_time')" [] [tmp];
  merged ← pandas "pd.concat([views, purchases], axis=1).dropna()" [] [views; purchases];
  minutes ←
    pandas_series "(merged['first_purchase_time'] - merged['first_view_time']).dt.total_seconds() / 60" [] [merged];
  assign_column merged "minutes_to_purchase" minutes;;
  pandas "merged[merged['minutes_to_purchase'] >= 0].reset_index()[['minutes_to_purchase']]" [] [merged].

Definition high_view_low_buy_categories (df : nat) (min_views : Z) : M nat :=
  views ← pandas "df[df['event_type'] == 'view']" [] [df];
  purchases ← pandas "df[df['event_type'] == 'purchase']" [] [df];
  views_cnt ← pandas "views.groupby('category_code')['user_session'].nunique().reset_index(name='view_sessions')" [] [views];
  no_purchases ← is_empty purchases;
  buys_cnt ←
    (if negb no_purchases then
       pandas "purchases.groupby('category_code')['user_session'].nunique().reset_index(name='purchase_sessions')" [] [purchases]
     else
       pandas "pd.DataFrame(columns=['category_code', 'purchase_sessions'])" [] []);
  merged ← pandas "views_cnt.merge(buys_cnt, on='category_code', how='left').fillna(0)" [] [views_cnt; buys_cnt];
  merged ← pandas "merged[merged['view_sessions'] >= min_views]" [VInt min_views] [merged];
  nothing_left ← is_empty merged;
  if (nothing_left : bool) then mret merged
  else
    conversion_rate ←
      pandas_series "(merged['purchase_sessions'] / merged['view_sessions']).fillna(0.0)" [] [merged];
    assign_column merged "conversion_rate" conversion_rate;;
    pandas "merged.sort_values('conversion_rate').head(10)" [] [merged].

End Pandas.

End Store.

(** ** Sample run of the store model *)

Module StoreSamples.

Import Frames Store.

(** Stand-ins for the pandas expressions: a table expression returns the
    first table it reads, a series expression a constant column, a scalar
    expression the integer 1. *)
Definition first_table (text : string) (scalars : list Value)
    (tables : list DataFrame) : Exception + DataFrame :=
  inr (default LoaderSamples.two_events (head tables)).

Definition constant_column (text : string) (scalars : list Value)
    (tables : list DataFrame) : Exception + Series :=
  inr {| dtype := float32; values := [VFloat 0; VFloat 0] |}.

Definition always_one (text : string) (scalars : list Value)
    (tables : list DataFrame) : Exception + list Value :=
  inr [VInt 1].

(** The loaded table as the only object. *)
Definition loaded : heap := {[ 0 := LoaderSamples.two_events ]}.

End StoreSamples.

(** ** analytics.py: overview charts and behaviour metrics *)

Module Overview.

Import Analytics.

(** Keys of [df.groupby(col)] for a string column: the distinct values
    present, NA left out, in sorted order. *)
Definition group_keys (keys : list (option string)) : list string :=
  merge_sort str_le (drop_duplicates (dropna keys)).

(** [Series.count()]: the number of entries that are not NA. *)
Definition count {A} (s : list (option A)) : nat := length (dropna s).

Definition date_le (a b : Z * nat) : Prop := (a.1 ≤ b.1)%Z.

#[global] Instance date_le_dec a b : Decision (date_le a b).
Proof. unfold date_le. apply _. Defined.

(** [df.groupby("event_date")["event_type"].count()
       .reset_index(name="events_count").sort_values("event_date")]:
    one row [(event_date, events_count)] per date; rows without a date
    belong to no group. *)
Definition events_over_time (df : list Event) : list (Z * nat) :=
  let dates :=
    merge_sort Z.le (drop_duplicates (dropna (event_date <$> df))) in
  let counted :=
    (λ d, (d, count (event_type <$> filter (λ e, event_date e = Some d) df)))
      <$> dates in
  merge_sort date_le counted.

(** [df.groupby("user_session")["event_type"].count()]: per session, the
    number of its events whose type is known. *)
Definition session_sizes (df : list Event) : list (string * nat) :=
  (λ s, (s, count (event_type <$> filter (λ e, user_session e = Some s) df)))
    <$> group_keys (user_session <$> df).

(** Percentage of sessions with only 1 event (simple bounce definition). *)
Definition bounce_rate (df : list Event) : Q :=
  let session_sizes := session_sizes df in
  if empty session_sizes then 0%Q
  else
    let bounces := length (filter (λ p, p.2 = 1) session_sizes) in
    let total_sessions := length session_sizes in
    if decide (total_sessions ≠ 0) then truediv bounces total_sessions
    else 0%Q.

(** [pd.cut(x, bins=bins, labels=labels)]: the label of the interval
    [(lo, hi]] of consecutive bin edges that holds [x], if any. *)
Fixpoint cut (bins : list Z) (labels : list string) (x : Z) : option string :=
  match bins, labels with
  | lo :: (hi :: _) as rest, label :: labels =>
      if decide (lo < x ≤ hi)%Z then Some label else cut rest labels x
  | _, _ => None
  end.

(** [bucket.value_counts()] on the categorical made by [cut], put in the
    order of the categories: every label appears, with the number of
    entries that received it. *)
Definition bucket_counts (labels : list string) (buckets : list (option string))
    : list (string * nat) :=
  (λ label, (label, length (filter (λ b, b = Some label) buckets))) <$> labels.

Definition depth_bins : list Z := [0; 1; 3; 5; 10; 100]%Z.
Definition depth_labels : list string := ["1"; "2–3"; "4–5"; "6–10"; "10+"].

(** Distribution of number of events per session (1, 2–3, 4–5, 6–10, 10+). *)
Definition session_depth_distribution (df : list Event) : list (string * nat) :=
  let session_sizes := session_sizes df in
  if empty session_sizes then []
  else
    let depth_bucket :=
      (λ p, cut depth_bins depth_labels (Z.of_nat p.2)) <$> session_sizes in
    bucket_counts depth_labels depth_bucket.

Section Summary.

(** The sentence that [trends_summary] formats from the event counts of the
    first and of the last day: the percentage change is computed in floating
    point and rendered by an f-string. *)
Variable sentence : nat → nat → string.

Definition trends_summary (df : list Event) : string :=
  let events_df := events_over_time df in
  if decide (length events_df < 2) then
    "Not enough data to generate a trend summary."
  else
    let first := default (0%Z, 0) (head events_df) in
    let last := default (0%Z, 0) (last events_df) in
    sentence first.2 last.2.

End Summary.

End Overview.

Module Behaviour.

Import Analytics Overview.

Record SessionFlags := {
  has_view : bool;
  has_cart : bool;
  has_purchase : bool
}.

(** The flags of one session, from the rows of its group. *)
Definition _session_flags (group : list Event) : SessionFlags :=
  let events := event_type <$> group in
  {| has_view := bool_decide (Some "view" ∈ events);
     has_cart := bool_decide (Some "cart" ∈ events);
     has_purchase := bool_decide (Some "purchase" ∈ events) |}.

(** The groups of [df.groupby("user_session")], in key order. *)
Definition session_groups (df : list Event) : list (list Event) :=
  (λ s, filter (λ e, user_session e = Some s) df)
    <$> group_keys (user_session <$> df).

Definition purchase_bins : list Z := [0; 1; 2; 3; 5; 100]%Z.
Definition purchase_labels : list string := ["1"; "2"; "3"; "4–5"; "6+"].

(** One row [(purchase_sessions_bucket, users)] per bucket, or no row at
    all without a purchase. *)
Definition repeat_purchase_stats (df : list Event) : list (string * nat) :=
  let purchases := filter (λ e, eq_str "purchase" (event_type e)) df in
  if empty purchases then []
  else
    let counts :=
      (λ u, (u, nunique (user_session
                           <$> filter (λ e, user_id e = Some u) purchases)))
        <$> group_keys (user_id <$> purchases) in
    let purchase_sessions_bucket :=
      (λ p, cut purchase_bins purchase_labels (Z.of_nat p.2)) <$> counts in
    bucket_counts purchase_labels purchase_sessions_bucket.

(** [tmp[tmp["event_type"] == ty].groupby("user_session")["event_time"].min()]:
    per session with an event of type [ty], the time of the first one.  A
    session none of whose events of that type has a time gets NaT, and
    [dropna] removes it from [merged]; it is left out here. *)
Definition first_times (ty : string) (df : list Event) : list (string * Z) :=
  let typed := filter (λ e, eq_str ty (event_type e)) df in
  omap (λ s, pair s <$> minimum (dropna (event_time
                                   <$> filter (λ e, user_session e = Some s) typed)))
       (group_keys (user_session <$> typed)).

(** [series.get(key)] on a series indexed by session. *)
Definition time_of (s : string) (times : list (string * Z)) : option Z :=
  (snd ∘ snd) <$> list_find (λ p, p.1 = s) times.

Definition ns_per_minute : Z := 60000000000.

(** [(purchase - view).dt.total_seconds() / 60], as an exact quotient. *)
Definition minutes_between (view purchase : Z) : Q :=
  (inject_Z (purchase - view) / inject_Z ns_per_minute)%Q.

(** The column [minutes_to_purchase] of the result.  [pd.concat(..., axis=1)
    .dropna()] keeps the sessions that have both a first view and a first
    purchase. *)
Definition time_to_purchase_distribution (df : list Event) : list Q :=
  let views := first_times "view" df in
  let purchases := first_times "purchase" df in
  let merged :=
    omap (λ '(s, first_view_time),
            pair first_view_time <$> time_of s purchases) views in
  let minutes_to_purchase :=
    (λ '(first_view_time, first_purchase_time),
       minutes_between first_view_time first_purchase_time) <$> merged in
  filter (λ m, Qle_bool 0 m) minutes_to_purchase.

End Behaviour.

(** ** Vocabulary for the overview and behaviour properties *)

Module OverviewSpec.

(** The number of events of session [s] whose type is known. *)
Definition depth (s : string) (df : list Event) : nat :=
  length (filter (λ e, user_session e = Some s ∧ is_Some (event_type e)) df).

(** Session [s] occurs in the table. *)
Definition in_table (s : string) (df : list Event) : Prop :=
  ∃ e, e ∈ df ∧ user_session e = Some s.

(** The dates present in the table, in increasing order. *)
Definition dates_of (df : list Event) : list Z :=
  merge_sort Z.le (drop_duplicates (dropna (event_date <$> df))).

(** The number of events on date [d] whose type is known. *)
Definition events_on (d : Z) (df : list Event) : nat :=
  length (filter (λ e, event_date e = Some d ∧ is_Some (event_type e)) df).

(** [t] is the time of the first event of type [ty] in session [s], among
    those that have a time. *)
Definition first_at (ty s : string) (t : Z) (df : list Event) : Prop :=
  (∃ e, e ∈ df ∧ user_session e = Some s ∧ event_type e = Some ty
        ∧ event_time e = Some t) ∧
  ∀ e t', e ∈ df → user_session e = Some s → event_type e = Some ty →
          event_time e = Some t' → (t ≤ t')%Z.

(** Exactly [n] strings (session or user identifiers) satisfy [P]. *)
Definition exactly (n : nat) (P : string → Prop) : Prop :=
  ∃ X : gset string, (∀ s, s ∈ X ↔ P s) ∧ size X = n.

(** User [u] has a purchase event. *)
Definition buys (u : string) (df : list Event) : Prop :=
  ∃ e, e ∈ df ∧ user_id e = Some u ∧ event_type e = Some "purchase".

(** The sessions in which user [u] has a purchase event. *)
Definition sessions_bought (u : string) (df : list Event) : gset string :=
  list_to_set
    (omap (λ e, if decide (user_id e = Some u ∧ event_type e = Some "purchase")
                then user_session e else None) df).

End OverviewSpec.

(** ** Sample tables for the overview and behaviour properties *)

Module OverviewSamples.

(** An event of session [session] and type [ty] at [minute] minutes past
    midnight of day [day] (counted from 2019-10-01). *)
Definition at_minute (day minute : Z) (session ty : string) : Event :=
  {| event_time :=
       Some ((18170 + day) * 86400000000000 + minute * 60000000000)%Z;
     event_type := Some ty; product_id := None; category_id := None;
     category_code := None; brand := None; price := None;
     user_id := Some ("u-" +:+ session);
     user_session := Some session; event_date := Some (18170 + day)%Z |}.

(** Three days of traffic.  Session a views and buys ten minutes later;
    session b has its purchase logged before its view; session c only
    views. *)
Definition three_days : list Event :=
  [at_minute 0 5 "a" "view"; at_minute 0 15 "a" "purchase";
   at_minute 1 30 "b" "purchase"; at_minute 1 40 "b" "view";
   at_minute 2 0 "c" "view"].

(** One long session: [n] views, a minute apart. *)
Definition many_views (n : nat) : list Event :=
  (λ i, at_minute 0 (Z.of_nat i) "long" "view") <$> seq 0 n.

End OverviewSamples.

(** ** Vocabulary for the sidebar filters *)

Module FilterSpec.

Import App.

(** A row passes the sidebar: its date lies in the range, and for every
    selection that is not empty its entry is one of the selected values. *)
Definition passes (ui : Sidebar) (start_date end_date : Z) (e : Event) : Prop :=
  (∃ d, event_date e = Some d ∧ (start_date ≤ d ≤ end_date)%Z) ∧
  (selected ui ≠ [] → ∃ ty, event_type e = Some ty ∧ ty ∈ selected ui) ∧
  (chosen_cats ui ≠ [] → ∃ c, category_code e = Some c ∧ c ∈ chosen_cats ui) ∧
  (chosen_brands ui ≠ [] → ∃ b, brand e = Some b ∧ b ∈ chosen_brands ui).

End FilterSpec.

(** ** app.py: the rows handed to the heavy tabs *)

Module Main.

Definition MAX_ROWS_DETAILED : nat := Z.to_nat 300000.

Section FastMode.

(** [numpy.random.RandomState(42).permutation(n)] *)
Variable permutation : nat → list nat.

(** [filtered.sample(n, random_state=42)] *)
Definition sample_rows (n : nat) (filtered : list Event) : list Event :=
  omap (λ i, filtered !! i) (take n (permutation (length filtered))).

(** [filtered_heavy], as [main] chooses it:
    [if fast_mode and len(filtered) > MAX_ROWS_DETAILED:
         filtered_heavy = filtered.sample(MAX_ROWS_DETAILED, random_state=42)
     else:
         filtered_heavy = filtered] *)
Definition heavy_rows (fast_mode : bool) (filtered : list Event) : list Event :=
  if fast_mode && bool_decide (MAX_ROWS_DETAILED < length filtered)
  then sample_rows MAX_ROWS_DETAILED filtered
  else filtered.

End FastMode.

End Main.

(** ** app.py: what the sidebar widgets start from *)

Module Widgets.

Import Analytics App.



End Widgets.

(** ** preprocess_sample.py *)

Module Preprocess.

Import Frames DataLoader.

Definition RAW_PATH : string := "2019-Nov.csv".
Definition OUT_PATH : string := "data/sample_ecommerce.csv".

(** How many rows the sample may hold, how many rows a chunk has, and the
    columns read. *)
Definition TARGET_ROWS : nat := Z.to_nat 1000000.
Definition CHUNKSIZE : nat := Z.to_nat 500000.
Definition USECOLS : list string :=
  ["event_time"; "event_type"; "product_id"; "category_code"; "brand";
   "price"; "user_id"; "user_session"].

(** [int(n * SAMPLE_FRAC)] with [SAMPLE_FRAC = 0.10]: for every chunk
    length up to [CHUNKSIZE] the double product truncates to [n // 10]. *)
Definition tenth (n : nat) : nat := n / 10.

(** The columns named in [usecols], in the order of the file. *)
Definition select_columns (cols : list string) (df : DataFrame) : DataFrame :=
  let keep := (λ c : string * Dtype, bool_decide (c.1 ∈ cols)) <$> columns df in
  {| columns := filter (λ c, c.1 ∈ cols) (columns df);
     rows := (λ cells, snd <$> filter (λ p, Is_true p.1) (zip keep cells))
               <$> rows df |}.

(** Consecutive blocks of [size] rows; the last one may be shorter. *)
Fixpoint blocks {A} (fuel size : nat) (rows : list A) : list (list A) :=
  match fuel, rows with
  | S fuel, _ :: _ => take size rows :: blocks fuel size (drop size rows)
  | _, _ => []
  end.

(** The chunks that iterating [pd.read_csv(RAW_PATH, chunksize=CHUNKSIZE,
    usecols=USECOLS)] yields for a file that holds the well-formed table
    [df], or the exception raised for a column of [USECOLS] that the file
    lacks.  A file without data rows yields one empty chunk. *)
Definition read_chunks (df : DataFrame) : Exception + list DataFrame :=
  if bool_decide (Forall (λ col, has_column col df) USECOLS) then
    let table := select_columns USECOLS df in
    if decide (len table = 0) then inr [table]
    else
      inr ((λ block, {| columns := columns table; rows := block |})
             <$> blocks (len table) CHUNKSIZE (rows table))
  else inl (ValueError "Usecols do not match columns").

(** [pd.concat(samples, ignore_index=True)] for chunks of one file. *)
Definition concat (samples : list DataFrame) : DataFrame :=
  {| columns := default [] (columns <$> head samples);
     rows := mjoin (rows <$> samples) |}.

Section Sampling.

Variable permutation : nat → list nat.

(** [pd.to_datetime] on the text of the [event_time] column. *)
Variable to_datetime : Series → Exception + Series.

(** The loop of [main] over the chunks still to be read, with the rows
    collected so far. *)
Fixpoint collect (chunks : list DataFrame) (total_collected : nat)
    (samples : list DataFrame) : Exception + list DataFrame :=
  match chunks with
  | [] => mret samples
  | chunk :: chunks =>
      if decide (TARGET_ROWS ≤ total_collected) then mret samples
      else
        let remaining := TARGET_ROWS - total_collected in
        let tentative := tenth (len chunk) in
        let n_take := remaining `min` tentative in
        if decide (n_take ≤ 0) then collect chunks total_collected samples
        else
          sample_chunk ← sample permutation n_take chunk;
          collect chunks (total_collected + len sample_chunk)
                  (samples ++ [sample_chunk])
  end.

(** [main], given the table held by the file at [RAW_PATH] if there is
    one: the table written to [OUT_PATH], or [None] when nothing is
    written. *)
Definition main (at_raw_path : option DataFrame) : Exception + option DataFrame :=
  match at_raw_path with
  | None => inl (FileNotFoundError ("CSV not found at " +:+ RAW_PATH))
  | Some df =>
      reader ← read_chunks df;
      samples ← collect reader 0 [];
      if negb (App.truthy samples) then mret None
      else
        let sample_df := concat samples in
        event_time ← getitem "event_time" sample_df;
        event_time ← to_datetime event_time;
        let sample_df := setitem "event_time" event_time sample_df in
        event_time ← getitem "event_time" sample_df;
        event_date ← dt_date event_time;
        let sample_df := setitem "event_date" event_date sample_df in
        mret (Some sample_df)
  end.

End Sampling.

End Preprocess.

(** ** Vocabulary for the columns of a table *)

Module FrameSpec.

Import Frames.

(** Every row has one cell per column. *)
Definition rectangular (df : DataFrame) : Prop :=
  Forall (λ cells, length cells = length (columns df)) (rows df).

(** The entries are in ascending order, missing ones last. *)
Definition ascending (s : Series) : Prop :=
  Sorted (λ a b, value_leb a b) (values s).

End FrameSpec.

(** ** Sample raw file *)

Module PreprocessSamples.

Import Frames.

(** A raw file of [n] rows, every column read as text or number. *)
Definition raw_file (n : nat) : DataFrame :=
  {| columns := LoaderSamples.csv_columns object;
     rows := (λ i, [VStr "2019-11-01 00:00:00 UTC"; VStr "view"; VInt 44600062;
                    VInt 2103807459595387724; NA; VStr "shiseido";
                    VFloat 35.75; VInt (Z.of_nat i); VStr "72d76fde"])
               <$> seq 0 n |}.

(** A file of [n] events one second apart, read with their times
    parsed. *)
Definition timed_file (n : nat) : DataFrame :=
  {| columns := LoaderSamples.csv_columns datetime64;
     rows := (λ i, [VTime (1569888000000000000 + Z.of_nat i * 1000000000);
                    VStr "view"; VInt 44600062; VInt 2103807459595387724;
                    NA; VStr "shiseido"; VFloat 35.75; VInt (Z.of_nat i);
                    VStr "72d76fde"])
               <$> seq 0 n |}.

(** A parser that accepts every column and reads each entry that is not
    already a time as missing. *)
Definition coerce_times (s : Series) : Exception + Series :=
  inr {| dtype := datetime64;
         values := (λ v, match v with VTime ns => VTime ns | _ => NA end)
                     <$> values s |}.

End PreprocessSamples.

(** ** The remaining functions of analytics.py over pandas objects *)

Module StoreMore.

Import Frames Store.

Section Pandas.

Variable frame_expr : string → list Value → list DataFrame → Exception + DataFrame.
Variable series_expr : string → list Value → list DataFrame → Exception + Series.
Variable value_expr : string → list Value → list DataFrame → Exception + list Value.

Definition events_over_time (df : nat) : M nat :=
  pandas frame_expr "df.groupby('event_date')['event_type'].count().reset_index(name='events_count').sort_values('event_date')" [] [df].

Definition event_type_distribution (df : nat) : M nat :=
  pandas frame_expr "df['event_type'].value_counts().reset_index(name='count').rename(columns={'index': 'event_type'})" [] [df].

Definition bounce_rate (df : nat) : M (list Value) :=
  session_sizes ← pandas frame_expr "df.groupby('user_session')['event_type'].count()" [] [df];
  no_sessions ← is_empty session_sizes;
  if (no_sessions : bool) then mret [VFloat 0]
  else
    bounces ← pandas_value value_expr "(session_sizes == 1).sum()" [] [session_sizes];
    total_sessions ← pandas_value value_expr "len(session_sizes)" [] [session_sizes];
    if nonzero_int total_sessions then
      pandas_value value_expr "float(bounces / total_sessions)"
        (bounces ++ total_sessions) []
    else mret [VFloat 0].

Definition session_depth_distribution (df : nat) : M nat :=
  session_sizes ← pandas frame_expr "df.groupby('user_session')['event_type'].count().reset_index(name='events_per_session')" [] [df];
  no_sessions ← is_empty session_sizes;
  if (no_sessions : bool) then
    pandas frame_expr "pd.DataFrame(columns=['depth_bucket', 'count'])" [] []
  else
    depth_bucket ←
      pandas_series series_expr "pd.cut(session_sizes['events_per_session'], bins=[0, 1, 3, 5, 10, 100], labels=['1', '2–3', '4–5', '6–10', '10+'])" [] [session_sizes];
    assign_column session_sizes "depth_bucket" depth_bucket;;
    pandas frame_expr "session_sizes['depth_bucket'].value_counts().reset_index(name='count').rename(columns={'index': 'depth_bucket'}).sort_values('depth_bucket')" [] [session_sizes].

(** [n < 2] for a scalar that holds an [int]. *)
Definition below_two (v : list Value) : bool :=
  match v with
  | [VInt n] => bool_decide (n < 2)%Z
  | _ => false
  end.

Definition trends_summary (df : nat) : M (list Value) :=
  events_df ← events_over_time df;
  rows ← pandas_value value_expr "len(events_df)" [] [events_df];
  if below_two rows then
    mret [VStr "Not enough data to generate a trend summary."]
  else
    pandas_value value_expr "the sentence formatted from events_df.iloc[0] and events_df.iloc[-1]" [] [events_df].

Definition category_price_revenue (df : nat) (top_n : Z) : M nat :=
  purchases ← pandas frame_expr "df[df['event_type'] == 'purchase']" [] [df];
  no_purchases ← is_empty purchases;
  if (no_purchases : bool) then pandas frame_expr "pd.DataFrame()" [] []
  else
    agg ← pandas frame_expr "purchases.groupby('category_code').agg(revenue=('price', 'sum')).reset_index()" [] [purchases];
    margin ← pandas_series series_expr "agg['revenue'] * 0.30" [] [agg];
    assign_column agg "margin_estimate" margin;;
    mret agg.

End Pandas.

End StoreMore.

(** * Properties *)

(** ** Counting distinct values *)

Section Nunique.

Context {A : Type} `{EqDecision A}.

Lemma elem_of_drop_duplicates (l : list A) (x : A) :
  x ∈ drop_duplicates l ↔ x ∈ l.
Proof.
  induction l as [|a l IH]; [done|]. simpl.
  rewrite !elem_of_cons, list_elem_of_filter, IH. split.
  - intros [-> | [_ Hin]]; [by left | by right].
  - intros [-> | Hin]; [by left|].
    destruct (decide (x = a)) as [-> | Hne]; [by left | by right].
Qed.

Lemma NoDup_drop_duplicates (l : list A) : NoDup (drop_duplicates l).
Proof.
  induction l as [|a l IH]; simpl; [constructor|].
  constructor.
  - rewrite list_elem_of_filter. intros [Hne _]. by apply Hne.
  - by apply NoDup_filter.
Qed.

Example drop_duplicates_keeps_first :
  drop_duplicates [2; 1; 2; 3; 1] = [2; 1; 3].
Proof. reflexivity. Qed.

Lemma elem_of_dropna (s : list (option A)) (x : A) :
  x ∈ dropna s ↔ Some x ∈ s.
Proof.
  unfold dropna. rewrite list_elem_of_omap. split.
  - intros (o & Ho & Heq). simpl in Heq. by subst.
  - intros Hin. by exists (Some x).
Qed.

Lemma nunique_mono (s1 s2 : list (option A)) :
  (∀ x, Some x ∈ s1 → Some x ∈ s2) → nunique s1 ≤ nunique s2.
Proof.
  intros Hsub. unfold nunique. apply submseteq_length, NoDup_submseteq.
  - apply NoDup_drop_duplicates.
  - intros x. rewrite !elem_of_drop_duplicates, !elem_of_dropna. apply Hsub.
Qed.

Lemma nunique_ext (s1 s2 : list (option A)) :
  (∀ x, Some x ∈ s1 ↔ Some x ∈ s2) → nunique s1 = nunique s2.
Proof.
  intros Heq. apply Nat.le_antisymm; apply nunique_mono; intros x; apply Heq.
Qed.

End Nunique.

Lemma nunique_size (s : list (option string)) :
  nunique s = size (list_to_set (C := gset string) (dropna s)).
Proof.
  unfold nunique.
  rewrite <- (size_list_to_set (C := gset string) (drop_duplicates (dropna s)))
    by apply NoDup_drop_duplicates.
  f_equal. apply set_eq. intros x.
  by rewrite !elem_of_list_to_set, elem_of_drop_duplicates.
Qed.

(** ** Conversion rates as quotients *)

Section Truediv.

Import Analytics.

Lemma inject_nat_nonneg (n : nat) : (0 <= inject_Z (Z.of_nat n))%Q.
Proof. unfold Qle. simpl. lia. Qed.

Lemma inject_nat_pos (n : nat) : 0 < n → (0 < inject_Z (Z.of_nat n))%Q.
Proof. intros Hn. unfold Qlt. simpl. lia. Qed.

Lemma truediv_nonneg (a b : nat) : (0 <= truediv a b)%Q.
Proof.
  unfold truediv, Qdiv. apply Qmult_le_0_compat.
  - apply inject_nat_nonneg.
  - apply Qinv_le_0_compat, inject_nat_nonneg.
Qed.

Lemma truediv_le_1 (a b : nat) :
  0 < b → ((truediv a b <= 1)%Q ↔ a ≤ b).
Proof.
  intros Hb. unfold truediv. split.
  - intros Hle. destruct (decide (a ≤ b)) as [|Hgt]; [done|].
    exfalso. apply (Qle_not_lt _ _ Hle).
    apply Qlt_shift_div_l; [by apply inject_nat_pos|].
    rewrite Qmult_1_l, <- Zlt_Qlt. lia.
  - intros Hle. apply Qle_shift_div_r; [by apply inject_nat_pos|].
    rewrite Qmult_1_l, <- Zle_Qle. lia.
Qed.

End Truediv.

(** ** The funnel row *)

Section Funnel.

Import Analytics Spec.

Lemma elem_of_distinct_pairs df s t :
  (s, t) ∈ distinct_pairs df ↔ ∃ e, e ∈ df ∧ user_session e = s ∧ event_type e = t.
Proof.
  unfold distinct_pairs, session_events.
  rewrite elem_of_drop_duplicates, list_elem_of_fmap.
  split.
  - intros (e & Heq & Hin). exists e. by inversion Heq.
  - intros (e & Hin & <- & <-). by exists e.
Qed.

Lemma elem_of_typed_sessions ty (tmp : list (option string * option string)) s :
  s ∈ fst <$> filter (λ p, eq_str ty (snd p)) tmp ↔ (s, Some ty) ∈ tmp.
Proof.
  rewrite list_elem_of_fmap. split.
  - intros ([s' t] & -> & Hin). apply list_elem_of_filter in Hin as [Hty Hin].
    unfold eq_str in Hty. apply bool_decide_unpack in Hty. simpl in *.
    by subst t.
  - intros Hin. exists (s, Some ty). split; [done|].
    apply list_elem_of_filter. split; [|done].
    unfold eq_str. by apply bool_decide_pack.
Qed.

Lemma sessions_of_type_distinct ty df :
  distinct_sessions (has_event ty df) (sessions_of_type ty (distinct_pairs df)).
Proof.
  unfold sessions_of_type. rewrite nunique_size.
  eexists. split; [|reflexivity].
  intros s. rewrite elem_of_list_to_set, elem_of_dropna, elem_of_typed_sessions.
  rewrite elem_of_distinct_pairs. unfold has_event. naive_solver.
Qed.

Lemma sessions_of_type_nil ty : sessions_of_type ty (distinct_pairs []) = 0.
Proof. reflexivity. Qed.

(** Both branches of [funnel_by_session] build the same row: on the empty
    table every count of the general branch is 0. *)
Lemma funnel_by_session_row df :
  funnel_by_session df =
    let v := sessions_of_type "view" (distinct_pairs df) in
    let c := sessions_of_type "cart" (distinct_pairs df) in
    let p := sessions_of_type "purchase" (distinct_pairs df) in
    [ {| sessions_with_view := v;
         sessions_with_cart := c;
         sessions_with_purchase := p;
         view_to_cart_rate := if decide (v ≠ 0) then truediv c v else 0%Q;
         cart_to_purchase_rate := if decide (c ≠ 0) then truediv p c else 0%Q |} ].
Proof. by destruct df. Qed.

Lemma sessions_of_type_ext ty (tmp1 tmp2 : list (option string * option string)) :
  (∀ p, p ∈ tmp1 ↔ p ∈ tmp2) →
  sessions_of_type ty tmp1 = sessions_of_type ty tmp2.
Proof.
  intros Heq. unfold sessions_of_type. apply nunique_ext. intros s.
  by rewrite !elem_of_typed_sessions.
Qed.

Lemma funnel_by_session_ext df1 df2 :
  session_event_pairs df1 = session_event_pairs df2 →
  funnel_by_session df1 = funnel_by_session df2.
Proof.
  intros Heq. rewrite !funnel_by_session_row.
  assert (∀ ty, sessions_of_type ty (distinct_pairs df1)
                = sessions_of_type ty (distinct_pairs df2)) as Hty.
  { intros ty. apply sessions_of_type_ext. intros p. unfold distinct_pairs.
    rewrite !elem_of_drop_duplicates.
    rewrite <- !(elem_of_list_to_set (C := gset (option string * option string))).
    unfold session_event_pairs in Heq. unfold session_events.
    by rewrite Heq. }
  cbv zeta. by rewrite !Hty.
Qed.

Lemma session_event_pairs_duplicate df r :
  r ∈ df → session_event_pairs (df ++ [r]) = session_event_pairs df.
Proof.
  intros Hin. unfold session_event_pairs. apply set_eq. intros p.
  rewrite !elem_of_list_to_set, fmap_app, elem_of_app. split; [|by left].
  intros [Hp | Hp]; [done|].
  apply list_elem_of_fmap in Hp as (e & Hp & He).
  apply list_elem_of_singleton in He. subst e p.
  apply list_elem_of_fmap. by exists r.
Qed.

End Funnel.

(** ** Claims about the funnel and the KPIs *)

Section FunnelClaims.

Import Analytics Spec Samples.

(** C1. The funnel ordering
    [sessions_with_purchase ≤ sessions_with_cart ≤ sessions_with_view] is
    not guaranteed by [funnel_by_session]: a non-empty table holding one
    session with a cart event and no view event yields a row that breaks
    it. *)
Theorem funnel_order_not_guaranteed :
  ∃ (df : list Event) (r : FunnelRow),
    df ≠ [] ∧ funnel_by_session df = [r] ∧
    ¬ (sessions_with_purchase r ≤ sessions_with_cart r ∧
       sessions_with_cart r ≤ sessions_with_view r).
Proof.
  exists cart_only. eexists. split; [done|].
  split; [vm_compute; reflexivity|]. simpl. lia.
Qed.

(** C2 fails as worded: with two sessions holding a cart event and only one
    holding a view event, the denominator of [view_to_cart_rate] is positive
    and the rate is 2. *)
Lemma view_to_cart_rate_exceeds_one :
  ∃ r : FunnelRow,
    funnel_by_session two_carts_one_view = [r] ∧
    0 < sessions_with_view r ∧ ¬ (view_to_cart_rate r <= 1)%Q.
Proof.
  eexists. split; [vm_compute; reflexivity|]. simpl.
  split; [lia|]. intros Hle. vm_compute in Hle. by apply Hle.
Qed.

Lemma rate_bounds (num den : nat) :
  let rate := if decide (den ≠ 0) then truediv num den else 0%Q in
  (0 <= rate)%Q ∧
  (den = 0 → rate = 0%Q) ∧
  (0 < den → ((rate <= 1)%Q ↔ num ≤ den)).
Proof.
  cbv zeta. destruct (decide (den ≠ 0)) as [Hne | Heq].
  - split; [apply truediv_nonneg|]. split; [done|].
    intros Hpos. by apply truediv_le_1.
  - split; [done|]. split; [done|]. lia.
Qed.

Lemma purchase_sessions_le series_sum series_mean (df : list Event) :
  (0 <= conversion_rate (compute_kpis series_sum series_mean df))%Q ∧
  (conversion_rate (compute_kpis series_sum series_mean df) <= 1)%Q.
Proof.
  unfold compute_kpis. simpl. case_decide as Hpos.
  - split; [apply truediv_nonneg|]. apply truediv_le_1; [done|].
    apply nunique_mono. intros s. rewrite !list_elem_of_fmap.
    intros (e & Hs & He). exists e. split; [done|].
    by apply list_elem_of_filter in He as [_ He].
  - done.
Qed.

(** C2, amended.  The [conversion_rate] of [compute_kpis] lies in [0,1] and
    is 0 when there is no session.  Each rate of [funnel_by_session] is
    non-negative and is 0 when its denominator is 0; with a positive
    denominator it is at most 1 exactly when its numerator count does not
    exceed its denominator count. *)
Theorem conversion_rate_bounds series_sum series_mean
    (df : list Event) (r : FunnelRow) :
  r ∈ funnel_by_session df →
  let k := compute_kpis series_sum series_mean df in
  ((0 <= conversion_rate k)%Q ∧ (conversion_rate k <= 1)%Q ∧
   (total_sessions k = 0 → conversion_rate k = 0%Q)) ∧
  ((0 <= view_to_cart_rate r)%Q ∧
   (sessions_with_view r = 0 → view_to_cart_rate r = 0%Q) ∧
   (0 < sessions_with_view r →
    ((view_to_cart_rate r <= 1)%Q ↔
     sessions_with_cart r ≤ sessions_with_view r))) ∧
  ((0 <= cart_to_purchase_rate r)%Q ∧
   (sessions_with_cart r = 0 → cart_to_purchase_rate r = 0%Q) ∧
   (0 < sessions_with_cart r →
    ((cart_to_purchase_rate r <= 1)%Q ↔
     sessions_with_purchase r ≤ sessions_with_cart r))).
Proof.
  intros Hr k. split.
  - destruct (purchase_sessions_le series_sum series_mean df) as [H0 H1].
    split; [done|]. split; [done|].
    subst k. unfold compute_kpis. simpl. intros Hz.
    case_decide; [lia | done].
  - rewrite funnel_by_session_row in Hr. cbv zeta in Hr.
    apply list_elem_of_singleton in Hr. subst r. simpl.
    split; apply rate_bounds.
Qed.

Lemma conversion_rate_bounds_witness :
  ∃ r : FunnelRow,
    r ∈ funnel_by_session two_carts_one_view ∧
    (0 <= view_to_cart_rate r)%Q ∧
    (0 < sessions_with_view r →
     ((view_to_cart_rate r <= 1)%Q ↔
      sessions_with_cart r ≤ sessions_with_view r)).
Proof.
  eexists. split; [vm_compute; apply list_elem_of_here|].
  refine (let H := conversion_rate_bounds (λ _, None) (λ _, None)
                     two_carts_one_view _ _ in _).
  Unshelve. 3: { vm_compute. apply list_elem_of_here. }
  destruct H as (_ & (H0 & _ & H1) & _). split; [exact H0 | exact H1].
Defined.

(** C5. [funnel_by_session] returns a single row whose three counts are
    the numbers of distinct [user_session] values having at least one event
    of type view, cart and purchase; [view_to_cart_rate] is
    [sessions_with_cart / sessions_with_view] when [sessions_with_view > 0]
    and 0 otherwise, and [cart_to_purchase_rate] is
    [sessions_with_purchase / sessions_with_cart] when
    [sessions_with_cart > 0] and 0 otherwise.  This holds for every table,
    the empty one included. *)
Theorem funnel_by_session_counts (df : list Event) :
  ∃ r : FunnelRow,
    funnel_by_session df = [r] ∧
    distinct_sessions (has_event "view" df) (sessions_with_view r) ∧
    distinct_sessions (has_event "cart" df) (sessions_with_cart r) ∧
    distinct_sessions (has_event "purchase" df) (sessions_with_purchase r) ∧
    view_to_cart_rate r =
      (if decide (0 < sessions_with_view r)
       then (inject_Z (Z.of_nat (sessions_with_cart r))
             / inject_Z (Z.of_nat (sessions_with_view r)))%Q
       else 0%Q) ∧
    cart_to_purchase_rate r =
      (if decide (0 < sessions_with_cart r)
       then (inject_Z (Z.of_nat (sessions_with_purchase r))
             / inject_Z (Z.of_nat (sessions_with_cart r)))%Q
       else 0%Q).
Proof.
  rewrite funnel_by_session_row. cbv zeta. eexists. split; [reflexivity|].
  simpl. repeat split; try apply sessions_of_type_distinct.
  - repeat case_decide; (done || lia).
  - repeat case_decide; (done || lia).
Qed.

(** C6. The output of [funnel_by_session] depends only on the set of
    distinct [(user_session, event_type)] pairs of its input; in
    particular, appending an exact duplicate of an existing row leaves the
    counts and rates unchanged. *)
Theorem funnel_by_session_dedup (df df' : list Event) (r : Event) :
  session_event_pairs df' = session_event_pairs df →
  r ∈ df →
  funnel_by_session df' = funnel_by_session df ∧
  funnel_by_session (df ++ [r]) = funnel_by_session df.
Proof.
  intros Hpairs Hr. split.
  - by apply funnel_by_session_ext.
  - by apply funnel_by_session_ext, session_event_pairs_duplicate.
Qed.

Lemma funnel_by_session_dedup_witness :
  funnel_by_session
    [click "s1" "purchase"; click "s1" "cart"; click "s1" "view"]
  = funnel_by_session one_full_session ∧
  funnel_by_session (one_full_session ++ [click "s1" "view"])
  = funnel_by_session one_full_session.
Proof.
  apply funnel_by_session_dedup.
  - vm_compute. reflexivity.
  - vm_compute. apply list_elem_of_here.
Defined.

(** C9. On the empty table [funnel_by_session] returns one row with the
    three counts 0 and both rates 0; its result is never an empty table, so
    the funnel tab never takes the branch that reports missing session
    data. *)
Theorem funnel_by_session_never_empty :
  funnel_by_session [] =
    [ {| sessions_with_view := 0; sessions_with_cart := 0;
         sessions_with_purchase := 0; view_to_cart_rate := 0%Q;
         cart_to_purchase_rate := 0%Q |} ] ∧
  (∀ df : list Event, empty (funnel_by_session df) = false) ∧
  (∀ (df : list Event) (msg : string), App.funnel_tab df ≠ inr (App.Info msg)).
Proof.
  split; [reflexivity|]. split.
  - intros df. by rewrite funnel_by_session_row.
  - intros df msg. unfold App.funnel_tab.
    by rewrite funnel_by_session_row.
Qed.

End FunnelClaims.

(** ** Claim about the revenue total *)

Section RevenueClaims.

Import Analytics Samples.





End RevenueClaims.

(** ** Claims about the sidebar filters *)

Section FilterClaims.

Import App.

(** C4. With an empty category selection the category step of
    [apply_filters] returns its input unchanged, and so do the brand step
    and the event-type step on an empty selection.  With all three
    selections empty, [apply_filters] as a whole returns the rows of the
    chosen date range and nothing else is filtered; it raises only where
    it raises for every selection, when the default of the date widget
    cannot be computed or the date range does not unpack. *)
Theorem empty_selection_no_filter (df : list Event) :
  filter_categories [] df = df ∧
  filter_brands [] df = df ∧
  filter_event_types [] df = df ∧
  ∀ dates : DateInput,
    apply_filters {| date_range := dates; selected := [];
                     chosen_cats := []; chosen_brands := [] |} df
    = match default_date_range df with
      | inl exn => inl exn
      | inr _ =>
          match unpack_date_range dates with
          | inl exn => inl exn
          | inr (start_date, end_date) =>
              inr (filter (λ e, in_date_range start_date end_date e) df)
          end
      end.
Proof.
  split; [reflexivity|]. split; [reflexivity|]. split; [reflexivity|].
  intros dates. unfold apply_filters.
  cbn [date_range selected chosen_cats chosen_brands].
  destruct (default_date_range df) as [exn|?]; [done|].
  by destruct (unpack_date_range dates) as [exn | [start_date end_date]].
Qed.

End FilterClaims.

(** ** Data frames *)

Section FrameFacts.

Import Frames.

Lemma list_find_insert_other {A} (Q : A → Prop) `{∀ x, Decision (Q x)}
    (l : list A) (j : nat) (x y : A) :
  l !! j = Some y → ¬ Q x → ¬ Q y →
  list_find Q (<[j := x]> l) = list_find Q l.
Proof.
  revert j. induction l as [|a l IH]; intros j Hj Hx Hy; [done|].
  destruct j as [|j]; simpl in *.
  - inversion Hj; subst a. by rewrite !decide_False.
  - case_decide; [done|]. by rewrite (IH j).
Qed.

Lemma list_find_snoc_other {A} (Q : A → Prop) `{∀ x, Decision (Q x)}
    (l : list A) (x : A) :
  ¬ Q x → list_find Q (l ++ [x]) = list_find Q l.
Proof.
  intros Hx. induction l as [|a l IH]; simpl.
  - by rewrite decide_False.
  - case_decide; [done|]. by rewrite IH.
Qed.

Lemma len_take_rows (positions : list nat) (df : DataFrame) :
  Forall (λ i, i < len df) positions →
  len (take_rows positions df) = length positions.
Proof.
  unfold len, take_rows. cbn [rows].
  induction 1 as [|i ps Hi _ IH]; [done|]. cbn.
  apply lookup_lt_is_Some_2 in Hi as [row ->]. cbn. by f_equal.
Qed.

Lemma len_setitem col s df : len (setitem col s df) = len df.
Proof.
  unfold len, setitem.
  destruct (column_position col df); simpl; by rewrite length_imap.
Qed.

Lemma column_dtype_take_rows col positions df :
  column_dtype col (take_rows positions df) = column_dtype col df.
Proof. reflexivity. Qed.

Lemma column_dtype_setitem_ne col col' s df :
  col ≠ col' →
  column_dtype col (setitem col' s df) = column_dtype col df.
Proof.
  intros Hne. unfold column_dtype, setitem, column_position.
  destruct (list_find (λ c, c.1 = col') (columns df)) as [[j y]|] eqn:Hfind;
    simpl.
  - apply list_find_Some in Hfind as (Hj & Hy & _).
    rewrite (list_find_insert_other _ _ _ _ y); try done.
    simpl in *. congruence.
  - by rewrite list_find_snoc_other.
Qed.

Lemma getitem_of_dtype col df dt :
  column_dtype col df = Some dt →
  ∃ s, getitem col df = inr s ∧ dtype s = dt ∧ length (values s) = len df.
Proof.
  unfold column_dtype, getitem.
  destruct (list_find _ _) as [[j [c d]]|]; [|done].
  simpl. intros [= ->]. eexists. split; [done|]. split; [done|].
  simpl. by rewrite length_fmap.
Qed.

Lemma getitem_inr col df s :
  getitem col df = inr s →
  column_dtype col df = Some (dtype s) ∧ length (values s) = len df.
Proof.
  unfold column_dtype, getitem.
  destruct (list_find _ _) as [[j [c d]]|]; [|done].
  intros [= <-]. simpl. by rewrite length_fmap.
Qed.

Lemma getitem_inl col df exn :
  getitem col df = inl exn → exn = KeyError col.
Proof.
  unfold getitem. destruct (list_find _ _) as [[j [c d]]|]; congruence.
Qed.

Lemma has_column_dtype col df :
  has_column col df = true ↔ is_Some (column_dtype col df).
Proof.
  unfold has_column, column_position, column_dtype.
  rewrite bool_decide_eq_true, !fmap_is_Some. done.
Qed.

Lemma argsort_Permutation (keys : list Value) :
  argsort keys ≡ₚ seq 0 (length keys).
Proof.
  unfold argsort. rewrite merge_sort_Permutation.
  by rewrite snd_zip by (rewrite length_seq; lia).
Qed.

Lemma len_sort_values col df sorted :
  sort_values col df = inr sorted →
  len sorted = len df ∧ columns sorted = columns df.
Proof.
  unfold sort_values. destruct (getitem col df) as [exn|s] eqn:Hget; [done|].
  simpl. intros [= <-]. split; [|done].
  apply getitem_inr in Hget as [_ Hlen].
  rewrite len_take_rows.
  - by rewrite argsort_Permutation, length_seq.
  - rewrite argsort_Permutation, Hlen. apply Forall_seq. lia.
Qed.

End FrameFacts.

(** ** Loading *)

Section LoaderFacts.

Import Frames DataLoader.

Variable permutation : nat → list nat.

Lemma column_dtype_same_columns col (df1 df2 : DataFrame) :
  columns df1 = columns df2 → column_dtype col df1 = column_dtype col df2.
Proof. unfold column_dtype. by intros ->. Qed.

Lemma read_csv_inl file exn :
  read_csv file = inl exn →
  (∃ msg, exn = EmptyDataError msg) ∨ (∃ msg, exn = ParserError msg) ∨
  (∃ msg, exn = ValueError msg).
Proof.
  destruct file as [[| |]|df]; simpl; try case_match; intros [= <-]; eauto.
Qed.

Lemma read_csv_inr file df :
  read_csv file = inr df →
  file = Tabular df ∧ is_Some (column_dtype "event_time" df).
Proof.
  destruct file as [[| |]|df']; simpl; try done.
  destruct (has_column "event_time" df') eqn:Hcol; [|done].
  intros [= ->]. split; [done|]. by apply has_column_dtype.
Qed.

Lemma downsample_inl df exn :
  downsample permutation df = inl exn → exn = KeyError "event_time".
Proof.
  unfold downsample, sample. case_decide as Hbig; [|done].
  rewrite decide_True by lia. simpl. unfold sort_values.
  destruct (getitem _ _) as [exn'|s] eqn:Hget; [|done].
  simpl. intros [= <-]. by apply getitem_inl in Hget.
Qed.

Lemma downsample_columns df df1 :
  downsample permutation df = inr df1 → columns df1 = columns df.
Proof.
  unfold downsample, sample. case_decide as Hbig.
  - rewrite decide_True by lia. simpl. intros Hsort.
    by apply len_sort_values in Hsort as [_ ->].
  - by intros [= ->].
Qed.

Lemma downsample_ok df :
  is_Some (column_dtype "event_time" df) → ∃ df1, downsample permutation df = inr df1.
Proof.
  intros [dt Hdt]. unfold downsample, sample. case_decide as Hbig; [|by eexists].
  rewrite decide_True by lia. simpl. unfold sort_values.
  edestruct (getitem_of_dtype "event_time") as (s & -> & _); [|by eexists].
  by rewrite column_dtype_take_rows.
Qed.

Lemma downsample_len df df1 :
  (∀ n, permutation n ≡ₚ seq 0 n) →
  downsample permutation df = inr df1 →
  len df1 = if decide (TARGET_ROWS < len df) then TARGET_ROWS else len df.
Proof.
  intros Hperm. unfold downsample, sample. case_decide as Hbig.
  - rewrite decide_True by lia. simpl. intros Hsort.
    apply len_sort_values in Hsort as [-> _].
    rewrite len_take_rows.
    + rewrite length_take, Hperm, length_seq. lia.
    + apply Forall_take. rewrite Hperm. apply Forall_seq. lia.
  - by intros [= ->].
Qed.

End LoaderFacts.

Section ConvertFacts.

Import Frames DataLoader.

Ltac getitem_step :=
  match goal with
  | |- context [getitem ?c ?d] =>
      let s := fresh "s" in
      let Hs := fresh "Hs" in
      destruct (getitem c d) as [?exn|s] eqn:Hs; cbn [mbind result_bind]
  end.

Lemma convert_columns_inl df exn :
  convert_columns df = inl exn →
  (∃ key, exn = KeyError key) ∨ (∃ msg, exn = AttributeError msg).
Proof.
  unfold convert_columns.
  repeat (getitem_step;
          [intros [= <-]; left; eexists; by eapply getitem_inl|]).
  unfold dt_date. case_decide; cbn [mbind result_bind].
  - repeat (getitem_step;
            [intros [= <-]; left; eexists; by eapply getitem_inl|]).
    done.
  - intros [= <-]. right. by eexists.
Qed.

Lemma convert_columns_len df out :
  convert_columns df = inr out → len out = len df.
Proof.
  unfold convert_columns.
  repeat (getitem_step; [done|]).
  unfold dt_date. case_decide; cbn [mbind result_bind]; [|done].
  repeat (getitem_step; [done|]).
  intros [= <-]. by rewrite !len_setitem.
Qed.

Lemma convert_columns_ok df :
  is_Some (column_dtype "user_id" df) →
  is_Some (column_dtype "user_session" df) →
  column_dtype "event_time" df = Some datetime64 →
  is_Some (column_dtype "category_code" df) →
  is_Some (column_dtype "brand" df) →
  ∃ out, convert_columns df = inr out.
Proof.
  intros [d1 H1] [d2 H2] H3 [d4 H4] [d5 H5]. unfold convert_columns.
  destruct (getitem_of_dtype _ _ _ H1) as (s1 & -> & _).
  cbn [mbind result_bind].
  edestruct (getitem_of_dtype "user_session") as (s2 & -> & _).
  { rewrite column_dtype_setitem_ne by done. exact H2. }
  cbn [mbind result_bind].
  edestruct (getitem_of_dtype "event_time") as (s3 & -> & Hdt & _).
  { rewrite !column_dtype_setitem_ne by done. exact H3. }
  cbn [mbind result_bind]. unfold dt_date. rewrite decide_True by done.
  cbn [mbind result_bind].
  edestruct (getitem_of_dtype "category_code") as (s4 & -> & _).
  { rewrite !column_dtype_setitem_ne by done. exact H4. }
  cbn [mbind result_bind].
  edestruct (getitem_of_dtype "brand") as (s5 & -> & _).
  { rewrite !column_dtype_setitem_ne by done. exact H5. }
  cbn [mbind result_bind]. by eexists.
Qed.

End ConvertFacts.

(** ** Claims about loading *)

Section LoaderClaims.

Import Frames DataLoader LoaderSamples.

Lemma load_data_inl permutation file exn :
  load_data permutation (Some file) = inl exn →
  read_csv file = inl exn ∨
  (∃ key, exn = KeyError key) ∨ (∃ msg, exn = AttributeError msg).
Proof.
  unfold load_data. destruct (read_csv file) as [exn'|df]; [by left|].
  cbn [mbind result_bind]. intros Hraise. right.
  destruct (downsample permutation df) as [exn'|df1] eqn:Hdown.
  - cbn [mbind result_bind] in Hraise. injection Hraise as <-.
    apply downsample_inl in Hdown. left. by eexists.
  - cbn [mbind result_bind] in Hraise. by eapply convert_columns_inl.
Qed.

(** C8 fails as worded: the file exists and [read_csv] returns its table,
    yet [load_data] raises, and what it raises is an [AttributeError]: the
    [event_time] entry is not a date, the column is left as [object], and
    [.dt] is not available on it. *)
Lemma load_data_raises_attribute_error :
  read_csv (Tabular unparsed_time) = inr unparsed_time ∧
  load_data reversed (Some (Tabular unparsed_time))
  = inl (AttributeError "Can only use .dt accessor with datetimelike values").
Proof. split; vm_compute; reflexivity. Qed.

(** C8, amended.  [load_data] raises [FileNotFoundError] if and only if
    there is no file at [DATA_PATH].  When the file exists, an exception
    raised by [read_csv] propagates unchanged; and when [read_csv] returns a
    table that has the columns [user_id], [user_session], [category_code]
    and [brand] and whose [event_time] column was parsed to datetimes,
    [load_data] returns a table. *)
Theorem load_data_outcomes permutation (at_data_path : option CsvFile) :
  ((∃ msg, load_data permutation at_data_path = inl (FileNotFoundError msg))
   ↔ at_data_path = None) ∧
  (∀ file exn,
     at_data_path = Some file → read_csv file = inl exn →
     load_data permutation at_data_path = inl exn) ∧
  (∀ file df,
     at_data_path = Some file → read_csv file = inr df →
     is_Some (column_dtype "user_id" df) →
     is_Some (column_dtype "user_session" df) →
     column_dtype "event_time" df = Some datetime64 →
     is_Some (column_dtype "category_code" df) →
     is_Some (column_dtype "brand" df) →
     ∃ out, load_data permutation at_data_path = inr out).
Proof.
  split; [|split].
  - split.
    + intros [msg Hraise]. destruct at_data_path as [file|]; [|done].
      apply load_data_inl in Hraise as [Hread | [[? ?] | [? ?]]]; try done.
      apply read_csv_inl in Hread as [[? ?] | [[? ?] | [? ?]]]; done.
    + intros ->. by eexists.
  - intros file exn -> Hread. unfold load_data. by rewrite Hread.
  - intros file df -> Hread Huid Hsess Htime Hcat Hbrand.
    unfold load_data. rewrite Hread. cbn [mbind result_bind].
    destruct (downsample_ok permutation df) as [df1 Hdown]; [by eexists|].
    rewrite Hdown. cbn [mbind result_bind].
    apply downsample_columns in Hdown.
    apply convert_columns_ok;
      by rewrite (column_dtype_same_columns _ df1 df).
Qed.

Lemma load_data_outcomes_witness :
  ∃ out, load_data reversed (Some (Tabular two_events)) = inr out.
Proof.
  refine (proj2 (proj2 (load_data_outcomes reversed (Some (Tabular two_events))))
            (Tabular two_events) two_events eq_refl eq_refl _ _ eq_refl _ _);
    by eexists.
Defined.

Lemma load_data_returns permutation (df : DataFrame) :
  is_Some (column_dtype "user_id" df) →
  is_Some (column_dtype "user_session" df) →
  column_dtype "event_time" df = Some datetime64 →
  is_Some (column_dtype "category_code" df) →
  is_Some (column_dtype "brand" df) →
  ∃ out, load_data permutation (Some (Tabular df)) = inr out.
Proof.
  intros Huid Hsess Htime Hcat Hbrand. unfold load_data, read_csv.
  assert (has_column "event_time" df = true) as ->
    by (apply has_column_dtype; by eexists).
  cbn [mbind result_bind].
  destruct (downsample_ok permutation df) as [df1 Hdown]; [by eexists|].
  rewrite Hdown. cbn [mbind result_bind].
  apply downsample_columns in Hdown.
  apply convert_columns_ok;
    by rewrite (column_dtype_same_columns _ df1 df).
Qed.

(** C10. A table returned by [load_data] has at most [TARGET_ROWS] = 50,000
    rows: when the table read from the CSV has more rows the result has
    exactly [TARGET_ROWS], and otherwise it has as many rows as were read.
    And [load_data] does return such a table, downsampling included, when
    the table read has the columns that [load_data] converts and its
    [event_time] column was parsed.  The shuffle used by [sample] is
    assumed to return a permutation of the row positions. *)
Theorem load_data_row_cap permutation (file : CsvFile) (df : DataFrame) :
  (∀ n, permutation n ≡ₚ seq 0 n) →
  read_csv file = inr df →
  Z.of_nat TARGET_ROWS = 50000%Z ∧
  (∀ out, load_data permutation (Some file) = inr out →
     len out ≤ TARGET_ROWS ∧
     (TARGET_ROWS < len df → len out = TARGET_ROWS) ∧
     (len df ≤ TARGET_ROWS → len out = len df)) ∧
  (is_Some (column_dtype "user_id" df) →
   is_Some (column_dtype "user_session" df) →
   column_dtype "event_time" df = Some datetime64 →
   is_Some (column_dtype "category_code" df) →
   is_Some (column_dtype "brand" df) →
   ∃ out, load_data permutation (Some file) = inr out ∧
          len out = if decide (TARGET_ROWS < len df) then TARGET_ROWS
                    else len df).
Proof.
  intros Hperm Hread.
  assert (∀ out, load_data permutation (Some file) = inr out →
                 len out = if decide (TARGET_ROWS < len df) then TARGET_ROWS
                           else len df) as Hlen.
  { intros out. unfold load_data. rewrite Hread. cbn [mbind result_bind].
    destruct (downsample permutation df) as [exn|df1] eqn:Hdown; [done|].
    cbn [mbind result_bind]. intros Hconv.
    apply convert_columns_len in Hconv. apply downsample_len in Hdown; [|done].
    by rewrite Hconv, Hdown. }
  split; [unfold TARGET_ROWS; lia|]. split.
  - intros out Hout. rewrite (Hlen out Hout). case_decide; lia.
  - intros Huid Hsess Htime Hcat Hbrand.
    apply read_csv_inr in Hread as [-> _].
    destruct (load_data_returns permutation df) as [out Hout]; try done.
    exists out. split; [done|]. by apply Hlen.
Qed.

Lemma load_data_row_cap_witness :
  ∃ out,
    load_data reversed
      (Some (Tabular (PreprocessSamples.timed_file (S TARGET_ROWS))))
    = inr out ∧
    len out = TARGET_ROWS.
Proof.
  assert (len (PreprocessSamples.timed_file (S TARGET_ROWS)) = S TARGET_ROWS)
    as Hrows.
  { unfold len, PreprocessSamples.timed_file. cbn [rows].
    rewrite length_fmap. apply length_seq. }
  destruct (load_data_row_cap reversed
              (Tabular (PreprocessSamples.timed_file (S TARGET_ROWS)))
              (PreprocessSamples.timed_file (S TARGET_ROWS))
              (λ n, reverse_Permutation (seq 0 n)) eq_refl)
    as (_ & _ & Hreturns).
  destruct Hreturns as (out & Hout & Hlen).
  - eexists. reflexivity.
  - eexists. reflexivity.
  - reflexivity.
  - eexists. reflexivity.
  - eexists. reflexivity.
  - exists out. split; [exact Hout|].
    rewrite Hlen, Hrows. apply decide_True. lia.
Defined.

End LoaderClaims.

(** ** Objects and in-place updates *)

Section StoreRules.

Import Frames Store.

Variable before : heap.

Lemma keeps_ret {A} (x : A) (post : A → Prop) :
  post x → keeps before (mret x) post.
Proof. intros Hx h Hh. split; [done|]. by intros ? [= <-]. Qed.

Lemma keeps_ret_any {A} (x : A) : keeps before (mret x) (λ _, True).
Proof. by apply keeps_ret. Qed.

Lemma keeps_bind {A B} (m : M A) (k : A → M B) (P : A → Prop) (Q : B → Prop) :
  keeps before m P → (∀ x, P x → keeps before (k x) Q) →
  keeps before (m ≫= k) Q.
Proof.
  intros Hm Hk h Hh. destruct (Hm h Hh) as [Hsub Hpost].
  unfold mbind, M_bind. destruct (m h) as [[exn|x] h']; simpl in *.
  - split; [done|]. by intros ?.
  - by apply Hk; [apply Hpost|].
Qed.

Lemma keeps_weaken {A} (m : M A) (P Q : A → Prop) :
  keeps before m P → (∀ x, P x → Q x) → keeps before m Q.
Proof.
  intros Hm HPQ h Hh. destruct (Hm h Hh) as [Hsub Hpost].
  split; [done|]. intros x Hx. by apply HPQ, Hpost.
Qed.

Lemma keeps_eval {A} (outcome : Exception + A) :
  keeps before (eval outcome) (λ _, True).
Proof. by intros h Hh. Qed.

Lemma keeps_new (df : DataFrame) :
  keeps before (new df) (created_after before).
Proof.
  intros h Hh. unfold new. simpl.
  assert (h !! fresh (dom h) = None) as Hfresh.
  { apply not_elem_of_dom, is_fresh. }
  assert (before !! fresh (dom h) = None) as Hnew.
  { eapply lookup_weaken_None; [exact Hfresh | exact Hh]. }
  split.
  - by apply insert_subseteq_r.
  - by intros ? [= <-].
Qed.

Lemma keeps_deref (r : nat) : keeps before (deref r) (λ _, True).
Proof. intros h Hh. unfold deref. by destruct (h !! r). Qed.

Lemma keeps_assign_column (r : nat) (col : string) (s : Series) :
  created_after before r →
  keeps before (assign_column r col s) (λ _, True).
Proof.
  intros Hr h Hh. unfold assign_column. simpl. split; [|done].
  apply map_subseteq_spec. intros i x Hi.
  rewrite lookup_alter_ne by (intros ->; unfold created_after in Hr; congruence).
  by eapply lookup_weaken.
Qed.

Lemma keeps_mapM_deref (reads : list nat) :
  keeps before (mapM deref reads) (λ _, True).
Proof.
  induction reads as [|r reads IH]; simpl.
  - apply keeps_ret_any.
  - eapply keeps_bind; [apply keeps_deref|]. intros df _.
    eapply keeps_bind; [apply IH|]. intros dfs _. apply keeps_ret_any.
Qed.

Lemma keeps_for_each {A} (xs : list A) (body : A → M unit) :
  (∀ x, keeps before (body x) (λ _, True)) →
  keeps before (for_each xs body) (λ _, True).
Proof.
  intros Hbody. induction xs as [|x xs IH]; simpl.
  - apply keeps_ret_any.
  - eapply keeps_bind; [apply Hbody|]. by intros _ _.
Qed.

Lemma keeps_when (cond : bool) (body : M unit) :
  keeps before body (λ _, True) →
  keeps before (when cond body) (λ _, True).
Proof. intros Hbody. destruct cond; [done|]. apply keeps_ret_any. Qed.

End StoreRules.

Section AnalyticsFrame.

Import Frames Store.

Variable frame_expr : string → list Value → list DataFrame → Exception + DataFrame.
Variable series_expr : string → list Value → list DataFrame → Exception + Series.
Variable value_expr : string → list Value → list DataFrame → Exception + list Value.

Variable before : heap.

Lemma keeps_pandas text scalars reads :
  keeps before (pandas frame_expr text scalars reads) (created_after before).
Proof.
  unfold pandas. eapply keeps_bind; [apply keeps_mapM_deref|]. intros tables _.
  eapply keeps_bind; [apply keeps_eval|]. intros result _. apply keeps_new.
Qed.

Lemma keeps_pandas_series text scalars reads :
  keeps before (pandas_series series_expr text scalars reads) (λ _, True).
Proof.
  unfold pandas_series. eapply keeps_bind; [apply keeps_mapM_deref|].
  intros tables _. apply keeps_eval.
Qed.

Lemma keeps_pandas_value text scalars reads :
  keeps before (pandas_value value_expr text scalars reads) (λ _, True).
Proof.
  unfold pandas_value. eapply keeps_bind; [apply keeps_mapM_deref|].
  intros tables _. apply keeps_eval.
Qed.

Lemma keeps_copy r : keeps before (copy r) (created_after before).
Proof.
  unfold copy. eapply keeps_bind; [apply keeps_deref|]. intros df _.
  apply keeps_new.
Qed.

Lemma keeps_is_empty r : keeps before (is_empty r) (λ _, True).
Proof.
  unfold is_empty. eapply keeps_bind; [apply keeps_deref|]. intros df _.
  apply keeps_ret_any.
Qed.

Lemma keeps_in_columns col r : keeps before (in_columns col r) (λ _, True).
Proof.
  unfold in_columns. eapply keeps_bind; [apply keeps_deref|]. intros df _.
  apply keeps_ret_any.
Qed.

(** One step of a frame proof, chosen by the shape of the program. *)
Ltac keeps_go :=
  lazymatch goal with
  | |- keeps _ (mbind _ _) _ =>
      eapply keeps_bind; [keeps_go | intros ? ?; keeps_go]
  | |- keeps _ (if ?b then _ else _) _ => destruct b; keeps_go
  | |- keeps _ (mret _) _ =>
      first [apply keeps_ret_any | apply keeps_ret; assumption]
  | |- keeps _ (for_each _ _) _ =>
      apply keeps_for_each; intros ?; keeps_go
  | |- keeps _ (when _ _) _ => apply keeps_when; keeps_go
  | |- keeps _ (assign_column _ _ _) _ =>
      apply keeps_assign_column; assumption
  | |- keeps _ (pandas _ _ _ _) _ => apply keeps_pandas
  | |- keeps _ (pandas_series _ _ _ _) _ => apply keeps_pandas_series
  | |- keeps _ (pandas_value _ _ _ _) _ => apply keeps_pandas_value
  | |- keeps _ (copy _) _ => apply keeps_copy
  | |- keeps _ (is_empty _) _ => apply keeps_is_empty
  | |- keeps _ (in_columns _ _) _ => apply keeps_in_columns
  | |- keeps _ (deref _) _ => apply keeps_deref
  end.

Lemma keeps_ensure_event_columns ct :
  created_after before ct →
  keeps before (ensure_event_columns ct) (λ _, True).
Proof. intros Hct. unfold ensure_event_columns. keeps_go. Qed.

Lemma keeps_add_rates agg :
  created_after before agg →
  keeps before (add_rates series_expr agg) (λ _, True).
Proof. intros Hagg. unfold add_rates. keeps_go. Qed.

Ltac keeps_fun :=
  lazymatch goal with
  | |- keeps _ (mbind _ (ensure_event_columns _)) _ =>
      eapply keeps_bind;
      [apply keeps_ensure_event_columns; assumption | intros ? ?; keeps_fun]
  | |- keeps _ (mbind _ (add_rates _ _)) _ =>
      eapply keeps_bind;
      [apply keeps_add_rates; assumption | intros ? ?; keeps_fun]
  | |- keeps _ (mbind _ _) _ =>
      eapply keeps_bind; [keeps_go | intros ? ?; keeps_fun]
  | |- keeps _ (if ?b then _ else _) _ => destruct b; keeps_fun
  | |- _ => keeps_go
  end.

Lemma keeps_compute_kpis df :
  keeps before (compute_kpis frame_expr value_expr df) (λ _, True).
Proof. unfold compute_kpis. keeps_fun. Qed.

Lemma keeps_funnel_by_session df :
  keeps before (funnel_by_session frame_expr value_expr df)
    (created_after before).
Proof. unfold funnel_by_session. keeps_fun. Qed.

Lemma keeps_funnel_by_category df top_n :
  keeps before (funnel_by_category frame_expr series_expr value_expr df top_n)
    (created_after before).
Proof. unfold funnel_by_category. keeps_fun. Qed.

Lemma keeps_funnel_by_price_bucket df :
  keeps before (funnel_by_price_bucket frame_expr series_expr df)
    (created_after before).
Proof. unfold funnel_by_price_bucket. keeps_fun. Qed.

Lemma keeps_funnel_by_hour df :
  keeps before (funnel_by_hour frame_expr series_expr df)
    (created_after before).
Proof. unfold funnel_by_hour. keeps_fun. Qed.

Lemma keeps_category_revenue df top_n :
  keeps before (category_revenue frame_expr df top_n) (created_after before).
Proof. unfold category_revenue. keeps_fun. Qed.

Lemma keeps_repeat_purchase_stats df :
  keeps before (repeat_purchase_stats frame_expr series_expr df)
    (created_after before).
Proof. unfold repeat_purchase_stats. keeps_fun. Qed.

Lemma keeps_time_to_purchase_distribution df :
  keeps before (time_to_purchase_distribution frame_expr series_expr df)
    (created_after before).
Proof. unfold time_to_purchase_distribution. keeps_fun. Qed.

Lemma keeps_high_view_low_buy_categories df min_views :
  keeps before
    (high_view_low_buy_categories frame_expr series_expr df min_views)
    (created_after before).
Proof. unfold high_view_low_buy_categories. keeps_fun. Qed.

End AnalyticsFrame.

(** ** Claim about mutation *)

Section MutationClaim.

Import Frames Store StoreSamples.

(** C7. No analytics operation mutates the loaded table: after a call of
    [compute_kpis], [funnel_by_session], [funnel_by_category],
    [funnel_by_price_bucket], [funnel_by_hour], [category_revenue],
    [repeat_purchase_stats], [time_to_purchase_distribution] or
    [high_view_low_buy_categories], whether it returned or raised, the
    object passed as [df] holds the table it held before the call. *)
Theorem analytics_leave_input_unchanged
    (frame_expr : string → list Value → list DataFrame → Exception + DataFrame)
    (series_expr : string → list Value → list DataFrame → Exception + Series)
    (value_expr : string → list Value → list DataFrame → Exception + list Value)
    (h : heap) (df : nat) (table : DataFrame) (top_n min_views : Z) :
  h !! df = Some table →
  (compute_kpis frame_expr value_expr df h).2 !! df = Some table ∧
  (funnel_by_session frame_expr value_expr df h).2 !! df = Some table ∧
  (funnel_by_category frame_expr series_expr value_expr df top_n h).2 !! df
    = Some table ∧
  (funnel_by_price_bucket frame_expr series_expr df h).2 !! df = Some table ∧
  (funnel_by_hour frame_expr series_expr df h).2 !! df = Some table ∧
  (category_revenue frame_expr df top_n h).2 !! df = Some table ∧
  (repeat_purchase_stats frame_expr series_expr df h).2 !! df = Some table ∧
  (time_to_purchase_distribution frame_expr series_expr df h).2 !! df
    = Some table ∧
  (high_view_low_buy_categories frame_expr series_expr df min_views h).2 !! df
    = Some table.
Proof.
  intros Hdf.
  repeat split; (eapply lookup_weaken; [exact Hdf|]).
  - by apply (keeps_compute_kpis frame_expr value_expr h df h).
  - by apply (keeps_funnel_by_session frame_expr value_expr h df h).
  - by apply (keeps_funnel_by_category frame_expr series_expr value_expr h
                df top_n h).
  - by apply (keeps_funnel_by_price_bucket frame_expr series_expr h df h).
  - by apply (keeps_funnel_by_hour frame_expr series_expr h df h).
  - by apply (keeps_category_revenue frame_expr h df top_n h).
  - by apply (keeps_repeat_purchase_stats frame_expr series_expr h df h).
  - by apply (keeps_time_to_purchase_distribution frame_expr series_expr h
                df h).
  - by apply (keeps_high_view_low_buy_categories frame_expr series_expr h
                df min_views h).
Qed.

Lemma analytics_leave_input_unchanged_witness :
  (funnel_by_price_bucket first_table constant_column 0 loaded).2 !! 0
    = Some LoaderSamples.two_events ∧
  (time_to_purchase_distribution first_table constant_column 0 loaded).2 !! 0
    = Some LoaderSamples.two_events.
Proof.
  destruct (analytics_leave_input_unchanged first_table constant_column
              always_one loaded 0 LoaderSamples.two_events 5 200 eq_refl)
    as (_ & _ & _ & Hbucket & _ & _ & _ & Htime & _).
  split; [exact Hbucket | exact Htime].
Defined.

End MutationClaim.

(** ** Grouping *)

Section Grouping.

Import Analytics Overview OverviewSpec.

Lemma elem_of_group_keys (keys : list (option string)) (s : string) :
  s ∈ group_keys keys ↔ Some s ∈ keys.
Proof.
  unfold group_keys.
  by rewrite merge_sort_Permutation, elem_of_drop_duplicates, elem_of_dropna.
Qed.

Lemma NoDup_group_keys (keys : list (option string)) : NoDup (group_keys keys).
Proof.
  unfold group_keys. rewrite merge_sort_Permutation.
  apply NoDup_drop_duplicates.
Qed.

Lemma group_keys_Permutation (keys1 keys2 : list (option string)) :
  (∀ s, Some s ∈ keys1 ↔ Some s ∈ keys2) →
  group_keys keys1 ≡ₚ group_keys keys2.
Proof.
  intros Hsame. apply NoDup_Permutation; try apply NoDup_group_keys.
  intros s. by rewrite !elem_of_group_keys.
Qed.

Lemma count_filter_is_Some {A B} (f : A → option B) (P : A → Prop)
    `{∀ x, Decision (P x)} (l : list A) :
  count (f <$> filter P l) = length (filter (λ x, P x ∧ is_Some (f x)) l).
Proof.
  unfold count, dropna. induction l as [|x l IH]; [done|].
  rewrite !filter_cons. destruct (decide (P x)) as [HP|HP].
  - rewrite fmap_cons. cbn [omap list_omap]. destruct (f x) as [y|] eqn:Hfx.
    + rewrite decide_True by (split; [done | by eexists]).
      cbn. by rewrite <- IH.
    + rewrite decide_False by (intros [_ [? ?]]; done).
      cbn. by rewrite <- IH.
  - rewrite decide_False by tauto. done.
Qed.

Lemma session_sizes_depth (df : list Event) :
  session_sizes df = (λ s, (s, depth s df)) <$> group_keys (user_session <$> df).
Proof.
  unfold session_sizes, depth. apply list_fmap_ext. intros _ s _.
  by rewrite count_filter_is_Some.
Qed.

Lemma in_table_keys (df : list Event) (s : string) :
  Some s ∈ user_session <$> df ↔ in_table s df.
Proof.
  unfold in_table. rewrite list_elem_of_fmap. split.
  - intros (e & Heq & He). by exists e.
  - intros (e & He & Heq). by exists e.
Qed.

End Grouping.

(** ** Events per day *)

Section EventsOverTime.

Import Analytics Overview OverviewSpec.

Lemma sum_indicator {A} `{EqDecision A} (a : A) (keys : list A) :
  NoDup keys →
  sum_list ((λ k, if decide (a = k) then 1 else 0) <$> keys)
  = if decide (a ∈ keys) then 1 else 0.
Proof.
  induction 1 as [|k keys Hk _ IH]; [done|]. cbn. rewrite IH.
  destruct (decide (a = k)) as [->|Hne].
  - rewrite (decide_False (P := k ∈ keys)) by done.
    rewrite (decide_True (P := k ∈ k :: keys)) by left. lia.
  - destruct (decide (a ∈ keys)) as [Hin|Hout].
    + rewrite (decide_True (P := a ∈ k :: keys)) by (by right). lia.
    + rewrite (decide_False (P := a ∈ k :: keys)); [lia|].
      by intros [?|?]%elem_of_cons.
Qed.

(** Counting the rows of each group adds up to counting all rows. *)
Lemma sum_groups {A K} `{EqDecision K} (g : A → K) (P : A → Prop)
    `{∀ x, Decision (P x)} (keys : list K) (l : list A) :
  NoDup keys → (∀ x, x ∈ l → g x ∈ keys) →
  sum_list ((λ k, length (filter (λ x, g x = k ∧ P x) l)) <$> keys)
  = length (filter P l).
Proof.
  intros Hnodup. induction l as [|x l IH]; intros Hcover.
  - clear. induction keys as [|k keys IHk]; [done|]. cbn. exact IHk.
  - assert (sum_list ((λ k, length (filter (λ y, g y = k ∧ P y) (x :: l))) <$> keys)
            = sum_list ((λ k, if decide (g x = k) then
                                 (if decide (P x) then 1 else 0) else 0) <$> keys)
              + sum_list ((λ k, length (filter (λ y, g y = k ∧ P y) l)) <$> keys))
      as ->.
    { clear. induction keys as [|k keys IHk]; [done|]. cbn [fmap list_fmap sum_list].
      rewrite IHk, filter_cons.
      destruct (decide (g x = k)) as [Hk|Hk], (decide (P x)) as [HP|HP].
      - rewrite decide_True by done. cbn. lia.
      - rewrite decide_False by tauto. cbn. lia.
      - rewrite decide_False by tauto. cbn. lia.
      - rewrite decide_False by tauto. cbn. lia. }
    rewrite IH by (intros y Hy; apply Hcover; by right).
    rewrite filter_cons. destruct (decide (P x)) as [HP|HP].
    + rewrite sum_indicator by done.
      rewrite decide_True by (apply Hcover; left). done.
    + assert (sum_list ((λ k, if decide (g x = k) then 0 else 0) <$> keys) = 0)
        as ->; [|done].
      clear. induction keys as [|k keys IHk]; [done|]. cbn. rewrite IHk.
      by case_decide.
Qed.

Lemma elem_of_dates_of df d :
  d ∈ dates_of df ↔ ∃ e, e ∈ df ∧ event_date e = Some d.
Proof.
  unfold dates_of.
  rewrite merge_sort_Permutation, elem_of_drop_duplicates, elem_of_dropna,
    list_elem_of_fmap.
  split.
  - intros (e & Heq & He). by exists e.
  - intros (e & He & Heq). by exists e.
Qed.

Lemma NoDup_dates_of df : NoDup (dates_of df).
Proof.
  unfold dates_of. rewrite merge_sort_Permutation.
  apply NoDup_drop_duplicates.
Qed.

Lemma Sorted_dates_of df : StronglySorted Z.le (dates_of df).
Proof. unfold dates_of. apply StronglySorted_merge_sort; apply _. Qed.

Lemma StronglySorted_lt (l : list Z) :
  StronglySorted Z.le l → NoDup l → StronglySorted Z.lt l.
Proof.
  induction 1 as [|x l Hl IH Hx]; intros Hnd; [constructor|].
  apply NoDup_cons in Hnd as [Hx' Hnd]. constructor; [by apply IH|].
  rewrite Forall_forall in Hx |- *. intros y Hy.
  specialize (Hx y Hy). assert (x ≠ y) by (intros ->; done). lia.
Qed.

#[local] Instance date_le_trans : Transitive date_le.
Proof. unfold date_le. intros a b c. lia. Qed.

#[local] Instance date_le_total : Total date_le.
Proof. unfold date_le. intros a b. lia. Qed.

Lemma events_over_time_rows df :
  events_over_time df = (λ d, (d, events_on d df)) <$> dates_of df.
Proof.
  unfold events_over_time. fold (dates_of df).
  assert ((λ d, (d, count (event_type
                            <$> filter (λ e, event_date e = Some d) df)))
            <$> dates_of df
          = (λ d, (d, events_on d df)) <$> dates_of df) as ->.
  { apply list_fmap_ext. intros _ d _. unfold events_on.
    by rewrite count_filter_is_Some. }
  apply Sorted_unique_strong with date_le; [apply _| | | |].
  - intros x1 x2 Hx1 Hx2 H12 H21.
    rewrite merge_sort_Permutation in Hx1.
    apply list_elem_of_fmap in Hx1 as (d1 & -> & _).
    apply list_elem_of_fmap in Hx2 as (d2 & -> & _).
    unfold date_le in *. cbn in *. by replace d2 with d1 by lia.
  - apply Sorted_merge_sort; apply _.
  - assert (StronglySorted Z.le (dates_of df)) as Hs by apply Sorted_dates_of.
    apply StronglySorted_Sorted.
    induction Hs as [|d l Hl IH Hd]; [constructor|].
    cbn. constructor; [exact IH|].
    rewrite Forall_fmap. by eapply Forall_impl.
  - apply merge_sort_Permutation.
Qed.

Lemma fst_events_over_time df : (events_over_time df).*1 = dates_of df.
Proof.
  rewrite events_over_time_rows, <- list_fmap_compose.
  apply list_fmap_id.
Qed.

End EventsOverTime.

(** ** Properties of the overview charts *)

Section OverviewProperties.

Import Analytics Overview OverviewSpec Samples.

Lemma count_is_Some {A B} (f : A → option B) (l : list A) :
  count (f <$> l) = length (filter (λ x, is_Some (f x)) l).
Proof.
  unfold count, dropna. induction l as [|x l IH]; [done|].
  rewrite fmap_cons, filter_cons. cbn [omap list_omap].
  destruct (f x) as [y|].
  - rewrite decide_True by (by eexists). cbn. by rewrite <- IH.
  - rewrite decide_False by (by intros [? ?]). done.
Qed.

(** X1. [events_over_time] has one row per date present in the table, in
    strictly increasing date order, and the count of a row is the number of
    events of that date whose type is known. *)
Theorem events_over_time_by_date (df : list Event) :
  StronglySorted Z.lt (events_over_time df).*1 ∧
  ∀ d n, (d, n) ∈ events_over_time df ↔
         (∃ e, e ∈ df ∧ event_date e = Some d) ∧ n = events_on d df.
Proof.
  split.
  - rewrite fst_events_over_time.
    apply StronglySorted_lt; [apply Sorted_dates_of | apply NoDup_dates_of].
  - intros d n. rewrite events_over_time_rows, list_elem_of_fmap. split.
    + intros (d' & [= -> ->] & Hd). by apply elem_of_dates_of in Hd.
    + intros [Hd ->]. exists d. split; [done|]. by apply elem_of_dates_of.
Qed.

(** X2. The counts of [events_over_time] add up to the number of rows of
    the table whose event type and date are both known: no such row is lost
    or counted twice, and a row without a date is counted on no day. *)
Theorem events_over_time_total (df : list Event) :
  sum_list (events_over_time df).*2
  = length (filter (λ e, is_Some (event_date e) ∧ is_Some (event_type e)) df).
Proof.
  rewrite events_over_time_rows, <- list_fmap_compose.
  unfold compose. cbn [snd]. unfold events_on.
  set (dated := filter (λ e, is_Some (event_date e)) df).
  assert (∀ P : Event → Prop, ∀ HP : ∀ e, Decision (P e),
            (∀ e, P e → is_Some (event_date e)) →
            filter P df = filter P dated) as Hdated.
  { intros P HP Himp. unfold dated. rewrite list_filter_filter.
    apply list_filter_iff. intros e. split; [|tauto].
    intros He. split; [done | by apply Himp]. }
  transitivity
    (sum_list ((λ k, length (filter (λ e, event_date e = k ∧
                                          is_Some (event_type e)) dated))
                 <$> (Some <$> dates_of df))).
  { rewrite <- list_fmap_compose. f_equal. apply list_fmap_ext.
    intros _ d _. cbn. f_equal. apply Hdated.
    intros e [-> _]. by eexists. }
  rewrite (sum_groups event_date (λ e, is_Some (event_type e))).
  - f_equal. unfold dated. rewrite list_filter_filter.
    apply list_filter_iff. intros e. tauto.
  - apply (NoDup_fmap_2 Some), NoDup_dates_of.
  - intros e [[d Hd] He]%list_elem_of_filter. rewrite Hd.
    apply list_elem_of_fmap. exists d. split; [done|].
    apply elem_of_dates_of. by exists e.
Qed.





End OverviewProperties.

(** ** Sessions, bounces and depth buckets *)

(** Choose the disjunct that names the bucket at hand. *)
Ltac pick_case :=
  first [ left; split; [reflexivity | lia]
        | split; [reflexivity | lia]
        | right; pick_case ].

Section Sessions.

Import Analytics Overview OverviewSpec Behaviour.

Lemma length_filter_fmap {A B} (f : A → B) (P : B → Prop)
    `{∀ y, Decision (P y)} (l : list A) :
  length (filter P (f <$> l)) = length (filter (λ x, P (f x)) l).
Proof.
  induction l as [|x l IH]; [done|].
  rewrite fmap_cons, !filter_cons. case_decide; cbn; by rewrite IH.
Qed.

Lemma exactly_filter (keys : list string) (P : string → Prop)
    `{∀ s, Decision (P s)} :
  NoDup keys → exactly (length (filter P keys)) (λ s, s ∈ keys ∧ P s).
Proof.
  intros Hnd. exists (list_to_set (filter P keys)). split.
  - intros s. rewrite elem_of_list_to_set, list_elem_of_filter. tauto.
  - apply size_list_to_set. by apply NoDup_filter.
Qed.

Lemma exactly_iff (n : nat) (P Q : string → Prop) :
  (∀ s, P s ↔ Q s) → exactly n P → exactly n Q.
Proof.
  intros HPQ (X & HX & Hn). exists X. split; [|done].
  intros s. by rewrite HX.
Qed.

Lemma exactly_unique (n m : nat) (P : string → Prop) :
  exactly n P → exactly m P → n = m.
Proof.
  intros (X & HX & <-) (Y & HY & <-). f_equal. apply set_eq. intros s.
  by rewrite HX, HY.
Qed.

(** The number of sessions whose depth satisfies [P]. *)
Lemma sessions_sized (P : nat → Prop)
    `{∀ p : string * nat, Decision (P p.2)} df :
  exactly (length (filter (λ p, P p.2) (session_sizes df)))
          (λ s, in_table s df ∧ P (depth s df)).
Proof.
  rewrite session_sizes_depth, length_filter_fmap. cbn [snd].
  eapply exactly_iff; [|apply exactly_filter, NoDup_group_keys].
  intros s. cbn. by rewrite elem_of_group_keys, in_table_keys.
Qed.

Lemma session_sizes_empty df :
  empty (session_sizes df) = true ↔ ∀ s, ¬ in_table s df.
Proof.
  rewrite session_sizes_depth.
  destruct (group_keys (user_session <$> df)) as [|k keys] eqn:Hkeys; cbn.
  - split; [|done]. intros _ s Hs.
    apply in_table_keys, elem_of_group_keys in Hs. rewrite Hkeys in Hs.
    by apply elem_of_nil in Hs.
  - split; [done|]. intros Hnone. exfalso. apply (Hnone k).
    apply in_table_keys, elem_of_group_keys. rewrite Hkeys. left.
Qed.

(** X4. [bounce_rate] is the share of the sessions of the table that have
    exactly one event of known type; it lies between 0 and 1 and is 0 for a
    table without sessions. *)
Theorem bounce_rate_share (df : list Event) :
  ∃ bounces total_sessions : nat,
    exactly bounces (λ s, in_table s df ∧ depth s df = 1) ∧
    exactly total_sessions (λ s, in_table s df) ∧
    bounces ≤ total_sessions ∧
    bounce_rate df =
      (if decide (0 < total_sessions)
       then (inject_Z (Z.of_nat bounces) / inject_Z (Z.of_nat total_sessions))%Q
       else 0%Q) ∧
    (0 <= bounce_rate df)%Q ∧ (bounce_rate df <= 1)%Q.
Proof.
  exists (length (filter (λ p, p.2 = 1) (session_sizes df))),
         (length (session_sizes df)).
  split; [apply (sessions_sized (λ n, n = 1))|].
  split.
  { rewrite session_sizes_depth, length_fmap.
    replace (length (group_keys (user_session <$> df)))
      with (length (filter (λ _, True) (group_keys (user_session <$> df)))).
    - eapply exactly_iff; [|apply exactly_filter, NoDup_group_keys].
      intros s. cbn. rewrite elem_of_group_keys, in_table_keys. tauto.
    - f_equal. induction (group_keys _) as [|k l IH]; [done|].
      rewrite filter_cons, decide_True by done. by f_equal. }
  split; [apply length_filter|].
  assert (bounce_rate df =
            if decide (0 < length (session_sizes df))
            then truediv (length (filter (λ p, p.2 = 1) (session_sizes df)))
                         (length (session_sizes df))
            else 0%Q) as Hrate.
  { unfold bounce_rate. destruct (session_sizes df) as [|p l]; [done|].
    cbn [empty length]. rewrite decide_True by lia.
    rewrite decide_True by lia. done. }
  split; [exact Hrate|]. rewrite Hrate. case_decide as Hpos; [|done].
  split; [apply truediv_nonneg|]. apply truediv_le_1; [done|].
  apply length_filter.
Qed.

Lemma cut_depth (n : nat) (label : string) :
  cut depth_bins depth_labels (Z.of_nat n) = Some label ↔
    (label = "1" ∧ n = 1) ∨ (label = "2–3" ∧ 2 ≤ n ≤ 3) ∨
    (label = "4–5" ∧ 4 ≤ n ≤ 5) ∨ (label = "6–10" ∧ 6 ≤ n ≤ 10) ∨
    (label = "10+" ∧ 11 ≤ n ≤ 100).
Proof.
  unfold depth_bins, depth_labels. cbn [cut]. split.
  - intros Hcut. repeat case_decide; try discriminate Hcut;
      injection Hcut as <-; pick_case.
  - intros [[-> ?]|[[-> ?]|[[-> ?]|[[-> ?]|[-> ?]]]]];
      repeat case_decide; (reflexivity || lia).
Qed.

Lemma depth_bucket_count (label : string) (P : nat → Prop) (df : list Event) :
  (∀ n, cut depth_bins depth_labels (Z.of_nat n) = Some label ↔ P n) →
  exactly
    (length (filter (λ b, b = Some label)
               ((λ p : string * nat, cut depth_bins depth_labels (Z.of_nat p.2))
                  <$> session_sizes df)))
    (λ s, in_table s df ∧ P (depth s df)).
Proof.
  intros Hcut. rewrite length_filter_fmap.
  eapply exactly_iff;
    [|apply (sessions_sized
               (λ n, cut depth_bins depth_labels (Z.of_nat n) = Some label))].
  intros s. split; intros [Hs Hd]; (split; [done|]); by apply Hcut.
Qed.

(** X5. [session_depth_distribution] has no row for a table without
    sessions, and otherwise one row per bucket, in order, holding the number
    of sessions of that depth.  The last bucket, labelled 10+, stops at 100
    events: a session with more than 100 events of known type, or with none,
    is counted in no bucket. *)
Theorem session_depth_distribution_buckets (df : list Event) :
  ((∀ s, ¬ in_table s df) → session_depth_distribution df = []) ∧
  (∀ s0, in_table s0 df →
   ∃ n1 n2 n3 n4 n5 : nat,
     session_depth_distribution df
     = [("1", n1); ("2–3", n2); ("4–5", n3); ("6–10", n4); ("10+", n5)] ∧
     exactly n1 (λ s, in_table s df ∧ depth s df = 1) ∧
     exactly n2 (λ s, in_table s df ∧ 2 ≤ depth s df ≤ 3) ∧
     exactly n3 (λ s, in_table s df ∧ 4 ≤ depth s df ≤ 5) ∧
     exactly n4 (λ s, in_table s df ∧ 6 ≤ depth s df ≤ 10) ∧
     exactly n5 (λ s, in_table s df ∧ 11 ≤ depth s df ≤ 100)).
Proof.
  unfold session_depth_distribution. split.
  - intros Hnone. apply session_sizes_empty in Hnone. by rewrite Hnone.
  - intros s0 Hs0.
    destruct (empty (session_sizes df)) eqn:Hempty.
    { exfalso. eapply session_sizes_empty; eauto. }
    unfold bucket_counts, depth_labels at 2. cbn [fmap list_fmap].
    do 5 eexists. split; [reflexivity|].
    split; [apply (depth_bucket_count "1" (λ n, n = 1))|].
    2: split; [apply (depth_bucket_count "2–3" (λ n, 2 ≤ n ≤ 3))|].
    3: split; [apply (depth_bucket_count "4–5" (λ n, 4 ≤ n ≤ 5))|].
    4: split; [apply (depth_bucket_count "6–10" (λ n, 6 ≤ n ≤ 10))
              |apply (depth_bucket_count "10+" (λ n, 11 ≤ n ≤ 100))].
    all: intros n; rewrite cut_depth;
      (split;
       [intros [[Hl ?]|[[Hl ?]|[[Hl ?]|[[Hl ?]|[Hl ?]]]]];
        (done || discriminate Hl)
       |intros ?; pick_case]).
Qed.

Lemma session_depth_distribution_buckets_witness :
  ∃ n1 n2 n3 n4 n5 : nat,
    session_depth_distribution Samples.two_carts_one_view
    = [("1", n1); ("2–3", n2); ("4–5", n3); ("6–10", n4); ("10+", n5)].
Proof.
  destruct (proj2 (session_depth_distribution_buckets
                     Samples.two_carts_one_view) "s1")
    as (n1 & n2 & n3 & n4 & n5 & Heq & _).
  - eexists. split; [left|reflexivity].
  - by exists n1, n2, n3, n4, n5.
Defined.

End Sessions.

(** ** Repeat purchases and session flags *)

Section Purchases.

Import Analytics Overview OverviewSpec Behaviour Spec.

Lemma elem_of_purchases (df : list Event) (e : Event) :
  e ∈ filter (λ e, eq_str "purchase" (event_type e)) df
  ↔ e ∈ df ∧ event_type e = Some "purchase".
Proof.
  rewrite list_elem_of_filter. unfold eq_str.
  rewrite bool_decide_spec. tauto.
Qed.

Lemma buyer_keys (df : list Event) (u : string) :
  u ∈ group_keys (user_id <$> filter (λ e, eq_str "purchase" (event_type e)) df)
  ↔ buys u df.
Proof.
  rewrite elem_of_group_keys, list_elem_of_fmap. unfold buys. split.
  - intros (e & Hu & He). apply elem_of_purchases in He as [He Hty].
    by exists e.
  - intros (e & He & Hu & Hty). exists e. split; [done|].
    by apply elem_of_purchases.
Qed.

Lemma sessions_bought_nunique (df : list Event) (u : string) :
  nunique (user_session
             <$> filter (λ e, user_id e = Some u)
                   (filter (λ e, eq_str "purchase" (event_type e)) df))
  = size (sessions_bought u df).
Proof.
  rewrite nunique_size. f_equal. apply set_eq. intros s.
  unfold sessions_bought.
  rewrite !elem_of_list_to_set, elem_of_dropna, list_elem_of_fmap,
    list_elem_of_omap.
  split.
  - intros (e & Hs & He). apply list_elem_of_filter in He as [Hu He].
    apply elem_of_purchases in He as [He Hty]. exists e. split; [done|].
    by rewrite decide_True.
  - intros (e & He & Hs). case_decide as Hcond; [|done].
    destruct Hcond as [Hu Hty]. exists e. split; [done|].
    apply list_elem_of_filter. split; [done|]. by apply elem_of_purchases.
Qed.

Lemma cut_purchase (n : nat) (label : string) :
  cut purchase_bins purchase_labels (Z.of_nat n) = Some label ↔
    (label = "1" ∧ n = 1) ∨ (label = "2" ∧ n = 2) ∨ (label = "3" ∧ n = 3) ∨
    (label = "4–5" ∧ 4 ≤ n ≤ 5) ∨ (label = "6+" ∧ 6 ≤ n ≤ 100).
Proof.
  unfold purchase_bins, purchase_labels. cbn [cut]. split.
  - intros Hcut. repeat case_decide; try discriminate Hcut;
      injection Hcut as <-; pick_case.
  - intros [[-> ?]|[[-> ?]|[[-> ?]|[[-> ?]|[-> ?]]]]];
      repeat case_decide; (reflexivity || lia).
Qed.

Lemma purchase_bucket_count (label : string) (P : nat → Prop) (df : list Event) :
  (∀ n, cut purchase_bins purchase_labels (Z.of_nat n) = Some label ↔ P n) →
  let purchases := filter (λ e, eq_str "purchase" (event_type e)) df in
  exactly
    (length (filter (λ b, b = Some label)
               ((λ p : string * nat,
                   cut purchase_bins purchase_labels (Z.of_nat p.2))
                  <$> ((λ u, (u, nunique (user_session
                                   <$> filter (λ e, user_id e = Some u) purchases)))
                         <$> group_keys (user_id <$> purchases)))))
    (λ u, buys u df ∧ P (size (sessions_bought u df))).
Proof.
  intros Hcut purchases. rewrite !length_filter_fmap. cbn [snd].
  eapply exactly_iff; [|apply exactly_filter, NoDup_group_keys].
  intros u. cbn beta. subst purchases.
  rewrite buyer_keys, sessions_bought_nunique.
  split; intros [Hu Hn]; (split; [done|]); by apply Hcut.
Qed.

(** X6. [repeat_purchase_stats] returns no row for a table without
    purchase events, and otherwise one row per bucket, in order, holding
    the number of buying users by their number of distinct purchase
    sessions.  The last bucket, labelled 6+, stops at 100 sessions, and a
    buyer whose purchases carry no session identifier is in no bucket. *)
Theorem repeat_purchase_stats_buckets (df : list Event) :
  ((∀ e, e ∈ df → event_type e ≠ Some "purchase") →
   repeat_purchase_stats df = []) ∧
  (∀ e0, e0 ∈ df → event_type e0 = Some "purchase" →
   ∃ n1 n2 n3 n4 n5 : nat,
     repeat_purchase_stats df
     = [("1", n1); ("2", n2); ("3", n3); ("4–5", n4); ("6+", n5)] ∧
     exactly n1 (λ u, buys u df ∧ size (sessions_bought u df) = 1) ∧
     exactly n2 (λ u, buys u df ∧ size (sessions_bought u df) = 2) ∧
     exactly n3 (λ u, buys u df ∧ size (sessions_bought u df) = 3) ∧
     exactly n4 (λ u, buys u df ∧ 4 ≤ size (sessions_bought u df) ≤ 5) ∧
     exactly n5 (λ u, buys u df ∧ 6 ≤ size (sessions_bought u df) ≤ 100)).
Proof.
  unfold repeat_purchase_stats. split.
  - intros Hnone.
    destruct (filter _ df) as [|e l] eqn:Hp; [done|]. exfalso.
    assert (e ∈ filter (λ e, eq_str "purchase" (event_type e)) df) as He
      by (rewrite Hp; left).
    apply elem_of_purchases in He as [He Hty]. by eapply Hnone.
  - intros e0 He0 Hty0.
    destruct (empty (filter _ df)) eqn:Hempty.
    { exfalso.
      assert (e0 ∈ filter (λ e, eq_str "purchase" (event_type e)) df) as He
        by (by apply elem_of_purchases).
      destruct (filter _ df); [by apply elem_of_nil in He | done]. }
    unfold bucket_counts, purchase_labels at 2. cbn [fmap list_fmap].
    do 5 eexists. split; [reflexivity|].
    split; [apply (purchase_bucket_count "1" (λ n, n = 1))|].
    2: split; [apply (purchase_bucket_count "2" (λ n, n = 2))|].
    3: split; [apply (purchase_bucket_count "3" (λ n, n = 3))|].
    4: split; [apply (purchase_bucket_count "4–5" (λ n, 4 ≤ n ≤ 5))
              |apply (purchase_bucket_count "6+" (λ n, 6 ≤ n ≤ 100))].
    all: intros n; rewrite cut_purchase;
      (split;
       [intros [[Hl ?]|[[Hl ?]|[[Hl ?]|[[Hl ?]|[Hl ?]]]]];
        (done || discriminate Hl)
       |intros ?; pick_case]).
Qed.

Lemma repeat_purchase_stats_buckets_witness :
  ∃ n1 n2 n3 n4 n5 : nat,
    repeat_purchase_stats OverviewSamples.three_days
    = [("1", n1); ("2", n2); ("3", n3); ("4–5", n4); ("6+", n5)] ∧
    n1 = 2 ∧
    exactly n1 (λ u, buys u OverviewSamples.three_days ∧
                     size (sessions_bought u OverviewSamples.three_days) = 1).
Proof.
  destruct (proj2 (repeat_purchase_stats_buckets OverviewSamples.three_days)
              (OverviewSamples.at_minute 0 15 "a" "purchase"))
    as (n1 & n2 & n3 & n4 & n5 & Heq & H1 & _).
  - right. left.
  - reflexivity.
  - exists n1, n2, n3, n4, n5. split; [exact Heq|]. split; [|exact H1].
    vm_compute in Heq. by injection Heq as <- _ _ _ _.
Defined.

(** X7. The counts of [funnel_by_session] are those obtained by flagging
    every session with [_session_flags]: [sessions_with_view] is the number
    of session groups flagged [has_view], and likewise for cart and
    purchase. *)
Theorem funnel_by_session_flags (df : list Event) :
  ∃ r : FunnelRow,
    funnel_by_session df = [r] ∧
    sessions_with_view r
    = length (filter (λ g, has_view (_session_flags g)) (session_groups df)) ∧
    sessions_with_cart r
    = length (filter (λ g, has_cart (_session_flags g)) (session_groups df)) ∧
    sessions_with_purchase r
    = length (filter (λ g, has_purchase (_session_flags g)) (session_groups df)).
Proof.
  assert (∀ ty (flag : SessionFlags → bool),
            (∀ g, flag (_session_flags g) = bool_decide (Some ty ∈ event_type <$> g)) →
            sessions_of_type ty (distinct_pairs df)
            = length (filter (λ g, flag (_session_flags g)) (session_groups df)))
    as Hflag.
  { intros ty flag Hdef. unfold session_groups. rewrite length_filter_fmap.
    eapply exactly_unique.
    - pose proof (sessions_of_type_distinct ty df) as (X & HX & Hn).
      exists X. split; [exact HX | exact Hn].
    - eapply exactly_iff; [|apply exactly_filter, NoDup_group_keys].
      intros s. cbn beta. rewrite Hdef, elem_of_group_keys.
      rewrite bool_decide_spec, !list_elem_of_fmap. unfold has_event. split.
      + intros [(e0 & Hs0 & He0) (e & Hty & He)].
        apply list_elem_of_filter in He as [Hs He]. by exists e.
      + intros (e & He & Hs & Hty). split; [by exists e|].
        exists e. split; [done|]. by apply list_elem_of_filter. }
  rewrite funnel_by_session_row. cbv zeta. eexists. split; [reflexivity|].
  cbn [sessions_with_view sessions_with_cart sessions_with_purchase].
  split; [by apply (Hflag "view" has_view)|].
  split; [by apply (Hflag "cart" has_cart)|].
  by apply (Hflag "purchase" has_purchase).
Qed.

End Purchases.

(** ** Time to purchase *)

Section TimeToPurchase.

Import Analytics Overview OverviewSpec Behaviour OverviewSamples.

Lemma foldr_min_spec (t : Z) (times : list Z) :
  foldr Z.min t times ∈ t :: times ∧
  ∀ x, x ∈ t :: times → (foldr Z.min t times ≤ x)%Z.
Proof.
  induction times as [|a times [IHin IHle]]; cbn.
  - split; [left|]. intros x Hx. apply list_elem_of_singleton in Hx as ->. lia.
  - split.
    + destruct (Z.min_spec a (foldr Z.min t times)) as [[_ ->]|[_ ->]].
      * right. left.
      * apply elem_of_cons in IHin as [Heq|Hin]; [rewrite Heq; left|].
        right. by right.
    + intros x Hx.
      assert (x = a ∨ x ∈ t :: times) as [->|Hx'].
      { apply elem_of_cons in Hx as [->|Hx]; [right; left|].
        apply elem_of_cons in Hx as [->|Hx]; [by left|]. right. by right. }
      * lia.
      * specialize (IHle x Hx'). lia.
Qed.

Lemma minimum_Some (times : list Z) (t : Z) :
  minimum times = Some t ↔ t ∈ times ∧ ∀ x, x ∈ times → (t ≤ x)%Z.
Proof.
  destruct times as [|a times]; cbn.
  - split; [done|]. intros [Hin _]. by apply elem_of_nil in Hin.
  - destruct (foldr_min_spec a times) as [Hin Hle]. split.
    + by intros [= <-].
    + intros [Hin' Hle']. f_equal.
      specialize (Hle t Hin'). specialize (Hle' _ Hin). lia.
Qed.

Lemma elem_of_first_times (ty s : string) (t : Z) (df : list Event) :
  (s, t) ∈ first_times ty df ↔ first_at ty s t df.
Proof.
  unfold first_times, first_at. rewrite list_elem_of_omap. split.
  - intros (s' & Hkey & Hmin).
    destruct (minimum _) as [t'|] eqn:Hmin'; [|done].
    cbn in Hmin. injection Hmin as -> ->.
    apply minimum_Some in Hmin' as [Hin Hle].
    apply elem_of_dropna, list_elem_of_fmap in Hin as (e & Ht & He).
    apply list_elem_of_filter in He as [Hs He].
    apply list_elem_of_filter in He as [Hty He].
    unfold eq_str in Hty. apply bool_decide_unpack in Hty. split.
    + by exists e.
    + intros e' t' He' Hs' Hty' Ht'. apply Hle.
      apply elem_of_dropna, list_elem_of_fmap.
      exists e'. split; [done|]. apply list_elem_of_filter. split; [done|].
      apply list_elem_of_filter. split; [|done].
      unfold eq_str. by apply bool_decide_pack.
  - intros [(e & He & Hs & Hty & Ht) Hle]. exists s. split.
    + apply elem_of_group_keys, list_elem_of_fmap. exists e. split; [done|].
      apply list_elem_of_filter. split; [|done].
      unfold eq_str. by apply bool_decide_pack.
    + assert (minimum (dropna (event_time
                         <$> filter (λ e, user_session e = Some s)
                               (filter (λ e, eq_str ty (event_type e)) df)))
              = Some t) as ->; [|done].
      apply minimum_Some. split.
      * apply elem_of_dropna, list_elem_of_fmap. exists e. split; [done|].
        apply list_elem_of_filter. split; [done|].
        apply list_elem_of_filter. split; [|done].
        unfold eq_str. by apply bool_decide_pack.
      * intros x Hx.
        apply elem_of_dropna, list_elem_of_fmap in Hx as (e' & Hx & He').
        apply list_elem_of_filter in He' as [Hs' He'].
        apply list_elem_of_filter in He' as [Hty' He'].
        unfold eq_str in Hty'. apply bool_decide_unpack in Hty'.
        by eapply Hle.
Qed.

Lemma first_at_unique (ty s : string) (t t' : Z) (df : list Event) :
  first_at ty s t df → first_at ty s t' df → t = t'.
Proof.
  intros [(e & He & Hs & Hty & Ht) Hle] [(e' & He' & Hs' & Hty' & Ht') Hle'].
  specialize (Hle e' t' He' Hs' Hty' Ht').
  specialize (Hle' e t He Hs Hty Ht). lia.
Qed.

Lemma NoDup_first_times (ty : string) (df : list Event) :
  NoDup (first_times ty df).*1.
Proof.
  unfold first_times.
  assert (∀ keys : list string, NoDup keys →
            NoDup (omap (λ s, pair s <$> minimum
                            (dropna (event_time
                               <$> filter (λ e, user_session e = Some s)
                                     (filter (λ e, eq_str ty (event_type e)) df))))
                     keys).*1) as Hgen.
  { induction 1 as [|k keys Hk Hnd IH]; [constructor|]. cbn.
    destruct (minimum _) as [t|]; cbn; [|exact IH].
    constructor; [|exact IH]. intros Hin. apply Hk.
    apply list_elem_of_fmap in Hin as ([s t'] & -> & Hin).
    apply list_elem_of_omap in Hin as (s' & Hs' & Heq).
    destruct (minimum _); [|done]. cbn in Heq. by injection Heq as -> ->. }
  apply Hgen, NoDup_group_keys.
Qed.

Lemma time_of_Some (s : string) (t : Z) (times : list (string * Z)) :
  NoDup times.*1 → time_of s times = Some t ↔ (s, t) ∈ times.
Proof.
  intros Hnd. unfold time_of. split.
  - destruct (list_find _ times) as [[i [s' t']]|] eqn:Hfind; [|done].
    cbn. intros [= ->]. apply list_find_Some in Hfind as (Hi & Hs & _).
    cbn in Hs. subst s'. by eapply list_elem_of_lookup_2.
  - intros Hin. induction times as [|[s' t'] times IH]; [by apply elem_of_nil in Hin|].
    cbn in Hnd. apply NoDup_cons in Hnd as [Hnotin Hnd]. cbn.
    apply elem_of_cons in Hin as [[= <- <-]|Hin].
    + by rewrite decide_True.
    + rewrite decide_False.
      * specialize (IH Hnd Hin). destruct (list_find _ times) as [[i p]|]; [|done].
        cbn in *. done.
      * cbn. intros ->. apply Hnotin. apply list_elem_of_fmap.
        by exists (s, t).
Qed.

Lemma minutes_between_nonneg (view purchase : Z) :
  Qle_bool 0 (minutes_between view purchase) = true ↔ (view ≤ purchase)%Z.
Proof.
  rewrite Qle_bool_iff.
  unfold minutes_between, ns_per_minute, Qle, Qdiv, Qmult, Qinv, inject_Z.
  cbn. lia.
Qed.

Lemma length_filter_omap {A B C} (g : A → option B) (f : B → C)
    (P : C → bool) (l : list A) :
  length (filter (λ c, P c) (f <$> omap g l))
  = length (filter (λ x, Is_true (match g x with
                                  | Some y => P (f y)
                                  | None => false
                                  end)) l).
Proof.
  induction l as [|x l IH]; [done|]. cbn [omap list_omap].
  rewrite (filter_cons _ x). destruct (g x) as [y|].
  - rewrite fmap_cons, filter_cons. destruct (P (f y)) eqn:HP.
    + rewrite !decide_True by exact I. cbn. by rewrite IH.
    + rewrite !decide_False by (intros []). exact IH.
  - rewrite decide_False by (intros []). exact IH.
Qed.

(** X8. Every value returned by [time_to_purchase_distribution] is
    non-negative, and there is one value per session that has both a view
    and a purchase and whose first purchase is not earlier than its first
    view.  A session that buys before it first views is left out. *)
Theorem time_to_purchase_sessions (df : list Event) :
  Forall (λ m, (0 <= m)%Q) (time_to_purchase_distribution df) ∧
  exactly (length (time_to_purchase_distribution df))
    (λ s, ∃ first_view first_purchase : Z,
            first_at "view" s first_view df ∧
            first_at "purchase" s first_purchase df ∧
            (first_view ≤ first_purchase)%Z).
Proof.
  unfold time_to_purchase_distribution. split.
  - apply Forall_forall. intros m Hm.
    apply list_elem_of_filter in Hm as [Hm _].
    by apply Is_true_true, Qle_bool_iff in Hm.
  - set (views := first_times "view" df).
    set (purchases := first_times "purchase" df).
    rewrite (length_filter_omap
               (λ '(s, first_view_time),
                  pair first_view_time <$> time_of s purchases)
               (λ '(first_view_time, first_purchase_time),
                  minutes_between first_view_time first_purchase_time)
               (λ m, Qle_bool 0 m)).
    set (kept := filter _ views).
    assert (NoDup kept.*1) as Hnd.
    { eapply sublist_NoDup; [apply (NoDup_first_times "view" df)|].
      apply fmap_sublist, sublist_filter. }
    exists (list_to_set kept.*1). split.
    + intros s. rewrite elem_of_list_to_set, list_elem_of_fmap. split.
      * intros ([s' v] & -> & Hin). cbn.
        apply list_elem_of_filter in Hin as [Hkeep Hin].
        destruct (time_of s' purchases) as [p|] eqn:Hp; [|done]. cbn in Hkeep.
        apply time_of_Some in Hp; [|apply NoDup_first_times].
        exists v, p. split; [by apply elem_of_first_times|].
        split; [by apply elem_of_first_times|].
        by apply Is_true_true, minutes_between_nonneg in Hkeep.
      * intros (v & p & Hv & Hp & Hle). exists (s, v). split; [done|].
        apply list_elem_of_filter. split; [|by apply elem_of_first_times].
        assert (time_of s purchases = Some p) as ->.
        { apply time_of_Some; [apply NoDup_first_times|].
          by apply elem_of_first_times. }
        cbn. by apply Is_true_true, minutes_between_nonneg.
    + rewrite size_list_to_set by done. by rewrite length_fmap.
Qed.

Example time_to_purchase_three_days :
  Qred <$> time_to_purchase_distribution three_days = [10%Q].
Proof. vm_compute. reflexivity. Qed.

End TimeToPurchase.

(** ** Row order *)

Section RowOrder.

Import Analytics Overview OverviewSpec OverviewSamples.

Lemma dates_of_Permutation (df df' : list Event) :
  df ≡ₚ df' → dates_of df = dates_of df'.
Proof.
  intros Hperm. apply (Sorted_unique Z.le).
  - apply StronglySorted_Sorted, Sorted_dates_of.
  - apply StronglySorted_Sorted, Sorted_dates_of.
  - apply NoDup_Permutation; try apply NoDup_dates_of.
    intros d. rewrite !elem_of_dates_of.
    split; intros (e & He & Hd); exists e; (split; [|done]).
    + by rewrite <- Hperm.
    + by rewrite Hperm.
Qed.

Lemma events_on_Permutation (d : Z) (df df' : list Event) :
  df ≡ₚ df' → events_on d df = events_on d df'.
Proof. intros Hperm. unfold events_on. by rewrite Hperm. Qed.

Lemma depth_Permutation (s : string) (df df' : list Event) :
  df ≡ₚ df' → depth s df = depth s df'.
Proof. intros Hperm. unfold depth. by rewrite Hperm. Qed.

Lemma session_sizes_Permutation (df df' : list Event) :
  df ≡ₚ df' → session_sizes df ≡ₚ session_sizes df'.
Proof.
  intros Hperm. rewrite !session_sizes_depth.
  rewrite (group_keys_Permutation (user_session <$> df) (user_session <$> df')).
  - apply Permutation_refl'. apply list_fmap_ext. intros _ s _.
    by rewrite (depth_Permutation s df df').
  - intros s. by rewrite Hperm.
Qed.

Lemma empty_Permutation {A} (l l' : list A) : l ≡ₚ l' → empty l = empty l'.
Proof.
  intros Hperm. destruct l, l'; try done.
  - by apply Permutation_nil_cons in Hperm.
  - symmetry in Hperm. by apply Permutation_nil_cons in Hperm.
Qed.

(** X9. The overview aggregations do not depend on the order of the rows:
    reordering the table leaves [events_over_time], [trends_summary],
    [bounce_rate] and [session_depth_distribution] unchanged. *)
Theorem overview_ignores_row_order (sentence : nat → nat → string)
    (df df' : list Event) :
  df ≡ₚ df' →
  events_over_time df = events_over_time df' ∧
  trends_summary sentence df = trends_summary sentence df' ∧
  bounce_rate df = bounce_rate df' ∧
  session_depth_distribution df = session_depth_distribution df'.
Proof.
  intros Hperm.
  assert (events_over_time df = events_over_time df') as Hevents.
  { rewrite !events_over_time_rows, (dates_of_Permutation df df') by done.
    apply list_fmap_ext. intros _ d _.
    by rewrite (events_on_Permutation d df df'). }
  pose proof (session_sizes_Permutation df df' Hperm) as Hsizes.
  split; [exact Hevents|]. split.
  { unfold trends_summary. by rewrite Hevents. }
  split.
  - unfold bounce_rate.
    rewrite (empty_Permutation _ _ Hsizes).
    destruct (empty (session_sizes df')); [done|].
    assert (length (session_sizes df) = length (session_sizes df')) as Hlen
      by (by rewrite Hsizes).
    assert (length (filter (λ p, p.2 = 1) (session_sizes df))
            = length (filter (λ p, p.2 = 1) (session_sizes df'))) as Hbounce
      by (by rewrite Hsizes).
    cbv zeta. by rewrite Hlen, Hbounce.
  - unfold session_depth_distribution.
    rewrite (empty_Permutation _ _ Hsizes).
    destruct (empty (session_sizes df')); [done|].
    unfold bucket_counts. apply list_fmap_ext. intros _ label _.
    by rewrite Hsizes.
Qed.

Lemma overview_ignores_row_order_witness :
  bounce_rate (reverse three_days) = bounce_rate three_days.
Proof.
  apply (overview_ignores_row_order (λ _ _, "") (reverse three_days) three_days).
  apply reverse_Permutation.
Defined.

End RowOrder.

(** ** More on the sidebar filters *)

Section Filters.

Import Analytics App OverviewSamples.

Lemma isin_spec (values : list string) (x : option string) :
  isin values x ↔ ∃ s, x = Some s ∧ s ∈ values.
Proof.
  unfold isin. destruct x as [s|].
  - rewrite bool_decide_spec. split; [by exists s|]. by intros (? & [= <-] & ?).
  - split; [done|]. by intros (? & [=] & _).
Qed.

Lemma truthy_spec {A} (l : list A) : truthy l = true ↔ l ≠ [].
Proof. by destruct l. Qed.

(** One selection step of [apply_filters], for any of the three columns. *)
Lemma elem_of_selection (col : Event → option string) (chosen : list string)
    (filtered : list Event) (e : Event) :
  e ∈ (if truthy chosen then filter (λ e, isin chosen (col e)) filtered
       else filtered)
  ↔ e ∈ filtered ∧ (chosen ≠ [] → ∃ v, col e = Some v ∧ v ∈ chosen).
Proof.
  destruct chosen as [|c chosen]; cbn [truthy empty negb].
  - split; [by intros ?; split | by intros [? _]].
  - rewrite list_elem_of_filter, isin_spec. split.
    + intros [Hin He]. by split.
    + intros [He Hin]. split; [by apply Hin | done].
Qed.

Lemma sublist_selection (col : Event → option string) (chosen : list string)
    (filtered : list Event) :
  (if truthy chosen then filter (λ e, isin chosen (col e)) filtered
   else filtered) `sublist_of` filtered.
Proof. destruct (truthy chosen); [apply sublist_filter | done]. Qed.

Lemma in_date_range_spec (start_date end_date : Z) (e : Event) :
  in_date_range start_date end_date e
  ↔ ∃ d, event_date e = Some d ∧ (start_date ≤ d ≤ end_date)%Z.
Proof.
  unfold in_date_range. destruct (event_date e) as [d|].
  - rewrite andb_True, !bool_decide_spec. split.
    + intros [? ?]. by exists d.
    + intros (? & [= <-] & ?). lia.
  - split; [done|]. by intros (? & [=] & _).
Qed.

Lemma filter_all {A} (P : A → Prop) `{∀ x, Decision (P x)} (l : list A) :
  (∀ x, x ∈ l → P x) → filter P l = l.
Proof.
  induction l as [|x l IH]; intros Hall; [done|].
  rewrite filter_cons, decide_True by (apply Hall; left).
  f_equal. apply IH. intros y Hy. apply Hall. by right.
Qed.

Lemma selection_all (col : Event → option string) (chosen : list string)
    (filtered : list Event) :
  (∀ e, e ∈ filtered → chosen ≠ [] → ∃ v, col e = Some v ∧ v ∈ chosen) →
  (if truthy chosen then filter (λ e, isin chosen (col e)) filtered
   else filtered) = filtered.
Proof.
  intros Hall. destruct (truthy chosen) eqn:Htruthy; [|done].
  apply filter_all. intros e He. apply isin_spec, Hall; [done|].
  by apply truthy_spec.
Qed.

Lemma apply_filters_inr (ui : Sidebar) (df out : list Event) :
  apply_filters ui df = inr out →
  ∃ start_date end_date,
    unpack_date_range (date_range ui) = inr (start_date, end_date) ∧
    out = filter_brands (chosen_brands ui)
            (filter_categories (chosen_cats ui)
               (filter_event_types (selected ui)
                  (filter (λ e, in_date_range start_date end_date e) df))).
Proof.
  unfold apply_filters. destruct (default_date_range df) as [exn|?]; [done|].
  destruct (unpack_date_range (date_range ui)) as [exn|[start_date end_date]];
    [done|].
  intros [= <-]. by exists start_date, end_date.
Qed.

Lemma elem_of_pipeline (ui : Sidebar) (start_date end_date : Z)
    (df : list Event) (e : Event) :
  e ∈ filter_brands (chosen_brands ui)
        (filter_categories (chosen_cats ui)
           (filter_event_types (selected ui)
              (filter (λ e, in_date_range start_date end_date e) df)))
  ↔ e ∈ df ∧ FilterSpec.passes ui start_date end_date e.
Proof.
  unfold filter_brands, filter_categories, filter_event_types.
  rewrite (elem_of_selection brand), (elem_of_selection category_code),
    (elem_of_selection event_type), list_elem_of_filter, in_date_range_spec.
  unfold FilterSpec.passes. tauto.
Qed.



Lemma dropna_nil_iff {A} (l : list (option A)) :
  dropna l = [] ↔ ∀ x, x ∈ l → x = None.
Proof.
  unfold dropna. induction l as [|[a|] l IH]; cbn.
  - split; [|done]. intros _ x Hx. by apply elem_of_nil in Hx.
  - split; [done|]. intros Hall. specialize (Hall (Some a)).
    discriminate Hall. left.
  - rewrite IH. split.
    + intros Hall x [->|Hx]%elem_of_cons; [done | by apply Hall].
    + intros Hall x Hx. apply Hall. by right.
Qed.

(** The default of the date widget exists exactly for a table with rows
    all of which have a date. *)
Lemma default_date_range_inr (df : list Event) :
  (∃ r, default_date_range df = inr r)
  ↔ df ≠ [] ∧ ∀ e, e ∈ df → is_Some (event_date e).
Proof.
  unfold default_date_range.
  destruct (dropna (event_date <$> df)) as [|d present] eqn:Hpresent;
    cbn [minimum maximum].
  - split; [by intros [? ?]|]. intros [Hrows Hall]. exfalso.
    destruct df as [|e df]; [done|].
    apply dropna_nil_iff with (x := event_date e) in Hpresent; [|left].
    destruct (Hall e) as [? He]; [left|]. congruence.
  - case_bool_decide as Hall.
    + split; [|by eexists]. intros _. split.
      * by intros ->.
      * by apply Forall_forall.
    + split; [by intros [? ?]|]. intros [_ Hall']. exfalso.
      by apply Hall, Forall_forall.
Qed.

Lemma default_date_range_inl (df : list Event) (exn : Exception) :
  default_date_range df = inl exn → ∃ msg, exn = TypeError msg.
Proof.
  unfold default_date_range.
  destruct (minimum (dropna (event_date <$> df))),
           (maximum (dropna (event_date <$> df)));
    try case_bool_decide; intros [= <-]; by eexists.
Qed.

Lemma missing_date (df : list Event) :
  ¬ (df ≠ [] ∧ ∀ e, e ∈ df → is_Some (event_date e))
  ↔ df = [] ∨ ∃ e, e ∈ df ∧ event_date e = None.
Proof.
  split.
  - intros Hnot. destruct df as [|e0 df]; [by left|]. right.
    destruct (decide (Forall (λ e, is_Some (event_date e)) (e0 :: df)))
      as [Hall|Hsome].
    + exfalso. apply Hnot. split; [done|]. by apply Forall_forall.
    + apply not_Forall_Exists, Exists_exists in Hsome as (e & He & Hd);
        [|apply _].
      exists e. split; [done|]. by apply eq_None_not_Some.
  - intros [->|(e & He & Hd)] [Hrows Hall]; [done|].
    destruct (Hall e He) as [? ?]. congruence.
Qed.

(** X11. When [apply_filters] raises.  It raises [TypeError] exactly when
    the table has no row or a row without a date: the default of the date
    widget cannot be computed, whatever the sidebar holds.  Otherwise it
    raises exactly when the date widget hands back a tuple that does not
    hold two dates (a range being picked, with only its start chosen so
    far), and the exception is the [ValueError] of the unpacking.  It
    raises nothing else. *)
Theorem apply_filters_raises (ui : Sidebar) (df : list Event) :
  ((∃ msg, apply_filters ui df = inl (TypeError msg))
   ↔ df = [] ∨ ∃ e, e ∈ df ∧ event_date e = None) ∧
  ((∃ msg, apply_filters ui df = inl (ValueError msg))
   ↔ df ≠ [] ∧ (∀ e, e ∈ df → is_Some (event_date e)) ∧
     ∃ dates, date_range ui = DateTuple dates ∧ length dates ≠ 2) ∧
  (∀ exn, apply_filters ui df = inl exn →
          (∃ msg, exn = TypeError msg) ∨ (∃ msg, exn = ValueError msg)).
Proof.
  pose proof (default_date_range_inr df) as Hdefault.
  pose proof (default_date_range_inl df) as Htype.
  pose proof (missing_date df) as Hmissing.
  unfold apply_filters.
  destruct (default_date_range df) as [exn|r].
  - destruct (Htype exn eq_refl) as [msg ->].
    assert (df = [] ∨ ∃ e, e ∈ df ∧ event_date e = None) as Hbad.
    { apply Hmissing. intros Hok. apply Hdefault in Hok as [? ?]. done. }
    split; [split; [done | by exists msg]|]. split.
    + split; [by intros [? ?]|]. intros (Hrows & Hall & _).
      exfalso. apply (proj2 Hmissing) in Hbad. by apply Hbad.
    + intros exn [= <-]. left. by eexists.
  - assert (df ≠ [] ∧ ∀ e, e ∈ df → is_Some (event_date e)) as Hok
      by (apply Hdefault; by eexists).
    unfold unpack_date_range.
    destruct (date_range ui) as [[|d1 [|d2 [|d3 dates]]]|d]; cbn.
    + split; [split; [by intros [? ?] | intros Hbad; exfalso; apply (proj2 Hmissing) in Hbad; by apply Hbad]|].
      split; [|intros exn [= <-]; right; by eexists].
      split; [intros _ | by eexists].
      destruct Hok. repeat split; try done. by eexists.
    + split; [split; [by intros [? ?] | intros Hbad; exfalso; apply (proj2 Hmissing) in Hbad; by apply Hbad]|].
      split; [|intros exn [= <-]; right; by eexists].
      split; [intros _ | by eexists].
      destruct Hok. repeat split; try done. by eexists.
    + split; [split; [by intros [? ?] | intros Hbad; exfalso; apply (proj2 Hmissing) in Hbad; by apply Hbad]|].
      split; [|done]. split; [by intros [? ?]|].
      by intros (_ & _ & dates & [= <-] & Hlen).
    + split; [split; [by intros [? ?] | intros Hbad; exfalso; apply (proj2 Hmissing) in Hbad; by apply Hbad]|].
      split; [|intros exn [= <-]; right; by eexists].
      split; [intros _ | by eexists].
      destruct Hok. repeat split; try done. by eexists.
    + split; [split; [by intros [? ?] | intros Hbad; exfalso; apply (proj2 Hmissing) in Hbad; by apply Hbad]|].
      split; [|done]. split; [by intros [? ?]|].
      by intros (_ & _ & dates & [=] & _).
Qed.

End Filters.

Section FilteredCounts.

Import Analytics App OverviewSamples.

Lemma sessions_of_type_mono (ty : string) (df out : list Event) :
  (∀ e, e ∈ out → e ∈ df) →
  sessions_of_type ty (distinct_pairs out)
  ≤ sessions_of_type ty (distinct_pairs df).
Proof.
  intros Hsub. unfold sessions_of_type. apply nunique_mono. intros s.
  rewrite !elem_of_typed_sessions, !elem_of_distinct_pairs.
  intros (e & He & Hs & Hty). exists e. by split; [apply Hsub|].
Qed.

(** X12. Narrowing the selection never raises a count: on the result of
    [apply_filters] each session count of [funnel_by_session], and the user
    and session totals of [compute_kpis], are at most what they are on the
    unfiltered table. *)
Theorem filtered_counts_le series_sum series_mean (ui : Sidebar)
    (df out : list Event) (r r' : FunnelRow) :
  apply_filters ui df = inr out →
  funnel_by_session df = [r] → funnel_by_session out = [r'] →
  sessions_with_view r' ≤ sessions_with_view r ∧
  sessions_with_cart r' ≤ sessions_with_cart r ∧
  sessions_with_purchase r' ≤ sessions_with_purchase r ∧
  total_sessions (compute_kpis series_sum series_mean out)
  ≤ total_sessions (compute_kpis series_sum series_mean df) ∧
  total_users (compute_kpis series_sum series_mean out)
  ≤ total_users (compute_kpis series_sum series_mean df).
Proof.
  intros Hout Hr Hr'.
  assert (∀ e, e ∈ out → e ∈ df) as Hsub.
  { intros e He. destruct (apply_filters_inr ui df out Hout)
      as (start_date & end_date & _ & ->).
    by apply elem_of_pipeline in He as [He _]. }
  rewrite funnel_by_session_row in Hr, Hr'. cbv zeta in Hr, Hr'.
  injection Hr as <-. injection Hr' as <-. cbn.
  repeat split; try by apply sessions_of_type_mono.
  - apply nunique_mono. intros s. rewrite !list_elem_of_fmap.
    intros (e & Hs & He). exists e. by split; [|apply Hsub].
  - apply nunique_mono. intros s. rewrite !list_elem_of_fmap.
    intros (e & Hs & He). exists e. by split; [|apply Hsub].
Qed.

Lemma filtered_counts_le_witness :
  ∃ r r',
    funnel_by_session three_days = [r] ∧
    funnel_by_session [at_minute 1 30 "b" "purchase"; at_minute 1 40 "b" "view"]
    = [r'] ∧
    sessions_with_view r' ≤ sessions_with_view r.
Proof.
  eexists _, _. split; [vm_compute; reflexivity|].
  split; [vm_compute; reflexivity|].
  refine (proj1 (filtered_counts_le (λ _, None) (λ _, None)
                   {| date_range := DateSingle 18171%Z; selected := [];
                      chosen_cats := []; chosen_brands := [] |}
                   three_days
                   [at_minute 1 30 "b" "purchase"; at_minute 1 40 "b" "view"]
                   _ _ _ _ _)); vm_compute; reflexivity.
Defined.

End FilteredCounts.

(** ** Columns of the loaded table *)

Section FrameValues.

Import Frames FrameSpec.

Lemma list_find_setitem (col : string) (s : Series) (df : DataFrame) :
  list_find (λ c : string * Dtype, c.1 = col) (columns (setitem col s df))
  = Some (default (length (columns df)) (column_position col df),
          (col, dtype s)).
Proof.
  unfold setitem, column_position.
  destruct (list_find (λ c, c.1 = col) (columns df)) as [[j y]|] eqn:Hfind;
    cbn [fmap option_fmap option_map fst columns default].
  - apply list_find_Some in Hfind as (Hj & Hy & Hleast).
    apply list_find_insert_Some. right. left.
    split; [done|]. split; [done|].
    split; [by eapply lookup_lt_Some|]. split; [done|].
    intros i z Hz Hi. by eapply Hleast.
  - apply list_find_app_Some. right. split; [lia|]. split; [done|].
    rewrite Nat.sub_diag.
    apply list_find_Some. split; [done|]. split; [done|]. intros; lia.
Qed.

Lemma column_dtype_setitem_eq (col : string) (s : Series) (df : DataFrame) :
  column_dtype col (setitem col s df) = Some (dtype s).
Proof. unfold column_dtype. by rewrite list_find_setitem. Qed.

Lemma rectangular_setitem (col : string) (s : Series) (df : DataFrame) :
  rectangular df → rectangular (setitem col s df).
Proof.
  unfold rectangular, setitem. intros Hdf.
  destruct (column_position col df) as [j|]; cbn [columns rows].
  - rewrite length_insert. apply Forall_lookup. intros i cells.
    rewrite list_lookup_imap. intros (c & Hc & ->)%fmap_Some.
    rewrite length_insert. by eapply (Forall_lookup_1 _ _ _ _ Hdf).
  - rewrite length_app. apply Forall_lookup. intros i cells.
    rewrite list_lookup_imap. intros (c & Hc & ->)%fmap_Some.
    rewrite length_app. cbn. f_equal.
    by eapply (Forall_lookup_1 _ _ _ _ Hdf).
Qed.

Lemma rectangular_take_rows (positions : list nat) (df : DataFrame) :
  rectangular df → rectangular (take_rows positions df).
Proof.
  unfold rectangular, take_rows. cbn [columns rows]. intros Hdf.
  apply Forall_forall. intros cells (i & _ & Hi)%list_elem_of_omap.
  rewrite Forall_forall in Hdf. apply Hdf. by eapply list_elem_of_lookup_2.
Qed.

Lemma getitem_setitem_eq (col : string) (s : Series) (df : DataFrame) :
  rectangular df → length (values s) = len df →
  getitem col (setitem col s df) = inr s.
Proof.
  intros Hrect Hlen. unfold getitem. rewrite list_find_setitem.
  destruct s as [dt vs]. cbn [dtype values] in *. f_equal. f_equal.
  apply list_eq. intros i. rewrite list_lookup_fmap.
  unfold len in Hlen. unfold setitem, column_position.
  destruct (list_find (λ c, c.1 = col) (columns df)) as [[j y]|] eqn:Hfind;
    cbn [fmap option_fmap option_map fst rows default].
  - apply list_find_Some in Hfind as (Hj & _). apply lookup_lt_Some in Hj.
    rewrite list_lookup_imap.
    destruct (rows df !! i) as [cells|] eqn:Hcells;
      cbn [fmap option_fmap option_map].
    + rewrite list_lookup_insert_eq
        by by rewrite (Forall_lookup_1 _ _ _ _ Hrect Hcells).
      cbn [values]. apply lookup_lt_Some in Hcells.
      destruct (vs !! i) eqn:Hv; [done|]. apply lookup_ge_None in Hv. lia.
    + symmetry. apply lookup_ge_None. apply lookup_ge_None in Hcells. lia.
  - rewrite list_lookup_imap.
    destruct (rows df !! i) as [cells|] eqn:Hcells;
      cbn [fmap option_fmap option_map].
    + rewrite list_lookup_middle
        by by rewrite (Forall_lookup_1 _ _ _ _ Hrect Hcells).
      cbn [values]. apply lookup_lt_Some in Hcells.
      destruct (vs !! i) eqn:Hv; [done|]. apply lookup_ge_None in Hv. lia.
    + symmetry. apply lookup_ge_None. apply lookup_ge_None in Hcells. lia.
Qed.

Lemma getitem_setitem_ne (col col' : string) (s : Series) (df : DataFrame) :
  col ≠ col' → rectangular df →
  getitem col (setitem col' s df) = getitem col df.
Proof.
  intros Hne Hrect. unfold getitem, setitem, column_position.
  destruct (list_find (λ c, c.1 = col') (columns df)) as [[j' y]|] eqn:Hfind';
    cbn [fmap option_fmap option_map fst columns rows].
  - apply list_find_Some in Hfind' as (Hj' & Hy & _).
    cbn in Hy.
    rewrite (list_find_insert_other (λ c : string * Dtype, c.1 = col)
               (columns df) j' (col', dtype s) y Hj');
      [|cbn; intros ?; congruence..].
    destruct (list_find (λ c, c.1 = col) (columns df))
      as [[j [c dt]]|] eqn:Hfind; [|done].
    apply list_find_Some in Hfind as (Hj & Hc & _).
    assert (j' ≠ j).
    { intros ->. rewrite Hj in Hj'. injection Hj' as <-. cbn in *.
      congruence. }
    f_equal. f_equal. rewrite fmap_imap.
    rewrite <- (imap_const (λ cells : list Value, default NA (cells !! j))).
    apply imap_ext. intros i cells _. cbn.
    by rewrite list_lookup_insert_ne.
  - rewrite list_find_snoc_other by (cbn; intros ?; congruence).
    destruct (list_find (λ c, c.1 = col) (columns df))
      as [[j [c dt]]|] eqn:Hfind; [|done].
    apply list_find_Some in Hfind as (Hj & _). apply lookup_lt_Some in Hj.
    f_equal. f_equal. rewrite fmap_imap.
    rewrite <- (imap_const (λ cells : list Value, default NA (cells !! j))).
    apply imap_ext. intros i cells Hcells. cbn.
    rewrite lookup_app_l; [done|].
    by rewrite (Forall_lookup_1 _ _ _ _ Hrect Hcells).
Qed.

Lemma getitem_take_rows (col : string) (positions : list nat) (df : DataFrame)
    (s : Series) :
  getitem col df = inr s → Forall (λ i, i < len df) positions →
  getitem col (take_rows positions df)
  = inr {| dtype := dtype s;
           values := (λ i, default NA (values s !! i)) <$> positions |}.
Proof.
  unfold getitem, take_rows. cbn [columns rows].
  destruct (list_find _ _) as [[j [c dt]]|]; [|done].
  intros [= <-] Hpos. cbn [dtype values]. f_equal. f_equal.
  induction Hpos as [|i ps Hi _ IH]; [done|]. cbn [omap list_omap].
  apply lookup_lt_is_Some_2 in Hi as [cells Hcells]. rewrite Hcells.
  rewrite !fmap_cons, IH. f_equal.
  by rewrite list_lookup_fmap, Hcells.
Qed.

Lemma value_leb_total (a b : Value) : value_leb a b ∨ value_leb b a.
Proof.
  destruct a as [s|m|x|m|m|], b as [t|n|y|n|n|]; cbn;
    try (rewrite !bool_decide_spec; cbn; lia).
  - destruct (String.leb_total s t) as [->| ->]; [by left | by right].
  - destruct (Qlt_le_dec y x) as [Hyx|?]; [|by left].
    destruct (Qlt_le_dec x y) as [Hxy|?]; [|by right].
    exfalso. apply (Qlt_irrefl x). by eapply Qlt_trans.
Qed.

#[local] Instance key_le_total : Total key_le.
Proof. intros a b. apply value_leb_total. Qed.

Lemma argsort_keys (keys : list Value) :
  (λ i, default NA (keys !! i)) <$> argsort keys
  = fst <$> merge_sort key_le (zip keys (seq 0 (length keys))).
Proof.
  unfold argsort. rewrite <- list_fmap_compose.
  apply Forall_fmap_ext_1, Forall_forall. intros [k i] Hp. cbn.
  rewrite merge_sort_Permutation in Hp.
  apply list_elem_of_lookup_1 in Hp as [n Hn].
  apply lookup_zip_Some in Hn as [Hk Hi].
  apply lookup_seq in Hi as [-> _]. cbn [Nat.add]. by rewrite Hk.
Qed.

Lemma sort_values_ascending (col : string) (df sorted : DataFrame) :
  sort_values col df = inr sorted →
  ∃ s, getitem col sorted = inr s ∧ ascending s ∧ length (values s) = len df.
Proof.
  unfold sort_values. destruct (getitem col df) as [exn|s] eqn:Hget; [done|].
  cbn [mbind result_bind]. intros [= <-].
  pose proof (getitem_inr _ _ _ Hget) as [_ Hlen].
  eexists. split.
  - apply getitem_take_rows; [done|].
    rewrite argsort_Permutation, Hlen. apply Forall_seq. lia.
  - unfold ascending. cbn [values]. split.
    + rewrite argsort_keys. eapply Sorted_fmap; [|apply Sorted_merge_sort, _].
      by intros [a i] [b j].
    + by rewrite length_fmap, argsort_Permutation, length_seq.
Qed.

End FrameValues.

Section LoadedColumns.

Import Frames FrameSpec DataLoader.

Variable permutation : nat → list nat.

(** What [convert_columns] returns, written as the assignments it makes. *)
Lemma convert_columns_inr (df out : DataFrame) :
  convert_columns df = inr out →
  ∃ s1 s2 s3 d s4 s5,
    let df1 := setitem "user_id" (astype_string (astype_Int64 s1)) df in
    let df2 := setitem "user_session" (astype_string s2) df1 in
    let df3 := setitem "event_date" d df2 in
    let df4 := setitem "category_code" (astype_string s4) df3 in
    getitem "user_id" df = inr s1 ∧
    getitem "user_session" df1 = inr s2 ∧
    getitem "event_time" df2 = inr s3 ∧
    dt_date s3 = inr d ∧
    getitem "category_code" df3 = inr s4 ∧
    getitem "brand" df4 = inr s5 ∧
    out = setitem "brand" (astype_string s5) df4.
Proof.
  unfold convert_columns.
  destruct (getitem "user_id" df) as [?|s1] eqn:H1; [done|].
  cbn [mbind result_bind].
  destruct (getitem "user_session" _) as [?|s2] eqn:H2; [done|].
  cbn [mbind result_bind].
  destruct (getitem "event_time" _) as [?|s3] eqn:H3; [done|].
  cbn [mbind result_bind].
  destruct (dt_date s3) as [?|d] eqn:Hd; [done|].
  cbn [mbind result_bind].
  destruct (getitem "category_code" _) as [?|s4] eqn:H4; [done|].
  cbn [mbind result_bind].
  destruct (getitem "brand" _) as [?|s5] eqn:H5; [done|].
  cbn [mbind result_bind]. intros [= <-].
  by exists s1, s2, s3, d, s4, s5.
Qed.

Lemma dt_date_inr (s d : Series) :
  dt_date s = inr d →
  dtype s = datetime64 ∧ dtype d = object ∧
  length (values d) = length (values s).
Proof.
  unfold dt_date. case_decide; [|done]. intros [= <-]. cbn.
  by rewrite length_fmap.
Qed.

Lemma length_astype_string (s : Series) :
  length (values (astype_string s)) = length (values s).
Proof. cbn. by rewrite length_fmap. Qed.

(** X17. The dtypes of a table returned by [load_data]: [user_id],
    [user_session], [category_code] and [brand] are string columns,
    [event_time] is a datetime column, [event_date] is an object column
    (of dates), and every other column has the dtype it was read with. *)
Theorem load_data_dtypes (file : CsvFile) (df out : DataFrame) :
  read_csv file = inr df →
  load_data permutation (Some file) = inr out →
  column_dtype "user_id" out = Some string_dtype ∧
  column_dtype "user_session" out = Some string_dtype ∧
  column_dtype "category_code" out = Some string_dtype ∧
  column_dtype "brand" out = Some string_dtype ∧
  column_dtype "event_time" out = Some datetime64 ∧
  column_dtype "event_date" out = Some object ∧
  ∀ col,
    col ∉ ["user_id"; "user_session"; "event_date"; "category_code"; "brand"] →
    column_dtype col out = column_dtype col df.
Proof.
  intros Hread. unfold load_data. rewrite Hread. cbn [mbind result_bind].
  destruct (downsample permutation df) as [exn|sampled] eqn:Hdown; [done|].
  cbn [mbind result_bind]. intros Hconv.
  apply downsample_columns in Hdown.
  destruct (convert_columns_inr _ _ Hconv)
    as (s1 & s2 & s3 & d & s4 & s5 & _ & _ & H3 & Hd & _ & _ & ->).
  apply dt_date_inr in Hd as (Htime & Hdate & _).
  apply getitem_inr in H3 as [H3 _].
  rewrite !column_dtype_setitem_ne in H3 by done.
  repeat split.
  - rewrite !column_dtype_setitem_ne by done. by rewrite column_dtype_setitem_eq.
  - rewrite !column_dtype_setitem_ne by done. by rewrite column_dtype_setitem_eq.
  - rewrite !column_dtype_setitem_ne by done. by rewrite column_dtype_setitem_eq.
  - by rewrite column_dtype_setitem_eq.
  - rewrite !column_dtype_setitem_ne by done. by rewrite H3, Htime.
  - rewrite !column_dtype_setitem_ne by done.
    by rewrite column_dtype_setitem_eq, Hdate.
  - intros col Hcol.
    rewrite !column_dtype_setitem_ne
      by (intros ->; apply Hcol; set_solver).
    by apply column_dtype_same_columns.
Qed.

(** X18. A file of at most [TARGET_ROWS] rows is returned as it was read,
    row for row, except for the five columns that [load_data] assigns:
    [user_id] holds the decimal text of the identifiers, [user_session],
    [category_code] and [brand] hold what they held, as strings, and
    [event_date] holds the day of [event_time] for every row. *)
Theorem load_data_small_file (file : CsvFile) (df out : DataFrame) :
  rectangular df →
  read_csv file = inr df →
  len df ≤ TARGET_ROWS →
  load_data permutation (Some file) = inr out →
  len out = len df ∧
  (∃ user_id,
     getitem "user_id" df = inr user_id ∧
     getitem "user_id" out = inr (astype_string (astype_Int64 user_id))) ∧
  (∀ col, col ∈ ["user_session"; "category_code"; "brand"] →
     ∃ s, getitem col df = inr s ∧ getitem col out = inr (astype_string s)) ∧
  (∃ event_time event_date,
     getitem "event_time" df = inr event_time ∧
     getitem "event_time" out = inr event_time ∧
     dt_date event_time = inr event_date ∧
     getitem "event_date" out = inr event_date) ∧
  (∀ col,
     col ∉ ["user_id"; "user_session"; "event_date"; "category_code"; "brand"] →
     getitem col out = getitem col df).
Proof.
  intros Hrect Hread Hsmall. unfold load_data. rewrite Hread.
  cbn [mbind result_bind]. unfold downsample.
  rewrite decide_False by lia. cbn [mbind result_bind mret result_ret].
  intros Hconv.
  destruct (convert_columns_inr _ _ Hconv)
    as (s1 & s2 & s3 & d & s4 & s5 & H1 & H2 & H3 & Hd & H4 & H5 & ->).
  cbv zeta in *.
  set (df1 := setitem "user_id" (astype_string (astype_Int64 s1)) df) in *.
  set (df2 := setitem "user_session" (astype_string s2) df1) in *.
  set (df3 := setitem "event_date" d df2) in *.
  set (df4 := setitem "category_code" (astype_string s4) df3) in *.
  assert (rectangular df1) as Hrect1 by by apply rectangular_setitem.
  assert (rectangular df2) as Hrect2 by by apply rectangular_setitem.
  assert (rectangular df3) as Hrect3 by by apply rectangular_setitem.
  assert (rectangular df4) as Hrect4 by by apply rectangular_setitem.
  assert (len df1 = len df) as Hlen1 by apply len_setitem.
  assert (len df2 = len df) as Hlen2 by (unfold df2; by rewrite len_setitem).
  assert (len df3 = len df) as Hlen3 by (unfold df3; by rewrite len_setitem).
  assert (len df4 = len df) as Hlen4 by (unfold df4; by rewrite len_setitem).
  unfold df4 in H5. rewrite getitem_setitem_ne in H5 by done.
  unfold df3 in H5, H4. rewrite getitem_setitem_ne in H5, H4 by done.
  unfold df2 in H5, H4, H3. rewrite getitem_setitem_ne in H5, H4, H3 by done.
  unfold df1 in H5, H4, H3, H2.
  rewrite getitem_setitem_ne in H5, H4, H3, H2 by done.
  pose proof (getitem_inr _ _ _ H1) as [_ Hs1].
  pose proof (getitem_inr _ _ _ H2) as [_ Hs2].
  pose proof (getitem_inr _ _ _ H3) as [_ Hs3].
  pose proof (getitem_inr _ _ _ H4) as [_ Hs4].
  pose proof (getitem_inr _ _ _ H5) as [_ Hs5].
  pose proof (dt_date_inr _ _ Hd) as (_ & _ & Hsd).
  split; [by rewrite len_setitem|].
  split; [|split; [|split]].
  - exists s1. split; [done|].
    rewrite getitem_setitem_ne by done. unfold df4.
    rewrite getitem_setitem_ne by done. unfold df3.
    rewrite getitem_setitem_ne by done. unfold df2.
    rewrite getitem_setitem_ne by done. unfold df1.
    apply getitem_setitem_eq; [done|].
    by rewrite length_astype_string.
  - intros col Hcol.
    apply elem_of_cons in Hcol as [->|Hcol];
      [|apply elem_of_cons in Hcol as [->|Hcol];
        [|apply list_elem_of_singleton in Hcol as ->]].
    + exists s2. split; [done|].
      rewrite getitem_setitem_ne by done. unfold df4.
      rewrite getitem_setitem_ne by done. unfold df3.
      rewrite getitem_setitem_ne by done. unfold df2.
      apply getitem_setitem_eq; [done|].
      rewrite length_astype_string. congruence.
    + exists s4. split; [done|].
      rewrite getitem_setitem_ne by done. unfold df4.
      apply getitem_setitem_eq; [done|].
      rewrite length_astype_string. congruence.
    + exists s5. split; [done|].
      apply getitem_setitem_eq; [done|].
      rewrite length_astype_string. congruence.
  - exists s3, d. split; [done|]. split; [|split; [done|]].
    + rewrite getitem_setitem_ne by done. unfold df4.
      rewrite getitem_setitem_ne by done. unfold df3.
      rewrite getitem_setitem_ne by done. unfold df2.
      rewrite getitem_setitem_ne by done. unfold df1.
      by rewrite getitem_setitem_ne.
    + rewrite getitem_setitem_ne by done. unfold df4.
      rewrite getitem_setitem_ne by done. unfold df3.
      apply getitem_setitem_eq; [done|]. congruence.
  - intros col Hcol.
    assert (col ≠ "user_id" ∧ col ≠ "user_session" ∧ col ≠ "event_date" ∧
            col ≠ "category_code" ∧ col ≠ "brand") as (? & ? & ? & ? & ?).
    { repeat split; intros ->; apply Hcol; set_solver. }
    rewrite getitem_setitem_ne by done. unfold df4.
    rewrite getitem_setitem_ne by done. unfold df3.
    rewrite getitem_setitem_ne by done. unfold df2.
    rewrite getitem_setitem_ne by done. unfold df1.
    by rewrite getitem_setitem_ne.
Qed.

(** X19. When the file holds more than [TARGET_ROWS] rows, the table
    returned by [load_data] has its [TARGET_ROWS] rows in ascending order
    of [event_time]. *)
Theorem load_data_sorted (file : CsvFile) (df out : DataFrame) :
  (∀ n, permutation n ≡ₚ seq 0 n) →
  rectangular df →
  read_csv file = inr df →
  TARGET_ROWS < len df →
  load_data permutation (Some file) = inr out →
  ∃ event_time,
    getitem "event_time" out = inr event_time ∧
    ascending event_time ∧
    length (values event_time) = TARGET_ROWS.
Proof.
  intros Hperm Hrect Hread Hbig. unfold load_data. rewrite Hread.
  cbn [mbind result_bind].
  destruct (downsample permutation df) as [exn|sorted] eqn:Hdown; [done|].
  cbn [mbind result_bind]. intros Hconv.
  pose proof (downsample_len permutation _ _ Hperm Hdown) as Hlen.
  rewrite decide_True in Hlen by done.
  revert Hdown. unfold downsample, sample.
  rewrite decide_True by done. rewrite decide_True by lia.
  cbn [mbind result_bind]. intros Hsort.
  assert (rectangular sorted) as Hrect'.
  { revert Hsort. unfold sort_values.
    destruct (getitem _ _); [done|]. cbn [mbind result_bind].
    intros [= <-]. by do 2 apply rectangular_take_rows. }
  destruct (sort_values_ascending _ _ _ Hsort) as (s & Hs & Hasc & Hvalues).
  exists s. split; [|split; [done|]].
  - destruct (convert_columns_inr _ _ Hconv)
      as (s1 & s2 & s3 & d & s4 & s5 & _ & _ & _ & _ & _ & _ & ->).
    rewrite !getitem_setitem_ne
      by (done || (repeat apply rectangular_setitem; done)).
    done.
  - apply getitem_inr in Hs as [_ ->]. done.
Qed.

End LoadedColumns.

Section LoadedSamples.

Import Frames FrameSpec DataLoader LoaderSamples PreprocessSamples.

Lemma rectangular_timed_file (n : nat) : rectangular (timed_file n).
Proof.
  unfold rectangular, timed_file. cbn [rows columns].
  apply Forall_fmap, Forall_true. done.
Qed.

Lemma load_data_dtypes_witness :
  ∃ out,
    load_data reversed (Some (Tabular two_events)) = inr out ∧
    column_dtype "user_id" out = Some string_dtype ∧
    column_dtype "event_date" out = Some object.
Proof.
  eexists. split; [vm_compute; reflexivity|].
  destruct (load_data_dtypes reversed (Tabular two_events) two_events _
              eq_refl eq_refl) as (Huid & _ & _ & _ & _ & Hdate & _).
  split; [exact Huid | exact Hdate].
Defined.

Lemma load_data_small_file_witness :
  ∃ out event_date,
    load_data reversed (Some (Tabular two_events)) = inr out ∧
    getitem "event_date" out = inr event_date ∧
    values event_date = [VDate 18170; VDate 18170].
Proof.
  assert (rectangular two_events) as Hrect by repeat constructor.
  assert (len two_events ≤ TARGET_ROWS) as Hsmall
    by (unfold TARGET_ROWS, len; simpl; lia).
  eexists. eexists. split; [vm_compute; reflexivity|].
  destruct (load_data_small_file reversed (Tabular two_events) two_events _
              Hrect eq_refl Hsmall eq_refl)
    as (_ & _ & _ & (event_time & event_date & Htime & _ & Hdate & Hout) & _).
  vm_compute in Htime. injection Htime as <-.
  vm_compute in Hdate. injection Hdate as <-.
  split; [exact Hout | reflexivity].
Defined.

Lemma load_data_sorted_witness :
  ∃ out event_time,
    load_data reversed (Some (Tabular (timed_file (S TARGET_ROWS)))) = inr out ∧
    getitem "event_time" out = inr event_time ∧
    ascending event_time.
Proof.
  destruct (load_data_returns reversed (timed_file (S TARGET_ROWS)))
    as [out Hout]; [by eexists | by eexists | done | by eexists | by eexists |].
  destruct (load_data_sorted reversed (Tabular (timed_file (S TARGET_ROWS)))
              (timed_file (S TARGET_ROWS)) out
              (λ n, reverse_Permutation (seq 0 n))
              (rectangular_timed_file _))
    as (event_time & Hget & Hasc & _).
  - reflexivity.
  - unfold len, timed_file. cbn [rows]. rewrite length_fmap, length_seq. lia.
  - exact Hout.
  - exists out, event_time.
    split; [exact Hout | split; [exact Hget | exact Hasc]].
Defined.

End LoadedSamples.

(** ** Rows for the heavy tabs *)

Section HeavyRows.

Import Analytics App Main OverviewSamples.

Variable permutation : nat → list nat.

Lemma length_omap_lookup {A} (l : list A) (positions : list nat) :
  Forall (λ i, i < length l) positions →
  length (omap (λ i, l !! i) positions) = length positions.
Proof.
  induction 1 as [|i ps Hi _ IH]; [done|]. cbn.
  apply lookup_lt_is_Some_2 in Hi as [x ->]. cbn. by f_equal.
Qed.

Lemma elem_of_sample_rows (n : nat) (filtered : list Event) (e : Event) :
  e ∈ sample_rows permutation n filtered → e ∈ filtered.
Proof.
  unfold sample_rows. rewrite list_elem_of_omap.
  intros (i & _ & Hi). by eapply list_elem_of_lookup_2.
Qed.

(** X13. A table of at most 50,000 rows, which is what [load_data] returns,
    is never sampled for the heavy tabs: whatever the sidebar selects and
    whether fast mode is on or off, [filtered_heavy] is [filtered]
    itself. *)
Theorem heavy_rows_of_loaded (fast_mode : bool) (ui : Sidebar)
    (df filtered : list Event) :
  length df ≤ DataLoader.TARGET_ROWS →
  apply_filters ui df = inr filtered →
  heavy_rows permutation fast_mode filtered = filtered.
Proof.
  intros Hcap Hfiltered.
  destruct (apply_filters_inr ui df filtered Hfiltered)
    as (start_date & end_date & _ & ->).
  set (filtered := filter_brands _ _).
  assert (filtered `sublist_of` df) as Hsub.
  { subst filtered.
    unfold filter_brands, filter_categories, filter_event_types.
    etransitivity; [apply (sublist_selection brand)|].
    etransitivity; [apply (sublist_selection category_code)|].
    etransitivity; [apply (sublist_selection event_type)|].
    apply sublist_filter. }
  apply sublist_length in Hsub. unfold heavy_rows.
  rewrite bool_decide_eq_false_2.
  - by rewrite andb_false_r.
  - unfold MAX_ROWS_DETAILED, DataLoader.TARGET_ROWS in *. lia.
Qed.

(** X14. The rows handed to the heavy tabs are rows of the filtered table.
    With fast mode on there are at most [MAX_ROWS_DETAILED] = 300,000 of
    them, exactly that many when the filtered table is larger; with fast
    mode off the table is passed on as it is. *)
Theorem heavy_rows_bound (fast_mode : bool) (filtered : list Event) :
  (∀ n, permutation n ≡ₚ seq 0 n) →
  (∀ e, e ∈ heavy_rows permutation fast_mode filtered → e ∈ filtered) ∧
  length (heavy_rows permutation fast_mode filtered)
  = (if fast_mode then length filtered `min` MAX_ROWS_DETAILED
     else length filtered) ∧
  (fast_mode = false → heavy_rows permutation fast_mode filtered = filtered).
Proof.
  intros Hperm. unfold heavy_rows. split; [|split].
  - intros e. destruct (_ && _); [apply elem_of_sample_rows | done].
  - destruct fast_mode; cbn [andb]; [|done]. case_bool_decide as Hbig; [|lia].
    unfold sample_rows. rewrite length_omap_lookup.
    + rewrite length_take, Hperm, length_seq. lia.
    + apply Forall_take. rewrite Hperm. apply Forall_seq. lia.
  - by intros ->.
Qed.

End HeavyRows.

Lemma heavy_rows_of_loaded_witness :
  Main.heavy_rows LoaderSamples.reversed true
    [OverviewSamples.at_minute 2 0 "c" "view"]
  = [OverviewSamples.at_minute 2 0 "c" "view"].
Proof.
  apply (heavy_rows_of_loaded LoaderSamples.reversed true
           {| App.date_range := App.DateSingle 18172%Z; App.selected := [];
              App.chosen_cats := []; App.chosen_brands := [] |}
           OverviewSamples.three_days).
  - unfold DataLoader.TARGET_ROWS. cbn. lia.
  - vm_compute. reflexivity.
Defined.

Lemma heavy_rows_bound_witness :
  Main.MAX_ROWS_DETAILED
  < length (OverviewSamples.many_views (S Main.MAX_ROWS_DETAILED)) ∧
  length (Main.heavy_rows LoaderSamples.reversed true
            (OverviewSamples.many_views (S Main.MAX_ROWS_DETAILED)))
  = Main.MAX_ROWS_DETAILED.
Proof.
  assert (length (OverviewSamples.many_views (S Main.MAX_ROWS_DETAILED))
          = S Main.MAX_ROWS_DETAILED) as Hrows.
  { unfold OverviewSamples.many_views. rewrite length_fmap. apply length_seq. }
  destruct (heavy_rows_bound LoaderSamples.reversed true
              (OverviewSamples.many_views (S Main.MAX_ROWS_DETAILED))
              (λ n, reverse_Permutation (seq 0 n)))
    as (_ & Hlen & _).
  split; [rewrite Hrows; lia|].
  etransitivity; [exact Hlen|]. rewrite Hrows. lia.
Defined.

(** ** Sampling the raw file *)

Section PreprocessFacts.

Import Frames DataLoader Preprocess.

Variable permutation : nat → list nat.
Variable to_datetime : Series → Exception + Series.
Hypothesis permutation_spec : ∀ n, permutation n ≡ₚ seq 0 n.

Lemma sample_ok (n : nat) (chunk : DataFrame) :
  n ≤ len chunk →
  ∃ s, sample permutation n chunk = inr s ∧ len s = n.
Proof.
  intros Hn. unfold sample. rewrite decide_True by done. eexists.
  split; [reflexivity|]. rewrite len_take_rows.
  - rewrite length_take, permutation_spec, length_seq. lia.
  - apply Forall_take. rewrite permutation_spec. apply Forall_seq. lia.
Qed.

Lemma tenth_le (n : nat) : tenth n ≤ n.
Proof. unfold tenth. apply Nat.Div0.div_le_upper_bound. lia. Qed.

(** The loop never raises; it collects non-empty samples whose sizes add up
    to the cap or to a tenth of every chunk, whichever is smaller. *)
Lemma collect_total (chunks : list DataFrame) (total_collected : nat)
    (samples : list DataFrame) :
  total_collected ≤ TARGET_ROWS →
  sum_list (len <$> samples) = total_collected →
  Forall (λ s, 0 < len s) samples →
  ∃ out,
    collect permutation chunks total_collected samples = inr out ∧
    sum_list (len <$> out)
    = TARGET_ROWS `min` (total_collected + sum_list ((tenth ∘ len) <$> chunks)) ∧
    Forall (λ s, 0 < len s) out.
Proof.
  revert total_collected samples.
  induction chunks as [|chunk chunks IH]; intros total samples Hcap Hsum Hpos.
  - exists samples. cbn. split; [done|]. split; [lia | done].
  - cbn [collect]. case_decide as Hfull.
    { exists samples. split; [done|]. split; [|done]. rewrite Hsum. lia. }
    cbv zeta. case_decide as Hnone.
    { destruct (IH total samples Hcap Hsum Hpos) as (out & -> & Hout & Hpos').
      exists out. split; [done|]. split; [|done]. rewrite Hout.
      change (sum_list ((tenth ∘ len) <$> chunk :: chunks))
        with (tenth (len chunk) + sum_list ((tenth ∘ len) <$> chunks)).
      lia. }
    destruct (sample_ok ((TARGET_ROWS - total) `min` tenth (len chunk)) chunk)
      as (s & -> & Hs).
    { pose proof (tenth_le (len chunk)). lia. }
    cbn [mbind result_bind].
    destruct (IH (total + len s) (samples ++ [s])%list) as (out & -> & Hout & Hpos').
    + lia.
    + rewrite fmap_app, sum_list_with_app. cbn. lia.
    + apply Forall_app. split; [done|]. constructor; [lia | constructor].
    + exists out. split; [done|]. split; [|done]. rewrite Hout.
      change (sum_list ((tenth ∘ len) <$> chunk :: chunks))
        with (tenth (len chunk) + sum_list ((tenth ∘ len) <$> chunks)).
      lia.
Qed.

Lemma blocks_tenth {A} (fuel : nat) (rows : list A) :
  length rows ≤ fuel →
  sum_list ((tenth ∘ length) <$> blocks fuel CHUNKSIZE rows)
  = tenth (length rows).
Proof.
  revert rows. induction fuel as [|fuel IH]; intros rows Hfuel.
  - destruct rows; [done | cbn in Hfuel; lia].
  - destruct rows as [|x rows]; [done|].
    cbn [blocks fmap list_fmap sum_list compose].
    rewrite IH by (rewrite length_drop; cbn in *; unfold CHUNKSIZE; lia).
    rewrite length_take, length_drop.
    unfold tenth, CHUNKSIZE. generalize (length (x :: rows)). intros n.
    destruct (decide (n ≤ Z.to_nat 500000)) as [Hsmall|Hbig].
    + replace (n - Z.to_nat 500000) with 0 by lia.
      replace (Z.to_nat 500000 `min` n) with n by lia.
      cbn. lia.
    + replace (Z.to_nat 500000 `min` n) with (Z.to_nat 500000) by lia.
      assert (∃ m, n = m + Z.to_nat 500000) as [m ->]
        by (exists (n - Z.to_nat 500000); lia).
      replace (m + Z.to_nat 500000 - Z.to_nat 500000) with m by lia.
      replace (Z.to_nat 500000) with (Z.to_nat 50000 * 10) by lia.
      rewrite Nat.div_add, Nat.div_mul by lia. apply Nat.add_comm.
Qed.

Lemma len_select_columns (cols : list string) (df : DataFrame) :
  len (select_columns cols df) = len df.
Proof. unfold len, select_columns. cbn. by rewrite length_fmap. Qed.

Lemma read_chunks_tenth (df : DataFrame) (chunks : list DataFrame) :
  read_chunks df = inr chunks →
  sum_list ((tenth ∘ len) <$> chunks) = tenth (len df).
Proof.
  unfold read_chunks. case_bool_decide; [|done].
  rewrite <- (len_select_columns USECOLS df).
  case_decide as Hempty; intros [= <-].
  { apply Nat.add_0_r. }
  rewrite <- list_fmap_compose.
  transitivity (sum_list ((tenth ∘ length)
                            <$> blocks (len (select_columns USECOLS df)) CHUNKSIZE
                                  (rows (select_columns USECOLS df)))).
  { done. }
  by rewrite blocks_tenth.
Qed.

Lemma len_concat (samples : list DataFrame) :
  len (concat samples) = sum_list (len <$> samples).
Proof.
  unfold len, concat. cbn [rows].
  induction samples as [|s samples IH]; [done|].
  rewrite fmap_cons.
  change (mjoin (rows s :: (rows <$> samples)))
    with (rows s ++ mjoin (rows <$> samples))%list.
  rewrite length_app, IH. done.
Qed.

Lemma column_dtype_filter (col : string) (keep : string * Dtype → Prop)
    `{∀ c, Decision (keep c)} (cols : list (string * Dtype)) :
  (∀ c, c.1 = col → keep c) →
  (snd ∘ snd) <$> list_find (λ c : string * Dtype, c.1 = col) (filter keep cols)
  = (snd ∘ snd) <$> list_find (λ c : string * Dtype, c.1 = col) cols.
Proof.
  intros Hkeep. induction cols as [|c cols IH]; [done|].
  rewrite filter_cons.
  destruct (decide (c.1 = col)) as [Hc|Hc].
  - rewrite (decide_True (P := keep c)) by by apply Hkeep.
    cbn [list_find]. by rewrite !decide_True.
  - destruct (decide (keep c)); cbn [list_find]; rewrite !decide_False by done;
      destruct (list_find _ (filter keep cols)) as [[? [? ?]]|],
               (list_find _ cols) as [[? [? ?]]|];
      cbn in *; congruence.
Qed.

Lemma column_dtype_select_columns (col : string) (cols : list string)
    (df : DataFrame) :
  col ∈ cols →
  column_dtype col (select_columns cols df) = column_dtype col df.
Proof.
  intros Hcol. unfold column_dtype, select_columns. cbn [columns].
  apply column_dtype_filter. by intros c ->.
Qed.

Lemma collect_columns (cols : list (string * Dtype)) (chunks : list DataFrame)
    (total_collected : nat) (samples out : list DataFrame) :
  Forall (λ c, columns c = cols) chunks →
  Forall (λ s, columns s = cols) samples →
  collect permutation chunks total_collected samples = inr out →
  Forall (λ s, columns s = cols) out.
Proof.
  intros Hchunks. revert total_collected samples.
  induction Hchunks as [|chunk chunks Hchunk _ IH]; intros total samples Hs.
  - by intros [= <-].
  - cbn [collect]. case_decide; [by intros [= <-]|]. cbv zeta.
    case_decide; [by apply IH|].
    unfold sample. case_decide; [|done]. cbn [mbind result_bind].
    apply IH. apply Forall_app. split; [done|]. by constructor.
Qed.

Lemma read_chunks_columns (df : DataFrame) (chunks : list DataFrame) :
  read_chunks df = inr chunks →
  Forall (λ c, columns c = columns (select_columns USECOLS df)) chunks.
Proof.
  unfold read_chunks. case_bool_decide; [|done].
  case_decide; intros [= <-]; [by constructor|].
  apply Forall_fmap, Forall_true. done.
Qed.

(** X15. What [main] does with a raw file that holds a table with the
    columns of [USECOLS].  Fewer than ten rows: nothing is written.
    Otherwise the table written has [min(TARGET_ROWS, len(df) // 10)] rows,
    so a tenth of the file and never more than 1,000,000, with
    [event_time] parsed and the column [event_date] added; the only
    exceptions are the one [pd.to_datetime] raises and the
    [AttributeError] of [.dt] when the parsed column is not datetime-like. *)
Theorem preprocess_main_outcome (df : DataFrame) :
  Forall (λ col, has_column col df = true) USECOLS →
  match main permutation to_datetime (Some df) with
  | inr None => len df < 10
  | inr (Some out) =>
      10 ≤ len df ∧
      len out = TARGET_ROWS `min` (len df / 10) ∧
      column_dtype "event_time" out = Some datetime64 ∧
      column_dtype "event_date" out = Some object
  | inl exn =>
      10 ≤ len df ∧
      ∃ event_time,
        length (values event_time) = TARGET_ROWS `min` (len df / 10) ∧
        (to_datetime event_time = inl exn ∨
         ∃ parsed,
           to_datetime event_time = inr parsed ∧ dtype parsed ≠ datetime64 ∧
           exn = AttributeError
                   "Can only use .dt accessor with datetimelike values")
  end.
Proof.
  intros Hcols. unfold main.
  destruct (read_chunks df) as [exn|chunks] eqn:Hread.
  { exfalso. unfold read_chunks in Hread.
    rewrite bool_decide_eq_true_2 in Hread.
    - by case_decide.
    - eapply Forall_impl; [exact Hcols|]. intros col Hcol. by rewrite Hcol. }
  cbn [mbind result_bind].
  pose proof (read_chunks_tenth df chunks Hread) as Htenth.
  pose proof (read_chunks_columns df chunks Hread) as Hcolumns.
  destruct (collect_total chunks 0 []) as (samples & Hcollect & Hsum & Hpos);
    [lia | done | done |].
  rewrite Hcollect. cbn [mbind result_bind].
  rewrite Htenth in Hsum. cbn [Nat.add] in Hsum.
  pose proof (collect_columns _ chunks 0 [] samples Hcolumns (Forall_nil_2 _)
                Hcollect) as Hsamples.
  unfold tenth in Hsum.
  destruct samples as [|s samples].
  { cbn. cbn -[Nat.div Nat.min] in Hsum.
    destruct (decide (len df < 10)) as [|Hbig]; [done|]. exfalso.
    assert (1 ≤ len df / 10) by (apply Nat.div_le_lower_bound; lia).
    unfold TARGET_ROWS in Hsum. lia. }
  assert (10 ≤ len df) as Hten.
  { apply Forall_cons in Hpos as [Hs _].
    destruct (decide (10 ≤ len df)) as [|Hsmall]; [done|]. exfalso.
    rewrite Nat.div_small in Hsum by lia.
    cbn -[Nat.div Nat.min] in Hsum. lia. }
  cbn [App.truthy empty negb].
  set (sample_df := concat (s :: samples)).
  assert (len sample_df = TARGET_ROWS `min` (len df / 10)) as Hlen.
  { subst sample_df. by rewrite len_concat. }
  assert (is_Some (column_dtype "event_time" sample_df)) as [dt Hdt].
  { assert (columns sample_df = columns (select_columns USECOLS df)) as Heq.
    { subst sample_df. unfold concat. cbn.
      by apply Forall_cons in Hsamples as [-> _]. }
    unfold column_dtype. rewrite Heq.
    change (is_Some (column_dtype "event_time" (select_columns USECOLS df))).
    assert ("event_time" ∈ USECOLS) as Hin
      by (unfold USECOLS; rewrite elem_of_cons; by left).
    rewrite column_dtype_select_columns by done.
    apply has_column_dtype.
    rewrite Forall_forall in Hcols. by apply Hcols. }
  destruct (getitem_of_dtype _ _ _ Hdt) as (event_time & -> & _ & Hvalues).
  cbn [mbind result_bind].
  destruct (to_datetime event_time) as [exn|parsed] eqn:Hparse;
    cbn [mbind result_bind].
  { split; [done|]. exists event_time. split; [congruence|]. by left. }
  destruct (getitem_of_dtype "event_time" (setitem "event_time" parsed sample_df)
              (dtype parsed) (column_dtype_setitem_eq _ _ _))
    as (event_time' & -> & Hdtype & _).
  cbn [mbind result_bind]. unfold dt_date.
  rewrite Hdtype. case_decide as Hdatetime; cbn [mbind result_bind mret result_ret].
  - split; [done|]. split; [by rewrite !len_setitem|].
    split.
    + rewrite column_dtype_setitem_ne by done.
      by rewrite column_dtype_setitem_eq, Hdatetime.
    + by rewrite column_dtype_setitem_eq.
  - split; [done|]. exists event_time. split; [congruence|].
    right. by exists parsed.
Qed.

End PreprocessFacts.

Lemma preprocess_main_outcome_witness :
  match Preprocess.main LoaderSamples.reversed PreprocessSamples.coerce_times
          (Some (PreprocessSamples.raw_file 25)) with
  | inr (Some out) => Frames.len out = 2
  | _ => False
  end.
Proof.
  pose proof (preprocess_main_outcome LoaderSamples.reversed
                PreprocessSamples.coerce_times
                (λ n, reverse_Permutation (seq 0 n))
                (PreprocessSamples.raw_file 25)) as Hmain.
  destruct (Preprocess.main _ _ _) as [exn|[out|]] eqn:Hrun.
  - vm_compute in Hrun. discriminate Hrun.
  - destruct Hmain as (_ & Hlen & _); [by vm_compute; repeat constructor|].
    exact Hlen.
  - vm_compute in Hrun. discriminate Hrun.
Defined.

(** ** The overview functions and the loaded table *)

(** One step of a frame proof for programs made of pandas expressions,
    emptiness tests and column assignments. *)
Ltac keeps_step :=
  lazymatch goal with
  | |- Store.keeps _ (mbind _ _) _ =>
      eapply keeps_bind; [keeps_step | intros ? ?; keeps_step]
  | |- Store.keeps _ (if ?b then _ else _) _ => destruct b; keeps_step
  | |- Store.keeps _ (mret _) _ =>
      first [apply keeps_ret_any | apply keeps_ret; assumption]
  | |- Store.keeps _ (Store.assign_column _ _ _) _ =>
      apply keeps_assign_column; assumption
  | |- Store.keeps _ (Store.pandas _ _ _ _) _ => apply keeps_pandas
  | |- Store.keeps _ (Store.pandas_series _ _ _ _) _ =>
      apply keeps_pandas_series
  | |- Store.keeps _ (Store.pandas_value _ _ _ _) _ => apply keeps_pandas_value
  | |- Store.keeps _ (Store.is_empty _) _ => apply keeps_is_empty
  end.

Section OverviewFrame.

Import Frames Store StoreMore StoreSamples.

Variable frame_expr : string → list Value → list DataFrame → Exception + DataFrame.
Variable series_expr : string → list Value → list DataFrame → Exception + Series.
Variable value_expr : string → list Value → list DataFrame → Exception + list Value.

Variable before : heap.

Lemma keeps_events_over_time df :
  keeps before (events_over_time frame_expr df) (created_after before).
Proof. unfold events_over_time. keeps_step. Qed.

Lemma keeps_event_type_distribution df :
  keeps before (event_type_distribution frame_expr df) (created_after before).
Proof. unfold event_type_distribution. keeps_step. Qed.

Lemma keeps_bounce_rate df :
  keeps before (bounce_rate frame_expr value_expr df) (λ _, True).
Proof. unfold bounce_rate. keeps_step. Qed.

Lemma keeps_session_depth_distribution df :
  keeps before (session_depth_distribution frame_expr series_expr df)
    (created_after before).
Proof. unfold session_depth_distribution. keeps_step. Qed.

Lemma keeps_trends_summary df :
  keeps before (trends_summary frame_expr value_expr df) (λ _, True).
Proof.
  unfold trends_summary.
  eapply keeps_bind; [apply keeps_events_over_time|]. intros events_df _.
  keeps_step.
Qed.

Lemma keeps_category_price_revenue df top_n :
  keeps before (category_price_revenue frame_expr series_expr df top_n)
    (created_after before).
Proof. unfold category_price_revenue. keeps_step. Qed.

End OverviewFrame.

Section OverviewMutation.

Import Frames Store StoreMore StoreSamples.

(** X16. The overview functions do not touch the table they are given
    either: after a call of [events_over_time], [event_type_distribution],
    [bounce_rate], [session_depth_distribution], [trends_summary] or
    [category_price_revenue], whether it returned or raised, the object
    passed as [df] holds the table it held before.  The columns that
    [session_depth_distribution] and [category_price_revenue] assign go to
    objects made during the call. *)
Theorem overview_leave_input_unchanged
    (frame_expr : string → list Value → list DataFrame → Exception + DataFrame)
    (series_expr : string → list Value → list DataFrame → Exception + Series)
    (value_expr : string → list Value → list DataFrame → Exception + list Value)
    (h : heap) (df : nat) (table : DataFrame) (top_n : Z) :
  h !! df = Some table →
  (events_over_time frame_expr df h).2 !! df = Some table ∧
  (event_type_distribution frame_expr df h).2 !! df = Some table ∧
  (bounce_rate frame_expr value_expr df h).2 !! df = Some table ∧
  (session_depth_distribution frame_expr series_expr df h).2 !! df
    = Some table ∧
  (trends_summary frame_expr value_expr df h).2 !! df = Some table ∧
  (category_price_revenue frame_expr series_expr df top_n h).2 !! df
    = Some table.
Proof.
  intros Hdf.
  repeat split; (eapply lookup_weaken; [exact Hdf|]).
  - by apply (keeps_events_over_time frame_expr h df h).
  - by apply (keeps_event_type_distribution frame_expr h df h).
  - by apply (keeps_bounce_rate frame_expr value_expr h df h).
  - by apply (keeps_session_depth_distribution frame_expr series_expr h df h).
  - by apply (keeps_trends_summary frame_expr value_expr h df h).
  - by apply (keeps_category_price_revenue frame_expr series_expr h df top_n h).
Qed.

Lemma overview_leave_input_unchanged_witness :
  (session_depth_distribution first_table constant_column 0 loaded).2 !! 0
    = Some LoaderSamples.two_events ∧
  (category_price_revenue first_table constant_column 0 10 loaded).2 !! 0
    = Some LoaderSamples.two_events.
Proof.
  destruct (overview_leave_input_unchanged first_table constant_column
              always_one loaded 0 LoaderSamples.two_events 10 eq_refl)
    as (_ & _ & _ & Hdepth & _ & Hrevenue).
  split; [exact Hdepth | exact Hrevenue].
Defined.

End OverviewMutation.

(** ** The first page *)

Section FirstPage.

Import Analytics App Overview Behaviour Widgets OverviewSamples.






End FirstPage.
